(** * Order validation and audit logging of the Caarl storefront

    A shallow embedding of the order-validation pipeline found in
    [src/lib/guest-checkout.ts], which bundles these TypeScript modules:

    - [order-validation-client]: the synchronous business-rule validator
      used by the cart page;
    - [order-validation]: the validator that queries the database, a second
      set of business rules and the composite [validateOrder];
    - [order-audit-logger]: the [OrderAuditLogger] class;
    - [guest-checkout]: the guest cart and the checkout data kept in
      [localStorage], and the migration of the guest cart;

    and of the form of [src/components/cart-items.tsx] that builds the
    draft and runs the client validator on it.

    JavaScript numbers are IEEE 754 binary64 values and are modelled by
    Rocq's primitive floats, which are binary64 as well.  Strings are
    sequences of 8-bit code units.  Code that pushes onto arrays, awaits
    remote calls and catches exceptions is written in a small state and
    exception monad in which the state survives a [throw], as the arrays
    of the source do. *)

From Stdlib Require Import List String Ascii ZArith Lia Bool Floats.
From Stdlib Require Import DecimalString DecimalNat.
Import ListNotations.
Open Scope string_scope.
Open Scope list_scope.
#[local] Set Warnings "-inexact-float".

(** ** The JavaScript primitives the source relies on *)

Module Js.

Definition number := float.

Inductive exn : Type :=
| TypeError (msg : string)
| RangeError (msg : string)
| ReferenceError (msg : string)
| HostError (msg : string).

Definition Result (A : Type) : Type := (exn + A)%type.

(** Relational operators on numbers; every comparison with NaN is false. *)
Definition lt (a b : number) : bool := PrimFloat.ltb a b.
Definition le (a b : number) : bool := PrimFloat.leb a b.
Definition gt (a b : number) : bool := PrimFloat.ltb b a.

(** [x || 0] on an optional number: [undefined], [0], [-0] and [NaN]
    are falsy. *)
Definition truthyNumber (x : number) : bool :=
  negb (PrimFloat.is_zero x || PrimFloat.is_nan x).

Definition orZero (x : option number) : number :=
  match x with
  | Some v => if truthyNumber v then v else 0%float
  | None => 0%float
  end.

(** [s.length] *)
Definition length (s : string) : Z := Z.of_nat (String.length s).

(** A string is truthy when it is not empty. *)
Definition truthy (s : string) : bool := negb (s =? "")%string.

Definition clamp (len x : Z) : Z := Z.min (Z.max x 0) len.

(** [s.substring(start, end)]: both indices are clamped to the string
    and swapped when out of order. *)
Definition substring (s : string) (start stop : Z) : string :=
  let a := clamp (length s) start in
  let b := clamp (length s) stop in
  String.substring (Z.to_nat (Z.min a b)) (Z.to_nat (Z.max a b - Z.min a b)) s.

(** [s.substring(start)] *)
Definition substringFrom (s : string) (start : Z) : string :=
  substring s start (length s).

Fixpoint replicate (n : nat) (s : string) : string :=
  match n with
  | O => ""
  | S k => s ++ replicate k s
  end.

(** [s.repeat(count)] throws a RangeError on a negative count. *)
Definition repeat (s : string) (count : Z) : Result string :=
  if (count <? 0)%Z then inl (RangeError "Invalid count value")
  else inr (replicate (Z.to_nat count) s).

(** White space of [\s] and of [trim] within the 8-bit range. *)
Definition isWhiteSpace (c : ascii) : bool :=
  let n := nat_of_ascii c in
  ((9 <=? n) && (n <=? 13) || (n =? 32) || (n =? 160))%nat.

Fixpoint trimStart (s : string) : string :=
  match s with
  | EmptyString => ""
  | String c r => if isWhiteSpace c then trimStart r else s
  end.

Fixpoint trimEnd (s : string) : string :=
  match s with
  | EmptyString => ""
  | String c r =>
      let r' := trimEnd r in
      if isWhiteSpace c && (r' =? "")%string then "" else String c r'
  end.

Definition trim (s : string) : string := trimEnd (trimStart s).

(** [!s?.trim()] for a string-typed field. *)
Definition blank (s : string) : bool := negb (truthy (trim s)).

(** [s.split(sep)] for a one-character separator. *)
Fixpoint split (sep : ascii) (s : string) : list string :=
  match s with
  | EmptyString => [""]
  | String c r =>
      if Ascii.eqb c sep then "" :: split sep r
      else match split sep r with
           | [] => [String c ""]
           | w :: ws => String c w :: ws
           end
  end.

(** [l.join(sep)] *)
Fixpoint join (sep : string) (l : list string) : string :=
  match l with
  | [] => ""
  | [x] => x
  | x :: rest => x ++ sep ++ join sep rest
  end.

(** [l.includes(x)] on an array of strings. *)
Definition includes (l : list string) (x : string) : bool :=
  existsb (String.eqb x) l.

(** Interpolation of an array index in a template literal. *)
Definition indexToString (i : nat) : string :=
  NilEmpty.string_of_uint (Nat.to_uint i).

(** Regular expressions, matched by derivatives. *)
Inductive regex : Type :=
| Void
| Eps
| Class (p : ascii -> bool)
| Cat (r1 r2 : regex)
| Alt (r1 r2 : regex)
| Star (r : regex).

Definition Plus (r : regex) : regex := Cat r (Star r).
Definition Lit (c : ascii) : regex := Class (Ascii.eqb c).

Fixpoint nullable (r : regex) : bool :=
  match r with
  | Void => false
  | Eps => true
  | Class _ => false
  | Cat r1 r2 => nullable r1 && nullable r2
  | Alt r1 r2 => nullable r1 || nullable r2
  | Star _ => true
  end.

Fixpoint deriv (c : ascii) (r : regex) : regex :=
  match r with
  | Void => Void
  | Eps => Void
  | Class p => if p c then Eps else Void
  | Cat r1 r2 =>
      if nullable r1 then Alt (Cat (deriv c r1) r2) (deriv c r2)
      else Cat (deriv c r1) r2
  | Alt r1 r2 => Alt (deriv c r1) (deriv c r2)
  | Star r1 => Cat (deriv c r1) (Star r1)
  end.

Fixpoint fullMatch (r : regex) (s : string) : bool :=
  match s with
  | EmptyString => nullable r
  | String c rest => fullMatch (deriv c r) rest
  end.

(** [/^r$/.test(s)] *)
Definition testAnchored (r : regex) (s : string) : bool := fullMatch r s.

(** [/r/.test(s)]: the pattern may match anywhere in the string. *)
Definition testAnywhere (r : regex) (s : string) : bool :=
  let any := Star (Class (fun _ => true)) in
  fullMatch (Cat any (Cat r any)) s.

(** What the host provides for printing numbers:
    [Number.prototype.toString], used by template literals, and
    [Number.prototype.toFixed]. *)
Class Runtime : Type := {
  numberToString : number -> string;
  toFixed : number -> nat -> string
}.

End Js.

(** ** Computations with effects

    [Eff S A] is a computation over a mutable store [S] that either
    returns an [A] or throws.  The store reached at the point of the
    throw is kept, so what was pushed or written before an exception is
    still there when it is caught. *)

Module Eff.

Definition t (St A : Type) : Type := St -> Js.Result A * St.

Definition ret {St A} (a : A) : t St A := fun s => (inr a, s).

Definition bind {St A B} (m : t St A) (k : A -> t St B) : t St B :=
  fun s =>
    match m s with
    | (inr a, s') => k a s'
    | (inl e, s') => (inl e, s')
    end.

Definition throw {St A} (e : Js.exn) : t St A := fun s => (inl e, s).

(** [try { m } catch (e) { h e }] *)
Definition tryCatch {St A} (m : t St A) (h : Js.exn -> t St A) : t St A :=
  fun s =>
    match m s with
    | (inr a, s') => (inr a, s')
    | (inl e, s') => h e s'
    end.

(** The current store. *)
Definition get {St} : t St St := fun s => (inr s, s).

(** A step that only updates the store. *)
Definition update {St} (f : St -> St) : t St unit := fun s => (inr tt, f s).

(** The outcome of a call that may throw. *)
Definition ofResult {St A} (r : Js.Result A) : t St A := fun s => (r, s).

(** [if (c) { m }] *)
Definition when {St} (c : bool) (m : t St unit) : t St unit :=
  if c then m else ret tt.

(** [for (const x of l) { body x }] *)
Fixpoint forOf {St A} (l : list A) (body : A -> t St unit) : t St unit :=
  match l with
  | [] => ret tt
  | x :: rest => bind (body x) (fun _ => forOf rest body)
  end.

End Eff.

Declare Scope eff_scope.
Delimit Scope eff_scope with eff.
Notation "x <- m ;; k" := (Eff.bind m (fun x => k))
  (at level 61, m at next level, right associativity) : eff_scope.
Notation "m ;; k" := (Eff.bind m (fun _ => k))
  (at level 61, right associativity) : eff_scope.
Open Scope eff_scope.

(** ** Data model *)

(** ['error' | 'warning'] *)
Module Severity.
Inductive t : Type := error | warning.

Definition eqb (a b : t) : bool :=
  match a, b with
  | error, error | warning, warning => true
  | _, _ => false
  end.
End Severity.

Module OrderValidationError.
Record t : Type := make {
  field : string;
  message : string;
  code : string;
  severity : Severity.t
}.

Definition eq_dec (a b : t) : {a = b} + {a <> b}.
Proof. repeat decide equality. Defined.
End OrderValidationError.

Record OrderValidationResult : Type := {
  isValid : bool;
  errors : list OrderValidationError.t;
  warnings : list OrderValidationError.t
}.

Module CartItem.
Record t : Type := make {
  product_id : string;
  quantity : Js.number;
  price : Js.number
}.
End CartItem.

Module CustomerInfo.
Record t : Type := make {
  full_name : string;
  email : string;
  phone : string
}.
End CustomerInfo.

Module Address.
Record t : Type := make {
  street_address : string;
  city : string;
  province : string;
  postal_code : string;
  phone : string
}.
End Address.

(** [GuestOrderData | AuthenticatedOrderData].  The two interfaces share
    the cart, delivery and money fields; a guest draft carries
    [customerInfo] and [address], an authenticated one [userId] and
    [addressId].  The source tells them apart by ['customerInfo' in
    orderData] and ['userId' in orderData]; a draft has one of the two
    shapes. *)
Inductive Identity : Type :=
| Guest (customerInfo : CustomerInfo.t) (address : Address.t)
| Authenticated (userId : string) (addressId : string).

Record OrderData : Type := {
  identity : Identity;
  cartItems : list CartItem.t;
  deliveryMethod : string;
  deliveryFee : Js.number;
  subtotal : Js.number;
  discountCode : option string;
  discountAmount : option Js.number;
  total : Js.number
}.

(** ['userId' in orderData ? orderData.userId : undefined] *)
Definition userIdOf (orderData : OrderData) : option string :=
  match identity orderData with
  | Authenticated userId _ => Some userId
  | Guest _ _ => None
  end.

(** The local arrays [errors] and [warnings] of a validator. *)
Module Arrays.
Record t : Type := make {
  errors : list OrderValidationError.t;
  warnings : list OrderValidationError.t
}.

Definition empty : t := {| errors := []; warnings := [] |}.

(** [errors.push(e)] *)
Definition pushError (e : OrderValidationError.t) (a : t) : t :=
  {| errors := errors a ++ [e]; warnings := warnings a |}.

(** [warnings.push(w)] *)
Definition pushWarning (w : OrderValidationError.t) (a : t) : t :=
  {| errors := errors a; warnings := warnings a ++ [w] |}.

(** Statements that only push are functions on the arrays. *)
Definition step : Type := t -> t.

Definition skip : step := fun a => a.

(** [f; g] *)
Definition andThen (f g : step) : step := fun a => g (f a).

(** [if (c) { f }] *)
Definition when (c : bool) (f : step) : step := if c then f else skip.

(** [l.forEach((x, index) => body x index)], counting from [i]. *)
Fixpoint forEachFrom {A} (i : nat) (l : list A) (body : A -> nat -> step)
  : step :=
  match l with
  | [] => skip
  | x :: rest => andThen (body x i) (forEachFrom (S i) rest body)
  end.

Definition forEach {A} (l : list A) (body : A -> nat -> step) : step :=
  forEachFrom 0 l body.

(** [for (const x of l) { body x }] *)
Fixpoint forOf {A} (l : list A) (body : A -> step) : step :=
  match l with
  | [] => skip
  | x :: rest => andThen (body x) (forOf rest body)
  end.

(** [return { isValid: errors.length === 0, errors, warnings }] *)
Definition result (a : t) : OrderValidationResult :=
  Build_OrderValidationResult
    (List.length (errors a) =? 0)%nat (errors a) (warnings a).

(** The statements [f], run on two fresh arrays, then the [return]. *)
Definition run (f : step) : OrderValidationResult := result (f empty).

End Arrays.

Declare Scope step_scope.
Delimit Scope step_scope with step.
Bind Scope step_scope with Arrays.step.
Notation "f ;; g" := (Arrays.andThen f g)
  (at level 61, right associativity) : step_scope.

(** ** Module [order-validation-client] *)

Module OrderValidationClient.

Import Js.

Definition notSpaceOrAt (c : ascii) : bool :=
  negb (isWhiteSpace c || Ascii.eqb c "@").

(** [/^[^\s@]+@[^\s@]+\.[^\s@]+$/] *)
Definition emailPattern : regex :=
  Cat (Plus (Class notSpaceOrAt))
    (Cat (Lit "@")
       (Cat (Plus (Class notSpaceOrAt))
          (Cat (Lit ".") (Plus (Class notSpaceOrAt))))).

Definition error (field message code : string) : OrderValidationError.t :=
  OrderValidationError.make field message code Severity.error.

Definition warning (field message code : string) : OrderValidationError.t :=
  OrderValidationError.make field message code Severity.warning.

Definition quantityField (index : nat) : string :=
  "cartItems[" ++ indexToString index ++ "].quantity".

(** The body of the [forEach] over the cart. *)
Definition checkQuantity (item : CartItem.t) (index : nat) : Arrays.step :=
  (Arrays.when (le (CartItem.quantity item) 0%float)
     (Arrays.pushError
        (error (quantityField index) "Quantity must be greater than 0"
           "INVALID_QUANTITY")) ;;
   Arrays.when (gt (CartItem.quantity item) 10%float)
     (Arrays.pushWarning
        (warning (quantityField index) "Large quantity order - please verify"
           "LARGE_QUANTITY")))%step.

Definition checkGuest (customerInfo : CustomerInfo.t) (address : Address.t)
  : Arrays.step :=
  (Arrays.when (blank (CustomerInfo.full_name customerInfo))
     (Arrays.pushError
        (error "customerInfo.full_name" "Full name is required"
           "MISSING_NAME")) ;;
   (if blank (CustomerInfo.email customerInfo)
    then Arrays.pushError
           (error "customerInfo.email" "Email is required" "MISSING_EMAIL")
    else
      Arrays.when
        (negb (testAnchored emailPattern (CustomerInfo.email customerInfo)))
        (Arrays.pushError
           (error "customerInfo.email" "Invalid email format"
              "INVALID_EMAIL"))) ;;
   Arrays.when (blank (CustomerInfo.phone customerInfo))
     (Arrays.pushError
        (error "customerInfo.phone" "Phone number is required"
           "MISSING_PHONE")) ;;
   Arrays.when (blank (Address.street_address address))
     (Arrays.pushError
        (error "address.street_address" "Street address is required"
           "MISSING_ADDRESS")) ;;
   Arrays.when (blank (Address.city address))
     (Arrays.pushError
        (error "address.city" "City is required" "MISSING_CITY")) ;;
   Arrays.when (blank (Address.province address))
     (Arrays.pushError
        (error "address.province" "Province is required"
           "MISSING_PROVINCE")) ;;
   Arrays.when (blank (Address.postal_code address))
     (Arrays.pushError
        (error "address.postal_code" "Postal code is required"
           "MISSING_POSTAL_CODE")))%step.

Definition checkAuthenticated (userId addressId : string) : Arrays.step :=
  (Arrays.when (blank userId)
     (Arrays.pushError
        (error "userId" "User ID is required" "MISSING_USER_ID")) ;;
   Arrays.when (blank addressId)
     (Arrays.pushError
        (error "addressId" "Address ID is required" "MISSING_ADDRESS_ID")))%step.

(** The statements of [validateBusinessRules] up to its [return]. *)
Definition businessRules (orderData : OrderData) : Arrays.step :=
  (Arrays.when (List.length (cartItems orderData) =? 0)%nat
     (Arrays.pushError
        (error "cartItems" "Cart cannot be empty" "EMPTY_CART")) ;;
   Arrays.forEach (cartItems orderData) checkQuantity ;;
   Arrays.when (le (total orderData) 0%float)
     (Arrays.pushError
        (error "total" "Order total must be greater than 0"
           "INVALID_TOTAL")) ;;
   Arrays.when (negb (truthy (deliveryMethod orderData)))
     (Arrays.pushError
        (error "deliveryMethod" "Delivery method is required"
           "MISSING_DELIVERY_METHOD")) ;;
   match identity orderData with
   | Guest customerInfo address => checkGuest customerInfo address
   | Authenticated userId addressId => checkAuthenticated userId addressId
   end)%step.

Definition validateBusinessRules (orderData : OrderData)
  : OrderValidationResult :=
  Arrays.run (businessRules orderData).

(** [errors.map(error => error.message).join(', ')] *)
Definition formatValidationErrors (errors : list OrderValidationError.t)
  : string :=
  if (List.length errors =? 0)%nat then ""
  else join ", " (map OrderValidationError.message errors).

Definition validateOrderClient (orderData : OrderData)
  : OrderValidationResult :=
  validateBusinessRules orderData.

End OrderValidationClient.

(** ** Module [order-validation] *)

Module OrderValidation.

Import Js.

(** The columns selected from [products]. *)
Module Product.
Record t : Type := make {
  id : string;
  name : string;
  price : number;
  is_available : bool;
  stock_quantity : option number
}.
End Product.

(** The columns selected from [addresses]. *)
Module AddressRow.
Record t : Type := make {
  id : string;
  user_id : string
}.
End AddressRow.

(** What the [validate_discount_code] database function answers. *)
Module DiscountReply.
Record t : Type := make {
  valid : bool;
  error : option string;
  discount_amount : option number
}.
End DiscountReply.

(** [{ data, error }], as a query of the database client resolves. *)
Module Response.
Record t (A : Type) : Type := make {
  data : option A;
  error : option string
}.
Arguments make {A} _ _.
Arguments data {A} _.
Arguments error {A} _.
End Response.

(** The database client.  Each query resolves to a response or rejects;
    a rejected promise throws at its [await]. *)
Record Supabase : Type := {
  (** [from('products').select(...).eq('id', id).single()] *)
  selectProduct : string -> Result (Response.t Product.t);
  (** [auth.getUser()], reduced to the id of [data.user] *)
  getUser : Result (option string);
  (** [from('addresses').select(...).eq('id', addressId)
      .eq('user_id', userId).single()] *)
  selectAddress : string -> string -> Result (Response.t AddressRow.t);
  (** [rpc('validate_discount_code', { code_text, user_uuid, order_total })] *)
  rpcValidateDiscountCode :
    string -> option string -> number -> Result (Response.t DiscountReply.t)
}.

Module DiscountValidation.
Record t : Type := make {
  isValid : bool;
  error : option string;
  discountAmount : option number
}.
End DiscountValidation.

Definition quote : string := String (ascii_of_nat 34) EmptyString.
Definition newline : string := String (ascii_of_nat 10) EmptyString.

Definition error (field message code : string) : OrderValidationError.t :=
  OrderValidationError.make field message code Severity.error.

Definition warning (field message code : string) : OrderValidationError.t :=
  OrderValidationError.make field message code Severity.warning.

Definition pushError (e : OrderValidationError.t) : Eff.t Arrays.t unit :=
  Eff.update (Arrays.pushError e).

Definition pushWarning (w : OrderValidationError.t) : Eff.t Arrays.t unit :=
  Eff.update (Arrays.pushWarning w).

(** [x !== null], [!!x] on a value that is an object or null. *)
Definition present {A} (x : option A) : bool :=
  match x with Some _ => true | None => false end.

(** [/\S+@\S+\.\S+/] *)
Definition emailPattern : regex :=
  let nonSpace := Class (fun c => negb (isWhiteSpace c)) in
  Cat (Plus nonSpace)
    (Cat (Lit "@") (Cat (Plus nonSpace) (Cat (Lit ".") (Plus nonSpace)))).

Definition validDeliveryMethods : list string :=
  ["standard"; "express"; "collection"].

Definition failedDiscount : DiscountValidation.t :=
  DiscountValidation.make false (Some "Failed to validate discount code") None.

(** The reply is read as [data.valid], [data.error] and
    [data.discount_amount]; a null [data] makes that access throw. *)
Definition validateDiscountCode {St} (supabase : Supabase) (code : string)
  (userId : option string) (orderTotal : number)
  : Eff.t St DiscountValidation.t :=
  Eff.tryCatch
    (response <- Eff.ofResult
                   (rpcValidateDiscountCode supabase code userId orderTotal) ;;
     if present (Response.error response) then Eff.ret failedDiscount
     else
       match Response.data response with
       | None =>
           Eff.throw (TypeError "Cannot read properties of null")
       | Some reply =>
           Eff.ret (DiscountValidation.make
                      (DiscountReply.valid reply)
                      (DiscountReply.error reply)
                      (DiscountReply.discount_amount reply))
       end)
    (fun _ => Eff.ret failedDiscount).

Section WithRuntime.

Context {runtime : Runtime}.

(** [String(x)] of a column that is a number or null. *)
Definition nullableToString (x : option number) : string :=
  match x with
  | Some v => numberToString v
  | None => "null"
  end.

(** The body of the loop over the cart; [PRODUCT_NOT_FOUND] ends the
    iteration with [continue]. *)
Definition checkItem (supabase : Supabase) (item : CartItem.t)
  : Eff.t Arrays.t unit :=
  response <- Eff.ofResult
                (selectProduct supabase (CartItem.product_id item)) ;;
  match Response.error response, Response.data response with
  | None, Some product =>
      Eff.when (negb (Product.is_available product))
        (pushError
           (error "cartItems"
              ("Product " ++ quote ++ Product.name product ++ quote
               ++ " is not available")
              "PRODUCT_UNAVAILABLE")) ;;
      Eff.when
        (match Product.stock_quantity product with
         | Some stock => lt stock (CartItem.quantity item)
         | None => false
         end)
        (pushError
           (error "cartItems"
              ("Insufficient stock for " ++ quote ++ Product.name product
               ++ quote ++ ". Available: "
               ++ nullableToString (Product.stock_quantity product)
               ++ ", Requested: "
               ++ numberToString (CartItem.quantity item))
              "INSUFFICIENT_STOCK")) ;;
      Eff.when
        (gt (PrimFloat.abs (Product.price product - CartItem.price item))
           0.01%float)
        (pushWarning
           (warning "cartItems"
              ("Price for " ++ quote ++ Product.name product ++ quote
               ++ " has changed. Current: R"
               ++ numberToString (Product.price product)
               ++ ", Cart: R" ++ numberToString (CartItem.price item))
              "PRICE_CHANGED")) ;;
      Eff.when (le (CartItem.quantity item) 0%float)
        (pushError
           (error "cartItems"
              ("Invalid quantity for " ++ quote ++ Product.name product
               ++ quote ++ ". Must be greater than 0")
              "INVALID_QUANTITY"))
  | _, _ =>
      pushError
        (error "cartItems"
           ("Product with ID " ++ CartItem.product_id item ++ " not found")
           "PRODUCT_NOT_FOUND")
  end.

Definition checkDeliveryMethod (orderData : OrderData)
  : Eff.t Arrays.t unit :=
  Eff.when (negb (includes validDeliveryMethods (deliveryMethod orderData)))
    (pushError
       (error "deliveryMethod"
          ("Invalid delivery method. Must be one of: "
           ++ join ", " validDeliveryMethods)
          "INVALID_DELIVERY_METHOD")).

Definition checkCart (supabase : Supabase) (orderData : OrderData)
  : Eff.t Arrays.t unit :=
  if (List.length (cartItems orderData) =? 0)%nat
  then pushError
         (error "cartItems" "Order must contain at least one item"
            "EMPTY_CART")
  else Eff.forOf (cartItems orderData) (checkItem supabase).

Definition checkGuest (customerInfo : CustomerInfo.t) (address : Address.t)
  : Eff.t Arrays.t unit :=
  Eff.when (blank (CustomerInfo.full_name customerInfo))
    (pushError
       (error "customerInfo.full_name"
          "Full name is required for guest orders" "GUEST_NAME_REQUIRED")) ;;
  (if blank (CustomerInfo.email customerInfo)
   then pushError
          (error "customerInfo.email" "Email is required for guest orders"
             "GUEST_EMAIL_REQUIRED")
   else
     Eff.when
       (negb (testAnywhere emailPattern (CustomerInfo.email customerInfo)))
       (pushError
          (error "customerInfo.email" "Please enter a valid email address"
             "INVALID_EMAIL_FORMAT"))) ;;
  Eff.when (blank (Address.street_address address))
    (pushError
       (error "address.street_address" "Street address is required"
          "ADDRESS_REQUIRED")) ;;
  Eff.when (blank (Address.city address))
    (pushError (error "address.city" "City is required" "CITY_REQUIRED")) ;;
  Eff.when (blank (Address.province address))
    (pushError
       (error "address.province" "Province is required"
          "PROVINCE_REQUIRED")) ;;
  Eff.when (blank (Address.postal_code address))
    (pushError
       (error "address.postal_code" "Postal code is required"
          "POSTAL_CODE_REQUIRED")).

Definition checkAuthenticated (supabase : Supabase)
  (userId addressId : string) : Eff.t Arrays.t unit :=
  user <- Eff.ofResult (getUser supabase) ;;
  Eff.when
    (match user with
     | None => true
     | Some id => negb (id =? userId)%string
     end)
    (pushError
       (error "userId" "Invalid user authentication" "INVALID_USER")) ;;
  response <- Eff.ofResult (selectAddress supabase addressId userId) ;;
  Eff.when
    (present (Response.error response)
     || negb (present (Response.data response)))
    (pushError
       (error "addressId" "Invalid delivery address" "INVALID_ADDRESS")).

Definition checkDiscount (supabase : Supabase) (orderData : OrderData)
  : Eff.t Arrays.t unit :=
  match discountCode orderData with
  | Some code =>
      if truthy code then
        discountValidation <-
          validateDiscountCode supabase code (userIdOf orderData)
            (subtotal orderData) ;;
        Eff.when (negb (DiscountValidation.isValid discountValidation))
          (pushError
             (error "discountCode"
                (match DiscountValidation.error discountValidation with
                 | Some msg =>
                     if truthy msg then msg else "Invalid discount code"
                 | None => "Invalid discount code"
                 end)
                "INVALID_DISCOUNT"))
      else Eff.ret tt
  | None => Eff.ret tt
  end.

(** [subtotal + deliveryFee - (discountAmount || 0)] *)
Definition expectedTotal (orderData : OrderData) : number :=
  (subtotal orderData + deliveryFee orderData
   - orZero (discountAmount orderData))%float.

(** [Math.abs(orderData.total - expectedTotal) > 0.01] *)
Definition totalMismatch (orderData : OrderData) : bool :=
  gt (PrimFloat.abs (total orderData - expectedTotal orderData)) 0.01%float.

Definition totalCalculationError (orderData : OrderData)
  : OrderValidationError.t :=
  error "total"
    ("Order total calculation error. Expected: R"
     ++ toFixed (expectedTotal orderData) 2
     ++ ", Received: R" ++ toFixed (total orderData) 2)
    "TOTAL_CALCULATION_ERROR".

Definition checkAmounts (orderData : OrderData) : Eff.t Arrays.t unit :=
  Eff.when (le (total orderData) 0%float)
    (pushError
       (error "total" "Order total must be greater than 0"
          "INVALID_TOTAL")) ;;
  Eff.when (lt (deliveryFee orderData) 0%float)
    (pushError
       (error "deliveryFee" "Delivery fee cannot be negative"
          "INVALID_DELIVERY_FEE")) ;;
  Eff.when (totalMismatch orderData)
    (pushError (totalCalculationError orderData)).

(** The statements of the [try] block. *)
Definition constraintChecks (supabase : Supabase) (orderData : OrderData)
  : Eff.t Arrays.t unit :=
  checkDeliveryMethod orderData ;;
  checkCart supabase orderData ;;
  match identity orderData with
  | Guest customerInfo address => checkGuest customerInfo address
  | Authenticated userId addressId =>
      checkAuthenticated supabase userId addressId
  end ;;
  checkDiscount supabase orderData ;;
  checkAmounts orderData.

Definition validationError : OrderValidationError.t :=
  error "general" "An error occurred during validation. Please try again."
    "VALIDATION_ERROR".

(** The function as a whole: the [try] block, its [catch] and the
    final [return].  The database client, which the source creates
    before the [try], is the parameter [supabase]; the result is the
    outcome of the promise. *)
Definition validateDatabaseConstraints (supabase : Supabase)
  (orderData : OrderData) : Result OrderValidationResult :=
  fst
    ((Eff.tryCatch (constraintChecks supabase orderData)
        (fun _ => pushError validationError) ;;
      arrays <- Eff.get ;;
      Eff.ret (Arrays.result arrays))
       Arrays.empty).

Definition minimumOrderValue : number := 50%float.
Definition maximumOrderValue : number := 10000%float.
Definition maxQuantityPerItem : number := 10%float.

(** The body of the loop over the cart. *)
Definition checkMaxQuantity (item : CartItem.t) : Arrays.step :=
  Arrays.when (gt (CartItem.quantity item) maxQuantityPerItem)
    (Arrays.pushError
       (error "cartItems"
          ("Maximum quantity per item is " ++ numberToString maxQuantityPerItem)
          "EXCESSIVE_QUANTITY")).

(** The statements of [validateBusinessRules] up to its [return]. *)
Definition businessRules (orderData : OrderData) : Arrays.step :=
  (Arrays.when (lt (subtotal orderData) minimumOrderValue)
     (Arrays.pushWarning
        (warning "subtotal"
           ("Orders under R" ++ numberToString minimumOrderValue
            ++ " may have extended processing times")
           "LOW_ORDER_VALUE")) ;;
   Arrays.when (gt (total orderData) maximumOrderValue)
     (Arrays.pushError
        (error "total"
           ("Order total exceeds maximum allowed amount of R"
            ++ numberToString maximumOrderValue)
           "EXCESSIVE_ORDER_VALUE")) ;;
   Arrays.forOf (cartItems orderData) checkMaxQuantity)%step.

Definition validateBusinessRules (orderData : OrderData)
  : OrderValidationResult :=
  Arrays.run (businessRules orderData).

(** [Promise.all] of the two validations, then the merge. *)
Definition validateOrder (supabase : Supabase) (orderData : OrderData)
  : Result OrderValidationResult :=
  match validateDatabaseConstraints supabase orderData with
  | inl rejected => inl rejected
  | inr dbValidation =>
      let businessValidation := validateBusinessRules orderData in
      inr {| isValid := isValid dbValidation && isValid businessValidation;
             errors := errors dbValidation ++ errors businessValidation;
             warnings :=
               warnings dbValidation ++ warnings businessValidation |}
  end.

End WithRuntime.

(** [errors.map(error => error.message).join('\n')] *)
Definition formatValidationErrors (errors : list OrderValidationError.t)
  : string :=
  if (List.length errors =? 0)%nat then ""
  else join newline (map OrderValidationError.message errors).

End OrderValidation.

(** ** Module [order-audit-logger] *)

Module AuditLogger.

Import Js.

Module EventType.
Inductive t : Type :=
| validation_failure
| validation_warning
| order_blocked
| suspicious_activity.
End EventType.

(** ['low' | 'medium' | 'high' | 'critical'] *)
Module Level.
Inductive t : Type := low | medium | high | critical.

Definition eqb (a b : t) : bool :=
  match a, b with
  | low, low | medium, medium | high, high | critical, critical => true
  | _, _ => false
  end.
End Level.

(** An entry as it is built and inserted; [id] is left to the database.
    Values of type [any] are kept as JSON text. *)
Module AuditLogEntry.
Record t : Type := make {
  timestamp : string;
  event_type : EventType.t;
  user_id : option string;
  session_id : option string;
  order_data : OrderData;
  validation_errors : list OrderValidationError.t;
  severity : Level.t;
  ip_address : option string;
  user_agent : option string;
  additional_context : option string
}.
End AuditLogEntry.

(** An instance of the class: its only field is the session id drawn
    by the constructor. *)
Record OrderAuditLogger : Type := {
  sessionId : string
}.

(** What the logger acts on: the rows of [order_audit_logs], the alerts
    that reached the monitoring channel and the console. *)
Record World : Type := {
  order_audit_logs : list AuditLogEntry.t;
  alerts : list AuditLogEntry.t;
  console : list string
}.

(** What the logger reads from its surroundings.  Every call into the
    host may throw. *)
Record Host : Type := {
  (** [new Date().toISOString()] *)
  now : string;
  (** [process.env.NODE_ENV === 'development'] *)
  development : bool;
  (** [navigator.userAgent] *)
  userAgent : Result string;
  (** [await createClient()] of the server-side database client *)
  createClient : Result unit;
  (** [from('order_audit_logs').insert(row)], reduced to the [error]
      of its response *)
  insert : AuditLogEntry.t -> Result (option string);
  (** the delivery of a critical alert, the only statement of the [try]
      block of [sendCriticalAlert]: a [console.error] in the source, at
      the place where a monitoring service is to be called *)
  deliverAlert : AuditLogEntry.t -> Result unit
}.

(** [console.error], [console.log] and [console.group]. *)
Definition consoleWrite (line : string) : Eff.t World unit :=
  Eff.update (fun w =>
    {| order_audit_logs := order_audit_logs w;
       alerts := alerts w;
       console := console w ++ [line] |}).

Definition criticalCodes : list string :=
  ["PRODUCT_NOT_FOUND"; "CALCULATION_MISMATCH"; "CART_EMPTY";
   "INVALID_USER_ID"].

Definition highCodes : list string :=
  ["PRODUCT_OUT_OF_STOCK"; "INVALID_DISCOUNT_CODE";
   "DISCOUNT_USAGE_EXCEEDED"; "MAXIMUM_ORDER_EXCEEDED"].

Definition mediumCodes : list string :=
  ["PRODUCT_PRICE_CHANGED"; "DISCOUNT_EXPIRED"; "MINIMUM_ORDER_NOT_MET";
   "INVALID_QUANTITY"].

(** [errors.some(e => codes.includes(e.code))] *)
Definition someCodeIn (codes : list string)
  (errors : list OrderValidationError.t) : bool :=
  existsb (fun e => includes codes (OrderValidationError.code e)) errors.

Definition determineSeverity (errors : list OrderValidationError.t)
  : Level.t :=
  if someCodeIn criticalCodes errors then Level.critical
  else if someCodeIn highCodes errors then Level.high
  else if someCodeIn mediumCodes errors then Level.medium
  else Level.low.

Definition determineEventType (errors : list OrderValidationError.t)
  : EventType.t :=
  let hasErrors :=
    existsb (fun e => Severity.eqb (OrderValidationError.severity e)
                        Severity.error) errors in
  let hasWarnings :=
    existsb (fun e => Severity.eqb (OrderValidationError.severity e)
                        Severity.warning) errors in
  if hasErrors then EventType.validation_failure
  else if hasWarnings then EventType.validation_warning
  else EventType.validation_failure.

(** [const [username, domain] = email.split('@')]: a missing second
    part is [undefined] and is printed as such by the template. *)
Definition maskEmail (email : string) : Result string :=
  let parts := split "@" email in
  let username := nth 0 parts "" in
  let domain := nth 1 parts "undefined" in
  if (length username >? 2)%Z then
    match repeat "*" (length username - 2) with
    | inr stars => inr (substring username 0 2 ++ stars ++ "@" ++ domain)%string
    | inl e => inl e
    end
  else inr (username ++ "@" ++ domain)%string.

Definition maskPhone (phone : string) : Result string :=
  if (length phone >? 4)%Z then
    match repeat "*" (length phone - 6) with
    | inr stars =>
        inr (substring phone 0 3 ++ stars
             ++ substringFrom phone (length phone - 3))%string
    | inl e => inl e
    end
  else inr phone.

(** The copy [{ ...orderData }] with [customerInfo] and [address]
    replaced when the draft has them. *)
Definition sanitizeOrderData (orderData : OrderData) : Result OrderData :=
  match identity orderData with
  | Guest customerInfo address =>
      match maskEmail (CustomerInfo.email customerInfo) with
      | inl e => inl e
      | inr email =>
          match maskPhone (CustomerInfo.phone customerInfo) with
          | inl e => inl e
          | inr phone =>
              match maskPhone (Address.phone address) with
              | inl e => inl e
              | inr addressPhone =>
                  inr {| identity :=
                           Guest
                             (CustomerInfo.make
                                (CustomerInfo.full_name customerInfo)
                                email phone)
                             (Address.make
                                (Address.street_address address)
                                (Address.city address)
                                (Address.province address)
                                (Address.postal_code address)
                                addressPhone);
                         cartItems := cartItems orderData;
                         deliveryMethod := deliveryMethod orderData;
                         deliveryFee := deliveryFee orderData;
                         subtotal := subtotal orderData;
                         discountCode := discountCode orderData;
                         discountAmount := discountAmount orderData;
                         total := total orderData |}
              end
          end
      end
  | Authenticated _ _ => inr orderData
  end.

Definition getClientIP : Eff.t World string :=
  Eff.tryCatch (Eff.ret "client_ip_masked") (fun _ => Eff.ret "unknown").

(** The insert: a row is added when the call neither throws nor
    answers with an error. *)
Definition insertRow (host : Host) (row : AuditLogEntry.t)
  : Eff.t World (option string) :=
  fun w =>
    match insert host row with
    | inl e => (inl e, w)
    | inr (Some failure) => (inr (Some failure), w)
    | inr None =>
        (inr None,
         {| order_audit_logs := order_audit_logs w ++ [row];
            alerts := alerts w;
            console := console w |})
    end.

Definition storeAuditLog (host : Host) (logEntry : AuditLogEntry.t)
  : Eff.t World unit :=
  Eff.tryCatch
    (Eff.ofResult (createClient host) ;;
     failure <- insertRow host logEntry ;;
     Eff.when
       (match failure with Some _ => true | None => false end)
       (consoleWrite "Failed to store audit log:"))
    (fun _ => consoleWrite "Error storing audit log:").

Definition raiseAlert (host : Host) (logEntry : AuditLogEntry.t)
  : Eff.t World unit :=
  fun w =>
    match deliverAlert host logEntry with
    | inl e => (inl e, w)
    | inr _ =>
        (inr tt,
         {| order_audit_logs := order_audit_logs w;
            alerts := alerts w ++ [logEntry];
            console := console w |})
    end.

Definition sendCriticalAlert (host : Host) (logEntry : AuditLogEntry.t)
  : Eff.t World unit :=
  Eff.tryCatch (raiseAlert host logEntry)
    (fun _ => consoleWrite "Failed to send critical alert:").

Definition logValidationViolation (host : Host) (self : OrderAuditLogger)
  (orderData : OrderData) (errors : list OrderValidationError.t)
  (additionalContext : option string) : Eff.t World unit :=
  Eff.tryCatch
    (let severity := determineSeverity errors in
     let eventType := determineEventType errors in
     sanitized <- Eff.ofResult (sanitizeOrderData orderData) ;;
     ip <- getClientIP ;;
     agent <- Eff.ofResult (userAgent host) ;;
     let logEntry :=
       AuditLogEntry.make (now host) eventType (userIdOf orderData)
         (Some (sessionId self)) sanitized errors severity (Some ip)
         (Some agent) additionalContext in
     Eff.when (development host)
       (consoleWrite "Order Validation Violation" ;;
        consoleWrite "Severity:" ;;
        consoleWrite "Event Type:" ;;
        consoleWrite "Errors:" ;;
        _ <- Eff.ofResult (sanitizeOrderData orderData) ;;
        consoleWrite "Order Data:") ;;
     storeAuditLog host logEntry ;;
     Eff.when (Level.eqb severity Level.critical)
       (sendCriticalAlert host logEntry))
    (fun _ => consoleWrite "Failed to log validation violation:").

Definition logValidationSuccess (host : Host) (self : OrderAuditLogger)
  (orderData : OrderData) (warnings : list OrderValidationError.t)
  : Eff.t World unit :=
  Eff.tryCatch
    (if (0 <? List.length warnings)%nat then
       sanitized <- Eff.ofResult (sanitizeOrderData orderData) ;;
       ip <- getClientIP ;;
       agent <- Eff.ofResult (userAgent host) ;;
       let logEntry :=
         AuditLogEntry.make (now host) EventType.validation_warning
           (userIdOf orderData) (Some (sessionId self)) sanitized warnings
           Level.low (Some ip) (Some agent) None in
       storeAuditLog host logEntry
     else Eff.ret tt)
    (fun _ => consoleWrite "Failed to log validation success:").

Definition logSuspiciousActivity (host : Host) (self : OrderAuditLogger)
  (description : string) (orderData : OrderData) (context : option string)
  : Eff.t World unit :=
  Eff.tryCatch
    (sanitized <- Eff.ofResult (sanitizeOrderData orderData) ;;
     ip <- getClientIP ;;
     agent <- Eff.ofResult (userAgent host) ;;
     let logEntry :=
       AuditLogEntry.make (now host) EventType.suspicious_activity
         (userIdOf orderData) (Some (sessionId self)) sanitized
         [OrderValidationError.make "system" description
            "SUSPICIOUS_ACTIVITY" Severity.error]
         Level.high (Some ip) (Some agent) context in
     storeAuditLog host logEntry ;;
     sendCriticalAlert host logEntry)
    (fun _ => consoleWrite "Failed to log suspicious activity:").

End AuditLogger.

(** ** Module [guest-checkout] *)

Module GuestCheckout.

Import Js.

(** The snapshot of the product an item of the cart may carry. *)
Module ProductInfo.
Record t : Type := make {
  id : string;
  name : string;
  price : number;
  image_url : string;
  stock_quantity : number
}.
End ProductInfo.

Module GuestCartItem.
Record t : Type := make {
  id : string;
  product_id : string;
  quantity : number;
  size : string;
  color : string;
  product : option ProductInfo.t
}.
End GuestCartItem.

(** [Omit<GuestCartItem, 'id'>], the argument of [addItem]. *)
Module NewItem.
Record t : Type := make {
  product_id : string;
  quantity : number;
  size : string;
  color : string;
  product : option ProductInfo.t
}.
End NewItem.

Module AppliedDiscount.
Record t : Type := make {
  code : string;
  amount : number;
  codeId : string
}.
End AppliedDiscount.

Module GuestAddress.
Record t : Type := make {
  street_address : string;
  city : string;
  province : string;
  postal_code : string;
  country : string
}.
End GuestAddress.

(** [GuestCustomerInfo] has the fields of [CustomerInfo.t]. *)
Module GuestCheckoutData.
Record t : Type := make {
  customer : CustomerInfo.t;
  address : GuestAddress.t;
  delivery_method : string;
  applied_discount : option AppliedDiscount.t
}.
End GuestCheckoutData.

Definition GUEST_CART_KEY : string := "caarl_guest_cart".
Definition GUEST_CHECKOUT_KEY : string := "caarl_guest_checkout".

(** [JSON.stringify] and [JSON.parse] at the type the source declares
    for the value: [parse text] is [inl e] when [JSON.parse] throws and
    [inr a] when it returns the value [a] of that type.  A text that is
    JSON for a value of another type ([null], a number, an object that
    is not of the type) has no counterpart here, since the source casts
    what [JSON.parse] returns without a check; what the functions do
    with such a value is not described.  The entries the module writes
    itself are of the type. *)
Class Json (A : Type) : Type := {
  stringify : A -> string;
  parse : string -> Result A
}.

(** A row of [cart_items] as the migration reads it. *)
Module CartRow.
Record t : Type := make {
  id : string;
  quantity : number
}.
End CartRow.

(** What the migration sends to [cart_items]. *)
Inductive Write : Type :=
| Update (id : string) (quantity : number) (updated_at : string)
| Insert (user_id product_id : string) (quantity : number)
    (size color : string).

(** What the functions act on: the entries of [localStorage], the
    console, and the writes to [cart_items] that were acknowledged. *)
Record World : Type := {
  localStorage : list (string * string);
  console : list string;
  cart_items : list Write
}.

(** What the functions read from their surroundings. *)
Record Host : Type := {
  (** [typeof window !== 'undefined'] *)
  hasWindow : bool;
  (** the exception every access to [localStorage] throws, if the
      browser blocks the storage *)
  storageBlocked : option exn;
  (** whether [setItem] has room for the entry, beside what the
      storage holds *)
  hasRoom : list (string * string) -> string -> string -> bool;
  (** [Date.now()] and [Math.random().toString(36).substr(2, 9)], as
      they are printed in the id of a new item *)
  timestamp : string;
  randomSuffix : string;
  (** [new Date().toISOString()] *)
  nowISO : string;
  (** [await import('@/lib/supabase/client')] and [createClient()] *)
  createClient : Result unit;
  (** [auth.getUser()], reduced to the id of [data.user] *)
  getUser : Result (option string);
  (** [from('cart_items').select('*').eq(...).single()], reduced to
      the [data] of its response *)
  selectCartItem :
    string -> string -> string -> string -> Result (option CartRow.t);
  (** [from('cart_items').update(...).eq('id', id)] and
      [from('cart_items').insert(...)]: the promise resolves, whatever
      its response holds, or rejects *)
  send : Write -> Result unit
}.

(** [localStorage.getItem(key)] *)
Fixpoint lookup (key : string) (entries : list (string * string))
  : option string :=
  match entries with
  | [] => None
  | (k, v) :: rest => if (k =? key)%string then Some v else lookup key rest
  end.

Definition without (key : string) (entries : list (string * string))
  : list (string * string) :=
  filter (fun entry => negb (fst entry =? key)%string) entries.

Definition setEntries (entries : list (string * string)) (w : World)
  : World :=
  {| localStorage := entries;
     console := console w;
     cart_items := cart_items w |}.

Definition access (host : Host) : Eff.t World unit :=
  match storageBlocked host with
  | Some e => Eff.throw e
  | None => Eff.ret tt
  end.

Definition getItem (host : Host) (key : string)
  : Eff.t World (option string) :=
  access host ;;
  w <- Eff.get ;;
  Eff.ret (lookup key (localStorage w)).

(** [localStorage.setItem(key, value)] throws when the quota is
    exceeded. *)
Definition setItem (host : Host) (key value : string) : Eff.t World unit :=
  access host ;;
  w <- Eff.get ;;
  if hasRoom host (localStorage w) key value
  then Eff.update (fun w =>
         setEntries ((key, value) :: without key (localStorage w)) w)
  else Eff.throw (HostError "QuotaExceededError").

(** [localStorage.removeItem(key)] *)
Definition removeStored (host : Host) (key : string) : Eff.t World unit :=
  access host ;;
  Eff.update (fun w => setEntries (without key (localStorage w)) w).

(** [console.error] *)
Definition consoleError (line : string) : Eff.t World unit :=
  Eff.update (fun w =>
    {| localStorage := localStorage w;
       console := console w ++ [line];
       cart_items := cart_items w |}).

(** [l.findIndex(p)] *)
Fixpoint findIndexFrom {A} (i : Z) (p : A -> bool) (l : list A) : Z :=
  match l with
  | [] => (-1)%Z
  | x :: rest => if p x then i else findIndexFrom (i + 1)%Z p rest
  end.

Definition findIndex {A} (p : A -> bool) (l : list A) : Z :=
  findIndexFrom 0%Z p l.

(** [l[i].field = ...]: the element at [i] is replaced by [f] of it;
    reading a field of the [undefined] at an index out of range
    throws. *)
Fixpoint modifyNth {A} (n : nat) (f : A -> A) (l : list A)
  : option (list A) :=
  match l, n with
  | [], _ => None
  | x :: rest, O => Some (f x :: rest)
  | x :: rest, S k =>
      match modifyNth k f rest with
      | Some rest' => Some (x :: rest')
      | None => None
      end
  end.

Definition modifyAt {A} (i : Z) (f : A -> A) (l : list A)
  : Result (list A) :=
  if (i <? 0)%Z then inl (TypeError "Cannot read properties of undefined")
  else match modifyNth (Z.to_nat i) f l with
       | Some l' => inr l'
       | None => inl (TypeError "Cannot read properties of undefined")
       end.

(** [l.splice(start, 1)]: a negative [start] counts from the end, and
    nothing is removed at or past the end. *)
Definition spliceOne {A} (start : Z) (l : list A) : list A :=
  let len := Z.of_nat (List.length l) in
  let from :=
    if (start <? 0)%Z then Z.max (len + start) 0 else Z.min start len in
  firstn (Z.to_nat from) l ++ skipn (S (Z.to_nat from)) l.

Section WithJson.

Context {cartJson : Json (list GuestCartItem.t)}.
Context {checkoutJson : Json GuestCheckoutData.t}.
Variable host : Host.

(** *** [guestCartUtils] *)

Definition getCart : Eff.t World (list GuestCartItem.t) :=
  if negb (hasWindow host) then Eff.ret []
  else
    Eff.tryCatch
      (cart <- getItem host GUEST_CART_KEY ;;
       match cart with
       | Some text => if truthy text then Eff.ofResult (parse text)
                      else Eff.ret []
       | None => Eff.ret []
       end)
      (fun _ => Eff.ret []).

Definition saveCart (cart : list GuestCartItem.t) : Eff.t World unit :=
  if negb (hasWindow host) then Eff.ret tt
  else
    Eff.tryCatch (setItem host GUEST_CART_KEY (stringify cart))
      (fun _ => consoleError "Failed to save guest cart:").

Definition sameVariant (item : NewItem.t) (cartItem : GuestCartItem.t)
  : bool :=
  (GuestCartItem.product_id cartItem =? NewItem.product_id item)%string
  && (GuestCartItem.size cartItem =? NewItem.size item)%string
  && (GuestCartItem.color cartItem =? NewItem.color item)%string.

Definition setQuantity (quantity : number) (cartItem : GuestCartItem.t)
  : GuestCartItem.t :=
  GuestCartItem.make (GuestCartItem.id cartItem)
    (GuestCartItem.product_id cartItem) quantity
    (GuestCartItem.size cartItem) (GuestCartItem.color cartItem)
    (GuestCartItem.product cartItem).

(** [{ ...item, id: `guest_${Date.now()}_${...}` }] *)
Definition newItem (item : NewItem.t) : GuestCartItem.t :=
  GuestCartItem.make
    ("guest_" ++ timestamp host ++ "_" ++ randomSuffix host)
    (NewItem.product_id item) (NewItem.quantity item) (NewItem.size item)
    (NewItem.color item) (NewItem.product item).

Definition addItem (item : NewItem.t) : Eff.t World unit :=
  cart <- getCart ;;
  let existingItemIndex := findIndex (sameVariant item) cart in
  cart' <-
    (if (0 <=? existingItemIndex)%Z
     then Eff.ofResult
            (modifyAt existingItemIndex
               (fun cartItem =>
                  setQuantity
                    (GuestCartItem.quantity cartItem
                     + NewItem.quantity item)%float
                    cartItem)
               cart)
     else Eff.ret (cart ++ [newItem item])) ;;
  saveCart cart'.

Definition hasId (itemId : string) (item : GuestCartItem.t) : bool :=
  (GuestCartItem.id item =? itemId)%string.

Definition updateQuantity (itemId : string) (quantity : number)
  : Eff.t World unit :=
  cart <- getCart ;;
  let itemIndex := findIndex (hasId itemId) cart in
  if (0 <=? itemIndex)%Z then
    cart' <-
      (if le quantity 0%float then Eff.ret (spliceOne itemIndex cart)
       else Eff.ofResult (modifyAt itemIndex (setQuantity quantity) cart)) ;;
    saveCart cart'
  else Eff.ret tt.

Definition removeItem (itemId : string) : Eff.t World unit :=
  cart <- getCart ;;
  let filteredCart := filter (fun item => negb (hasId itemId item)) cart in
  saveCart filteredCart.

Definition clearCart : Eff.t World unit :=
  if negb (hasWindow host) then Eff.ret tt
  else removeStored host GUEST_CART_KEY.

Definition getItemCount : Eff.t World number :=
  cart <- getCart ;;
  Eff.ret
    (fold_left (fun total item => (total + GuestCartItem.quantity item)%float)
       cart 0%float).

(** [item.product?.price || 0] *)
Definition priceOf (item : GuestCartItem.t) : number :=
  orZero (option_map ProductInfo.price (GuestCartItem.product item)).

Definition getSubtotal : Eff.t World number :=
  cart <- getCart ;;
  Eff.ret
    (fold_left
       (fun total item =>
          (total + priceOf item * GuestCartItem.quantity item)%float)
       cart 0%float).

(** *** [guestCheckoutUtils] *)

Definition getCheckoutData : Eff.t World (option GuestCheckoutData.t) :=
  if negb (hasWindow host) then Eff.ret None
  else
    Eff.tryCatch
      (data <- getItem host GUEST_CHECKOUT_KEY ;;
       match data with
       | Some text =>
           if truthy text
           then parsed <- Eff.ofResult (parse text) ;; Eff.ret (Some parsed)
           else Eff.ret None
       | None => Eff.ret None
       end)
      (fun _ => Eff.ret None).

Definition saveCheckoutData (data : GuestCheckoutData.t)
  : Eff.t World unit :=
  if negb (hasWindow host) then Eff.ret tt
  else
    Eff.tryCatch (setItem host GUEST_CHECKOUT_KEY (stringify data))
      (fun _ => consoleError "Failed to save guest checkout data:").

Definition clearCheckoutData : Eff.t World unit :=
  if negb (hasWindow host) then Eff.ret tt
  else removeStored host GUEST_CHECKOUT_KEY.

(** *** [isGuestUser] *)

Definition isGuestUser : Eff.t World bool :=
  if negb (hasWindow host) then Eff.ret false
  else
    Eff.tryCatch
      (Eff.ofResult (createClient host) ;;
       user <- Eff.ofResult (getUser host) ;;
       Eff.ret (negb (OrderValidation.present user)))
      (fun _ => Eff.ret true).

(** *** [migrateGuestCartToUser] *)

(** An awaited write: the promise resolves or rejects, and its response
    is not looked at. *)
Definition await (write : Write) : Eff.t World unit :=
  Eff.ofResult (send host write) ;;
  Eff.update (fun w =>
    {| localStorage := localStorage w;
       console := console w;
       cart_items := cart_items w ++ [write] |}).

(** The body of the loop over the guest cart. *)
Definition migrateItem (userId : string) (item : GuestCartItem.t)
  : Eff.t World unit :=
  existingItem <-
    Eff.ofResult
      (selectCartItem host userId (GuestCartItem.product_id item)
         (GuestCartItem.size item) (GuestCartItem.color item)) ;;
  match existingItem with
  | Some row =>
      await (Update (CartRow.id row)
               (CartRow.quantity row + GuestCartItem.quantity item)%float
               (nowISO host))
  | None =>
      await (Insert userId (GuestCartItem.product_id item)
               (GuestCartItem.quantity item) (GuestCartItem.size item)
               (GuestCartItem.color item))
  end.

Definition migrateGuestCartToUser (userId : string) : Eff.t World unit :=
  guestCart <- getCart ;;
  if (List.length guestCart =? 0)%nat then Eff.ret tt
  else
    Eff.tryCatch
      (Eff.ofResult (createClient host) ;;
       Eff.forOf guestCart (migrateItem userId) ;;
       clearCart)
      (fun _ => consoleError "Failed to migrate guest cart:").

End WithJson.

End GuestCheckout.

(** ** Component [GuestCheckoutForm] of [cart-items] *)

Module GuestCheckoutForm.

Import Js.

Module DeliveryOption.
Record t : Type := make {
  id : string;
  name : string;
  price : number;
  description : string
}.
End DeliveryOption.

Definition DELIVERY_OPTIONS : list DeliveryOption.t :=
  [DeliveryOption.make "courier_guy" "Courier Guy" 99%float
     "3-5 business days";
   DeliveryOption.make "pudo" "Pudo Locker" 65%float
     "Collect from nearest locker"].

(** A product of the prop [products], with the columns the form reads. *)
Module Product.
Record t : Type := make {
  id : string;
  price : number
}.
End Product.

(** The props of the component. *)
Record Props : Type := {
  cartItems : list GuestCheckout.GuestCartItem.t;
  products : list Product.t;
  subtotal : number
}.

(** The state the checkout reads. *)
Record State : Type := {
  customerInfo : CustomerInfo.t;
  address : GuestCheckout.GuestAddress.t;
  deliveryMethod : string;
  appliedDiscount : option GuestCheckout.AppliedDiscount.t;
  isProcessing : bool
}.

(** [DELIVERY_OPTIONS.find((opt) => opt.id === deliveryMethod)?.price || 0] *)
Definition deliveryFee (state : State) : number :=
  orZero
    (option_map DeliveryOption.price
       (find (fun opt => (DeliveryOption.id opt =? deliveryMethod state)%string)
          DELIVERY_OPTIONS)).

(** [appliedDiscount?.amount || 0] *)
Definition discountAmount (state : State) : number :=
  orZero (option_map GuestCheckout.AppliedDiscount.amount
            (appliedDiscount state)).

Definition total (props : Props) (state : State) : number :=
  (subtotal props + deliveryFee state - discountAmount state)%float.

(** [/\S+@\S+\.\S+/] *)
Definition emailPattern : regex :=
  let nonSpace := Class (fun c => negb (isWhiteSpace c)) in
  Cat (Plus nonSpace)
    (Cat (Lit "@") (Cat (Plus nonSpace) (Cat (Lit ".") (Plus nonSpace)))).

(** [if (c) newErrors[key] = message]; no key is assigned twice. *)
Definition errorIf (c : bool) (key message : string)
  : list (string * string) :=
  if c then [(key, message)] else [].

(** The object [newErrors] that [validateForm] builds. *)
Definition newErrors (state : State) : list (string * string) :=
  let customerInfo := customerInfo state in
  let address := address state in
  errorIf (blank (CustomerInfo.full_name customerInfo))
    "full_name" "Full name is required"
  ++ (if blank (CustomerInfo.email customerInfo)
      then [("email", "Email is required")]
      else errorIf
             (negb (testAnywhere emailPattern
                      (CustomerInfo.email customerInfo)))
             "email" "Please enter a valid email address")
  ++ errorIf (blank (CustomerInfo.phone customerInfo))
       "phone" "Phone number is required"
  ++ errorIf (blank (GuestCheckout.GuestAddress.street_address address))
       "street_address" "Street address is required"
  ++ errorIf (blank (GuestCheckout.GuestAddress.city address))
       "city" "City is required"
  ++ errorIf (blank (GuestCheckout.GuestAddress.province address))
       "province" "Province is required"
  ++ errorIf (blank (GuestCheckout.GuestAddress.postal_code address))
       "postal_code" "Postal code is required".

(** [Object.keys(newErrors).length === 0], what [validateForm]
    returns. *)
Definition validateForm (state : State) : bool :=
  (List.length (map fst (newErrors state)) =? 0)%nat.

(** The object [validationOrderData] that [handleCheckout] passes to
    [validateOrderClient]. *)
Definition validationOrderData (props : Props) (state : State) : OrderData :=
  Build_OrderData
    (Guest
       (CustomerInfo.make
          (CustomerInfo.full_name (customerInfo state))
          (CustomerInfo.email (customerInfo state))
          (CustomerInfo.phone (customerInfo state)))
       (Address.make
          (GuestCheckout.GuestAddress.street_address (address state))
          (GuestCheckout.GuestAddress.city (address state))
          (GuestCheckout.GuestAddress.province (address state))
          (GuestCheckout.GuestAddress.postal_code (address state))
          (CustomerInfo.phone (customerInfo state))))
    (map
       (fun item =>
          let product :=
            find
              (fun p =>
                 (Product.id p
                  =? GuestCheckout.GuestCartItem.product_id item)%string)
              (products props) in
          CartItem.make (GuestCheckout.GuestCartItem.product_id item)
            (GuestCheckout.GuestCartItem.quantity item)
            (orZero (option_map Product.price product)))
       (cartItems props))
    (deliveryMethod state)
    (deliveryFee state)
    (subtotal props)
    (option_map GuestCheckout.AppliedDiscount.code (appliedDiscount state))
    (Some (discountAmount state))
    (total props state).

(** The outcome of [handleCheckout] up to the creation of the order:
    it returns at an incomplete form and while a checkout is in
    progress, it shows a toast with a description when the draft is
    rejected, and it goes on to the creation of the order with the draft
    otherwise. *)
Inductive Checked : Type :=
| Incomplete
| Busy
| Rejected (description : string)
| Accepted (draft : OrderData).

Definition validationStep (props : Props) (state : State) : Checked :=
  if negb (validateForm state) then Incomplete
  else if isProcessing state then Busy
  else
    let validationResult :=
      OrderValidationClient.validateOrderClient
        (validationOrderData props state) in
    if negb (isValid validationResult)
    then Rejected
           (OrderValidationClient.formatValidationErrors
              (errors validationResult))
    else Accepted (validationOrderData props state).

End GuestCheckoutForm.

(** ** Vocabulary of the statements *)

(** Some entry of the list carries the code [c]. *)
Definition hasCode (c : string) (l : list OrderValidationError.t) : Prop :=
  exists e, In e l /\ OrderValidationError.code e = c.

(** Some entry of the list carries one of the codes. *)
Definition hits (codes : list string) (l : list OrderValidationError.t) : Prop :=
  exists e, In e l /\ In (OrderValidationError.code e) codes.

(** The cart-empty errors of the two validators. *)
Definition clientEmptyCart : OrderValidationError.t :=
  OrderValidationError.make "cartItems" "Cart cannot be empty" "EMPTY_CART"
    Severity.error.

Definition serverEmptyCart : OrderValidationError.t :=
  OrderValidationError.make "cartItems" "Order must contain at least one item"
    "EMPTY_CART" Severity.error.

(** An error follows a table of rules when its field and code are a
    row of the table. *)
Definition follows (rules : list (string * string))
  (e : OrderValidationError.t) : Prop :=
  In (OrderValidationError.field e, OrderValidationError.code e) rules.

(** The rules of [validateDatabaseConstraints] that do not look at the
    cart, with the field each one reports on. *)
Definition rulesBesideCart : list (string * string) :=
  [("deliveryMethod", "INVALID_DELIVERY_METHOD");
   ("customerInfo.full_name", "GUEST_NAME_REQUIRED");
   ("customerInfo.email", "GUEST_EMAIL_REQUIRED");
   ("customerInfo.email", "INVALID_EMAIL_FORMAT");
   ("address.street_address", "ADDRESS_REQUIRED");
   ("address.city", "CITY_REQUIRED");
   ("address.province", "PROVINCE_REQUIRED");
   ("address.postal_code", "POSTAL_CODE_REQUIRED");
   ("userId", "INVALID_USER");
   ("addressId", "INVALID_ADDRESS");
   ("discountCode", "INVALID_DISCOUNT");
   ("total", "INVALID_TOTAL");
   ("deliveryFee", "INVALID_DELIVERY_FEE");
   ("total", "TOTAL_CALCULATION_ERROR");
   ("general", "VALIDATION_ERROR")].

(** The rules on the products of a cart that is not empty. *)
Definition productRules : list (string * string) :=
  [("cartItems", "PRODUCT_NOT_FOUND");
   ("cartItems", "PRODUCT_UNAVAILABLE");
   ("cartItems", "INSUFFICIENT_STOCK");
   ("cartItems", "INVALID_QUANTITY")].

(** Every rule of [validateDatabaseConstraints]. *)
Definition databaseRules : list (string * string) :=
  ("cartItems", "EMPTY_CART") :: productRules ++ rulesBesideCart.

(** The rules of [validateBusinessRules] in [order-validation] that
    report an error. *)
Definition businessErrorRules : list (string * string) :=
  [("total", "EXCESSIVE_ORDER_VALUE"); ("cartItems", "EXCESSIVE_QUANTITY")].

(** The rules of the client that report an error on a fixed field. *)
Definition clientRules : list (string * string) :=
  [("cartItems", "EMPTY_CART");
   ("total", "INVALID_TOTAL");
   ("deliveryMethod", "MISSING_DELIVERY_METHOD");
   ("customerInfo.full_name", "MISSING_NAME");
   ("customerInfo.email", "MISSING_EMAIL");
   ("customerInfo.email", "INVALID_EMAIL");
   ("customerInfo.phone", "MISSING_PHONE");
   ("address.street_address", "MISSING_ADDRESS");
   ("address.city", "MISSING_CITY");
   ("address.province", "MISSING_PROVINCE");
   ("address.postal_code", "MISSING_POSTAL_CODE");
   ("userId", "MISSING_USER_ID");
   ("addressId", "MISSING_ADDRESS_ID")].

(** [appends P f]: the statements [f] leave the entries of both arrays
    in place and add entries at their ends, and every error they add
    satisfies [P]. *)
Definition appends (P : OrderValidationError.t -> Prop) (f : Arrays.step)
  : Prop :=
  forall a, exists es ws,
    f a = Arrays.make (Arrays.errors a ++ es) (Arrays.warnings a ++ ws)
    /\ Forall P es.

(** The same for statements that may throw, whether they do or not. *)
Definition emits (P : OrderValidationError.t -> Prop) {A}
  (m : Eff.t Arrays.t A) : Prop :=
  appends P (fun a => snd (m a)).

(** [returns m]: whatever the store, [m] does not throw. *)
Definition returns {St A} (m : Eff.t St A) : Prop :=
  forall s, exists x, fst (m s) = inr x.

(** The arrays of [validateDatabaseConstraints] when it reaches its
    [return]. *)
Definition databaseArrays {runtime : Js.Runtime}
  (supabase : OrderValidation.Supabase) (orderData : OrderData) : Arrays.t :=
  snd (Eff.tryCatch (OrderValidation.constraintChecks supabase orderData)
         (fun _ => OrderValidation.pushError OrderValidation.validationError)
         Arrays.empty).

(** No remote call of the database client throws. *)
Definition responsive (supabase : OrderValidation.Supabase) : Prop :=
  (forall id, exists r, OrderValidation.selectProduct supabase id = inr r)
  /\ (exists u, OrderValidation.getUser supabase = inr u)
  /\ (forall addressId userId,
        exists r, OrderValidation.selectAddress supabase addressId userId = inr r)
  /\ (forall code userId orderTotal,
        exists r,
          OrderValidation.rpcValidateDiscountCode supabase code userId orderTotal
          = inr r).

(** A draft and its sanitized copy agree on every field but
    [customerInfo.email], [customerInfo.phone] and [address.phone]. *)
Definition sameOutsideMaskedFields (orderData sanitized : OrderData) : Prop :=
  cartItems sanitized = cartItems orderData
  /\ deliveryMethod sanitized = deliveryMethod orderData
  /\ deliveryFee sanitized = deliveryFee orderData
  /\ subtotal sanitized = subtotal orderData
  /\ discountCode sanitized = discountCode orderData
  /\ discountAmount sanitized = discountAmount orderData
  /\ total sanitized = total orderData
  /\ match identity orderData, identity sanitized with
     | Guest customerInfo address, Guest customerInfo' address' =>
         CustomerInfo.full_name customerInfo' = CustomerInfo.full_name customerInfo
         /\ Address.street_address address' = Address.street_address address
         /\ Address.city address' = Address.city address
         /\ Address.province address' = Address.province address
         /\ Address.postal_code address' = Address.postal_code address
     | Authenticated userId addressId, Authenticated userId' addressId' =>
         userId' = userId /\ addressId' = addressId
     | _, _ => False
     end.

(** The cart with the quantity of its [index]-th item replaced. *)
Fixpoint setQuantity (index : nat) (quantity : Js.number)
  (l : list CartItem.t) : list CartItem.t :=
  match l with
  | [] => []
  | item :: rest =>
      match index with
      | O =>
          CartItem.make (CartItem.product_id item) quantity
            (CartItem.price item) :: rest
      | S i => item :: setQuantity i quantity rest
      end
  end.

(** The draft with the quantity of its [index]-th cart item replaced. *)
Definition withQuantity (index : nat) (quantity : Js.number)
  (orderData : OrderData) : OrderData :=
  {| identity := identity orderData;
     cartItems := setQuantity index quantity (cartItems orderData);
     deliveryMethod := deliveryMethod orderData;
     deliveryFee := deliveryFee orderData;
     subtotal := subtotal orderData;
     discountCode := discountCode orderData;
     discountAmount := discountAmount orderData;
     total := total orderData |}.

(** An error on the quantity of an item of the cart [l], whose indices
    count from [start]: the item has a quantity that is not positive. *)
Definition quantityError (start : nat) (l : list CartItem.t)
  (e : OrderValidationError.t) : Prop :=
  exists j item,
    nth_error l j = Some item
    /\ Js.le (CartItem.quantity item) 0%float = true
    /\ OrderValidationError.field e
       = OrderValidationClient.quantityField (start + j).

(** Two sequences of statements that push the same errors. *)
Definition sameErrors (f g : Arrays.step) : Prop :=
  forall a a',
    Arrays.errors a = Arrays.errors a' ->
    Arrays.errors (f a) = Arrays.errors (g a').

(** The string holds the character. *)
Fixpoint contains (c : ascii) (s : string) : bool :=
  match s with
  | EmptyString => false
  | String x rest => Ascii.eqb x c || contains c rest
  end.

(** The first [keep] characters of a string, then one star for each of
    the others; a string of at most [keep] characters as it is. *)
Definition starred (keep : nat) (s : string) : string :=
  if (keep <? String.length s)%nat
  then (String.substring 0 keep s
        ++ Js.replicate (String.length s - keep) "*")%string
  else s.

(** The call returned. *)
Definition succeeded {A} (r : Js.Result A) : bool :=
  match r with inr _ => true | inl _ => false end.

(** The row reaches the table: the database client is created and the
    insert neither throws nor answers with an error. *)
Definition inserted (host : AuditLogger.Host)
  (row : AuditLogger.AuditLogEntry.t) : bool :=
  match AuditLogger.createClient host, AuditLogger.insert host row with
  | inr _, inr None => true
  | _, _ => false
  end.

(** The rows and the alerts of two worlds are the same. *)
Definition sameRecords (w w' : AuditLogger.World) : Prop :=
  AuditLogger.order_audit_logs w' = AuditLogger.order_audit_logs w
  /\ AuditLogger.alerts w' = AuditLogger.alerts w.

(** A phone on which [maskPhone] throws. *)
Definition fiveCharacters (phone : string) : bool :=
  (String.length phone =? 5)%nat.

(** A guest draft one of whose phones has five characters. *)
Definition hasFiveCharacterPhone (orderData : OrderData) : bool :=
  match identity orderData with
  | Guest customerInfo address =>
      fiveCharacters (CustomerInfo.phone customerInfo)
      || fiveCharacters (Address.phone address)
  | Authenticated _ _ => false
  end.



(** The entry [logValidationViolation] builds. *)
Definition violationEntry (host : AuditLogger.Host)
  (self : AuditLogger.OrderAuditLogger) (orderData sanitized : OrderData)
  (errors : list OrderValidationError.t) (agent : string)
  (context : option string) : AuditLogger.AuditLogEntry.t :=
  AuditLogger.AuditLogEntry.make (AuditLogger.now host)
    (AuditLogger.determineEventType errors) (userIdOf orderData)
    (Some (AuditLogger.sessionId self)) sanitized errors
    (AuditLogger.determineSeverity errors) (Some "client_ip_masked")
    (Some agent) context.

(** The entry [logValidationSuccess] builds. *)
Definition warningEntry (host : AuditLogger.Host)
  (self : AuditLogger.OrderAuditLogger) (orderData sanitized : OrderData)
  (warnings : list OrderValidationError.t) (agent : string)
  : AuditLogger.AuditLogEntry.t :=
  AuditLogger.AuditLogEntry.make (AuditLogger.now host)
    AuditLogger.EventType.validation_warning (userIdOf orderData)
    (Some (AuditLogger.sessionId self)) sanitized warnings
    AuditLogger.Level.low (Some "client_ip_masked") (Some agent) None.

(** The entry [logSuspiciousActivity] builds. *)
Definition suspiciousEntry (host : AuditLogger.Host)
  (self : AuditLogger.OrderAuditLogger) (description : string)
  (orderData sanitized : OrderData) (agent : string)
  (context : option string) : AuditLogger.AuditLogEntry.t :=
  AuditLogger.AuditLogEntry.make (AuditLogger.now host)
    AuditLogger.EventType.suspicious_activity (userIdOf orderData)
    (Some (AuditLogger.sessionId self)) sanitized
    [OrderValidationError.make "system" description "SUSPICIOUS_ACTIVITY"
       Severity.error]
    AuditLogger.Level.high (Some "client_ip_masked") (Some agent) context.

(** [uniform f]: what the statements [f] push does not depend on what
    the arrays hold already. *)
Definition uniform (f : Arrays.step) : Prop :=
  forall a,
    f a = Arrays.make (Arrays.errors a ++ Arrays.errors (f Arrays.empty))
            (Arrays.warnings a ++ Arrays.warnings (f Arrays.empty)).

(** [silent f]: the statements [f] push no error. *)
Definition silent (f : Arrays.step) : Prop :=
  Arrays.errors (f Arrays.empty) = [].

(** The same for statements that may throw: neither the outcome nor the
    pushes depend on what the arrays hold already. *)
Definition uniformly {A} (m : Eff.t Arrays.t A) : Prop :=
  forall a,
    fst (m a) = fst (m Arrays.empty)
    /\ snd (m a)
       = Arrays.make
           (Arrays.errors a ++ Arrays.errors (snd (m Arrays.empty)))
           (Arrays.warnings a ++ Arrays.warnings (snd (m Arrays.empty))).

(** [passes m]: the statements [m] run to their end and push no error. *)
Definition passes {A} (m : Eff.t Arrays.t A) : Prop :=
  (exists x, fst (m Arrays.empty) = inr x)
  /\ Arrays.errors (snd (m Arrays.empty)) = [].

(** What the client asks of a draft. *)
Definition clientAccepts (orderData : OrderData) : Prop :=
  cartItems orderData <> []
  /\ Forall (fun item => Js.le (CartItem.quantity item) 0%float = false)
       (cartItems orderData)
  /\ Js.le (total orderData) 0%float = false
  /\ Js.truthy (deliveryMethod orderData) = true
  /\ match identity orderData with
     | Guest customerInfo address =>
         Js.blank (CustomerInfo.full_name customerInfo) = false
         /\ Js.blank (CustomerInfo.email customerInfo) = false
         /\ Js.testAnchored OrderValidationClient.emailPattern
              (CustomerInfo.email customerInfo) = true
         /\ Js.blank (CustomerInfo.phone customerInfo) = false
         /\ Js.blank (Address.street_address address) = false
         /\ Js.blank (Address.city address) = false
         /\ Js.blank (Address.province address) = false
         /\ Js.blank (Address.postal_code address) = false
     | Authenticated userId addressId =>
         Js.blank userId = false /\ Js.blank addressId = false
     end.

(** What [validateDatabaseConstraints] asks of an item of the cart: the
    product is found, available and in stock, and the quantity is
    positive. *)
Definition itemAccepted (supabase : OrderValidation.Supabase)
  (item : CartItem.t) : Prop :=
  exists product,
    OrderValidation.selectProduct supabase (CartItem.product_id item)
    = inr (OrderValidation.Response.make (Some product) None)
    /\ OrderValidation.Product.is_available product = true
    /\ match OrderValidation.Product.stock_quantity product with
       | Some stock => Js.lt stock (CartItem.quantity item) = false
       | None => True
       end
    /\ Js.le (CartItem.quantity item) 0%float = false.

(** What it asks of the buyer. *)
Definition identityAccepted (supabase : OrderValidation.Supabase)
  (who : Identity) : Prop :=
  match who with
  | Guest customerInfo address =>
      Js.blank (CustomerInfo.full_name customerInfo) = false
      /\ Js.blank (CustomerInfo.email customerInfo) = false
      /\ Js.testAnywhere OrderValidation.emailPattern
           (CustomerInfo.email customerInfo) = true
      /\ Js.blank (Address.street_address address) = false
      /\ Js.blank (Address.city address) = false
      /\ Js.blank (Address.province address) = false
      /\ Js.blank (Address.postal_code address) = false
  | Authenticated userId addressId =>
      OrderValidation.getUser supabase = inr (Some userId)
      /\ exists row,
          OrderValidation.selectAddress supabase addressId userId
          = inr (OrderValidation.Response.make (Some row) None)
  end.

(** What it asks of a discount code that is not empty. *)
Definition discountAccepted (supabase : OrderValidation.Supabase)
  (orderData : OrderData) : Prop :=
  match discountCode orderData with
  | Some code =>
      Js.truthy code = true ->
      exists reply,
        OrderValidation.rpcValidateDiscountCode supabase code
          (userIdOf orderData) (subtotal orderData)
        = inr (OrderValidation.Response.make (Some reply) None)
        /\ OrderValidation.DiscountReply.valid reply = true
  | None => True
  end.

(** What it asks of the amounts. *)
Definition amountsAccepted (orderData : OrderData) : Prop :=
  Js.le (total orderData) 0%float = false
  /\ Js.lt (deliveryFee orderData) 0%float = false
  /\ OrderValidation.totalMismatch orderData = false.

Definition databaseAccepts (supabase : OrderValidation.Supabase)
  (orderData : OrderData) : Prop :=
  Js.includes OrderValidation.validDeliveryMethods (deliveryMethod orderData)
  = true
  /\ cartItems orderData <> []
  /\ Forall (itemAccepted supabase) (cartItems orderData)
  /\ identityAccepted supabase (identity orderData)
  /\ discountAccepted supabase orderData
  /\ amountsAccepted orderData.

(** What [validateBusinessRules] of [order-validation] asks. *)
Definition businessAccepts (orderData : OrderData) : Prop :=
  Js.gt (total orderData) OrderValidation.maximumOrderValue = false
  /\ Forall
       (fun item =>
          Js.gt (CartItem.quantity item) OrderValidation.maxQuantityPerItem
          = false)
       (cartItems orderData).

(** The error of [validateDatabaseConstraints] on the delivery method. *)
Definition deliveryMethodError : OrderValidationError.t :=
  OrderValidation.error "deliveryMethod"
    "Invalid delivery method. Must be one of: standard, express, collection"
    "INVALID_DELIVERY_METHOD".

(** An error that is not the one on the delivery method. *)
Definition otherCode (e : OrderValidationError.t) : Prop :=
  OrderValidationError.code e <> "INVALID_DELIVERY_METHOD".

(** The cart [getCart] reads in a world. *)
Definition cartIn {cartJson : GuestCheckout.Json (list GuestCheckout.GuestCartItem.t)}
  (host : GuestCheckout.Host) (w : GuestCheckout.World)
  : list GuestCheckout.GuestCartItem.t :=
  match fst (GuestCheckout.getCart host w) with
  | inr cart => cart
  | inl _ => []
  end.

(** The browser gives access to its storage. *)
Definition storageOpen (host : GuestCheckout.Host) : Prop :=
  GuestCheckout.hasWindow host = true
  /\ GuestCheckout.storageBlocked host = None.

(** [JSON.parse] gives back the cart that [JSON.stringify] printed. *)
Definition roundTrips
  {cartJson : GuestCheckout.Json (list GuestCheckout.GuestCartItem.t)}
  (cart : list GuestCheckout.GuestCartItem.t) : Prop :=
  GuestCheckout.parse (GuestCheckout.stringify cart) = inr cart
  /\ GuestCheckout.stringify cart <> "".

(** The storage of the world has room for the cart. *)
Definition fits
  {cartJson : GuestCheckout.Json (list GuestCheckout.GuestCartItem.t)}
  (host : GuestCheckout.Host) (w : GuestCheckout.World)
  (cart : list GuestCheckout.GuestCartItem.t) : Prop :=
  GuestCheckout.hasRoom host (GuestCheckout.localStorage w)
    GuestCheckout.GUEST_CART_KEY (GuestCheckout.stringify cart) = true.

(** The world after [setItem] of the cart. *)
Definition withCart
  {cartJson : GuestCheckout.Json (list GuestCheckout.GuestCartItem.t)}
  (cart : list GuestCheckout.GuestCartItem.t) (w : GuestCheckout.World)
  : GuestCheckout.World :=
  GuestCheckout.setEntries
    ((GuestCheckout.GUEST_CART_KEY, GuestCheckout.stringify cart)
     :: GuestCheckout.without GuestCheckout.GUEST_CART_KEY
          (GuestCheckout.localStorage w))
    w.

(** The world after a line on the console. *)
Definition withLine (line : string) (w : GuestCheckout.World)
  : GuestCheckout.World :=
  {| GuestCheckout.localStorage := GuestCheckout.localStorage w;
     GuestCheckout.console := GuestCheckout.console w ++ [line];
     GuestCheckout.cart_items := GuestCheckout.cart_items w |}.

(** The variant of a line of the cart: product, size and color. *)
Definition variant (item : GuestCheckout.GuestCartItem.t)
  : string * string * string :=
  (GuestCheckout.GuestCartItem.product_id item,
   GuestCheckout.GuestCartItem.size item,
   GuestCheckout.GuestCartItem.color item).

Definition variantOf (item : GuestCheckout.NewItem.t)
  : string * string * string :=
  (GuestCheckout.NewItem.product_id item,
   GuestCheckout.NewItem.size item,
   GuestCheckout.NewItem.color item).

(** [mergedInto host item cart cart']: [cart'] is [cart] with the
    quantity of [item] added to the first line of its variant, or with a
    new line for [item] at its end when no line has the variant. *)
Definition mergedInto (host : GuestCheckout.Host)
  (item : GuestCheckout.NewItem.t)
  (cart cart' : list GuestCheckout.GuestCartItem.t) : Prop :=
  ((forall line, In line cart -> GuestCheckout.sameVariant item line = false) ->
   cart' = cart ++ [GuestCheckout.newItem host item])
  /\ (forall before found after,
        cart = before ++ found :: after ->
        (forall line, In line before ->
                      GuestCheckout.sameVariant item line = false) ->
        GuestCheckout.sameVariant item found = true ->
        cart'
        = before
          ++ GuestCheckout.setQuantity
               (GuestCheckout.GuestCartItem.quantity found
                + GuestCheckout.NewItem.quantity item)%float found
          :: after).

(** What [updateQuantity] makes of a cart whose first line with the id
    is [found]. *)
Definition requantified (quantity : Js.number)
  (before : list GuestCheckout.GuestCartItem.t)
  (found : GuestCheckout.GuestCartItem.t)
  (after : list GuestCheckout.GuestCartItem.t)
  : list GuestCheckout.GuestCartItem.t :=
  if Js.le quantity 0%float then before ++ after
  else before ++ GuestCheckout.setQuantity quantity found :: after.

(** The ids of the lines of a cart. *)
Definition ids (cart : list GuestCheckout.GuestCartItem.t) : list string :=
  map GuestCheckout.GuestCartItem.id cart.

(** The write the migration sends for a line of the guest cart: an
    update of the row the user has for the variant, or a new row. *)
Definition writeFor (host : GuestCheckout.Host) (userId : string)
  (item : GuestCheckout.GuestCartItem.t) : GuestCheckout.Write :=
  match
    GuestCheckout.selectCartItem host userId
      (GuestCheckout.GuestCartItem.product_id item)
      (GuestCheckout.GuestCartItem.size item)
      (GuestCheckout.GuestCartItem.color item)
  with
  | inr (Some row) =>
      GuestCheckout.Update (GuestCheckout.CartRow.id row)
        (GuestCheckout.CartRow.quantity row
         + GuestCheckout.GuestCartItem.quantity item)%float
        (GuestCheckout.nowISO host)
  | _ =>
      GuestCheckout.Insert userId
        (GuestCheckout.GuestCartItem.product_id item)
        (GuestCheckout.GuestCartItem.quantity item)
        (GuestCheckout.GuestCartItem.size item)
        (GuestCheckout.GuestCartItem.color item)
  end.

(** The call for a line of the guest cart is rejected: the lookup of the
    row, or the write. *)
Definition rejected (host : GuestCheckout.Host) (userId : string)
  (item : GuestCheckout.GuestCartItem.t) : Prop :=
  (exists e,
     GuestCheckout.selectCartItem host userId
       (GuestCheckout.GuestCartItem.product_id item)
       (GuestCheckout.GuestCartItem.size item)
       (GuestCheckout.GuestCartItem.color item) = inl e)
  \/ exists e, GuestCheckout.send host (writeFor host userId item) = inl e.



(** The codes the client can still report on a draft of a form that
    [validateForm] found complete. *)
Definition codesAfterTheForm : list string :=
  ["EMPTY_CART"; "INVALID_QUANTITY"; "INVALID_TOTAL";
   "MISSING_DELIVERY_METHOD"; "INVALID_EMAIL"].

(** The text holds the part. *)
Definition holds (whole part : string) : Prop :=
  exists before after, whole = (before ++ part ++ after)%string.

(** [finer r r']: [r'] is [r] with wider classes of characters, so that
    it matches what [r] matches. *)
Inductive finer : Js.regex -> Js.regex -> Prop :=
| finer_void r : finer Js.Void r
| finer_eps : finer Js.Eps Js.Eps
| finer_class (p q : ascii -> bool) :
    (forall c, p c = true -> q c = true) -> finer (Js.Class p) (Js.Class q)
| finer_cat r1 r1' r2 r2' :
    finer r1 r1' -> finer r2 r2' -> finer (Js.Cat r1 r2) (Js.Cat r1' r2')
| finer_alt r1 r1' r2 r2' :
    finer r1 r1' -> finer r2 r2' -> finer (Js.Alt r1 r2) (Js.Alt r1' r2')
| finer_alt_left r r1 r2 : finer r r1 -> finer r (Js.Alt r1 r2)
| finer_star r r' : finer r r' -> finer (Js.Star r) (Js.Star r').

(** The codes of the checks that [validateDatabaseConstraints] shares
    with the client. *)
Definition codesOfTheClient : list string :=
  ["EMPTY_CART"; "INVALID_QUANTITY"; "INVALID_TOTAL"; "GUEST_NAME_REQUIRED";
   "GUEST_EMAIL_REQUIRED"; "INVALID_EMAIL_FORMAT"; "ADDRESS_REQUIRED";
   "CITY_REQUIRED"; "PROVINCE_REQUIRED"; "POSTAL_CODE_REQUIRED"].

(** An error that is not one of them. *)
Definition leftToTheServer (e : OrderValidationError.t) : Prop :=
  ~ In (OrderValidationError.code e) codesOfTheClient.

(** [keepsWhenThrown P m]: when the statements [m] throw, the errors
    pushed up to the throw satisfy [P], if those before did. *)
Definition keepsWhenThrown (P : OrderValidationError.t -> Prop) {A}
  (m : Eff.t Arrays.t A) : Prop :=
  forall a e,
    Forall P (Arrays.errors a) ->
    fst (m a) = inl e ->
    Forall P (Arrays.errors (snd (m a))).

(** An error that is not the one on the totals, and one that is not
    the generic one of the [catch]. *)
Definition notOnTheTotals (e : OrderValidationError.t) : Prop :=
  OrderValidationError.code e <> "TOTAL_CALCULATION_ERROR".

Definition notGeneric (e : OrderValidationError.t) : Prop :=
  OrderValidationError.code e <> "VALIDATION_ERROR".

(** The cart entry of the storage, if there is one, is empty, is a text
    that [JSON.parse] refuses, or is the text [saveCart] wrote for a
    cart that parses back: [JSON.parse] does not return a value of
    another type than [GuestCartItem[]] for it. *)
Definition wellStored
  {cartJson : GuestCheckout.Json (list GuestCheckout.GuestCartItem.t)}
  (w : GuestCheckout.World) : Prop :=
  forall text,
    GuestCheckout.lookup GuestCheckout.GUEST_CART_KEY
      (GuestCheckout.localStorage w) = Some text ->
    text = ""
    \/ (exists e, GuestCheckout.parse text = inl e)
    \/ exists cart,
         text = GuestCheckout.stringify cart
         /\ GuestCheckout.parse text = inr cart.

(** ** Data for running the model *)

Module Examples.

Import Js.

Definition digits (n : Z) : string :=
  NilEmpty.string_of_uint (N.to_uint (Z.to_N n)).

(** [round(|x| * 10^places)], halves rounded up, with the sign of [x]. *)
Definition scaled (x : number) (places : nat) : option (bool * Z) :=
  match Prim2SF x with
  | S754_zero negative => Some (negative, 0%Z)
  | S754_finite negative m e =>
      let n := (Zpos m * 10 ^ Z.of_nat places)%Z in
      Some (negative,
            if (0 <=? e)%Z then (n * 2 ^ e)%Z
            else ((2 * n + 2 ^ (- e)) / 2 ^ (1 - e))%Z)
  | _ => None
  end.

(** The decimals of a fraction, padded with zeros on the left. *)
Definition decimals (n : Z) (places : nat) : string :=
  let fraction := digits n in
  replicate (places - String.length fraction) "0" ++ fraction.

Definition fixed (x : number) (places : nat) : string :=
  match scaled x places with
  | None => "NaN"
  | Some (negative, n) =>
      (if negative then "-" else "")
      ++ digits (n / 10 ^ Z.of_nat places)
      ++ match places with
         | O => ""
         | _ => "." ++ decimals (n mod 10 ^ Z.of_nat places) places
         end
  end.

Fixpoint dropTrailingZeros (s : string) : string :=
  match s with
  | EmptyString => ""
  | String c r =>
      let r' := dropTrailingZeros r in
      if (r' =? "")%string && Ascii.eqb c "0" then "" else String c r'
  end.

Definition plain (x : number) : string :=
  match scaled x 2 with
  | None => "NaN"
  | Some (negative, n) =>
      let fraction := dropTrailingZeros (decimals (n mod 100) 2) in
      (if negative && (0 <? n)%Z then "-" else "")
      ++ digits (n / 100)
      ++ (if (fraction =? "")%string then "" else "." ++ fraction)
  end.

(** A runtime for amounts of money: it prints finite numbers of at most
    two decimals, which is what the examples print. *)
Definition moneyRuntime : Runtime :=
  {| numberToString := plain; toFixed := fixed |}.

(** The database client as [tests/order-validation.test.ts] mocks it:
    [single()] after one [eq] resolves to [{ data: null, error: null }],
    and the calls the mock does not define ([auth], a second [eq], [rpc])
    throw a TypeError. *)
Definition jestSupabase : OrderValidation.Supabase :=
  {| OrderValidation.selectProduct := fun _ =>
       inr (OrderValidation.Response.make None None);
     OrderValidation.getUser :=
       inl (TypeError "Cannot read properties of undefined");
     OrderValidation.selectAddress := fun _ _ =>
       inl (TypeError "eq is not a function");
     OrderValidation.rpcValidateDiscountCode := fun _ _ _ =>
       inl (TypeError "supabase.rpc is not a function") |}.

(** A database that cannot be reached: every call rejects. *)
Definition unreachableSupabase : OrderValidation.Supabase :=
  {| OrderValidation.selectProduct := fun _ => inl (HostError "fetch failed");
     OrderValidation.getUser := inl (HostError "fetch failed");
     OrderValidation.selectAddress := fun _ _ => inl (HostError "fetch failed");
     OrderValidation.rpcValidateDiscountCode := fun _ _ _ =>
       inl (HostError "fetch failed") |}.

(** A database with every product on sale at 299.99, in stock, that knows
    the user [user-123] and accepts every address and discount code. *)
Definition stockedSupabase : OrderValidation.Supabase :=
  {| OrderValidation.selectProduct := fun id =>
       inr (OrderValidation.Response.make
              (Some (OrderValidation.Product.make id "Dress" 299.99%float true
                       (Some 40%float)))
              None);
     OrderValidation.getUser := inr (Some "user-123");
     OrderValidation.selectAddress := fun addressId userId =>
       inr (OrderValidation.Response.make
              (Some (OrderValidation.AddressRow.make addressId userId)) None);
     OrderValidation.rpcValidateDiscountCode := fun _ _ _ =>
       inr (OrderValidation.Response.make
              (Some (OrderValidation.DiscountReply.make true None
                       (Some 60%float)))
              None) |}.

Definition johnDoe : CustomerInfo.t :=
  CustomerInfo.make "John Doe" "john@example.com" "+27123456789".

Definition mainStreet : Address.t :=
  Address.make "123 Main St" "Cape Town" "Western Cape" "8001" "+27123456789".

(** [validGuestOrder] of the test file. *)
Definition validGuestOrder : OrderData :=
  {| identity := Guest johnDoe mainStreet;
     cartItems := [CartItem.make "prod-1" 2%float 299.99%float];
     deliveryMethod := "courier_guy";
     deliveryFee := 99%float;
     subtotal := 599.98%float;
     discountCode := None;
     discountAmount := None;
     total := 698.98%float |}.

(** [highValueOrder] of the test file. *)
Definition highValueOrder : OrderData :=
  {| identity := Guest johnDoe mainStreet;
     cartItems := [CartItem.make "prod-1" 1%float 15000%float];
     deliveryMethod := "courier_guy";
     deliveryFee := 99%float;
     subtotal := 15000%float;
     discountCode := None;
     discountAmount := None;
     total := 15099%float |}.

(** The test's order with an empty cart. *)
Definition emptyCartOrder : OrderData :=
  {| identity := Guest johnDoe mainStreet;
     cartItems := [];
     deliveryMethod := "courier_guy";
     deliveryFee := 99%float;
     subtotal := 0%float;
     discountCode := None;
     discountAmount := None;
     total := 99%float |}.

(** The test's order with a wrong total. *)
Definition wrongTotalOrder : OrderData :=
  {| identity := Guest johnDoe mainStreet;
     cartItems := [CartItem.make "prod-1" 2%float 299.99%float];
     deliveryMethod := "standard";
     deliveryFee := 99%float;
     subtotal := 599.98%float;
     discountCode := None;
     discountAmount := None;
     total := 999.99%float |}.

(** [validAuthOrder] of the test file with a wrong total. *)
Definition wrongTotalAuthOrder : OrderData :=
  {| identity := Authenticated "user-123" "addr-456";
     cartItems := [CartItem.make "prod-2" 1%float 499.99%float];
     deliveryMethod := "pudo";
     deliveryFee := 65%float;
     subtotal := 499.99%float;
     discountCode := None;
     discountAmount := None;
     total := 999.99%float |}.

(** The test's order with fifteen pieces of one product. *)
Definition largeQuantityOrder : OrderData :=
  {| identity := Guest johnDoe mainStreet;
     cartItems := [CartItem.make "prod-1" 15%float 299.99%float];
     deliveryMethod := "courier_guy";
     deliveryFee := 99%float;
     subtotal := 599.98%float;
     discountCode := None;
     discountAmount := None;
     total := 698.98%float |}.

(** A guest whose phone numbers have five characters. *)
Definition shortPhoneOrder : OrderData :=
  {| identity :=
       Guest (CustomerInfo.make "John Doe" "john@example.com" "12345")
         (Address.make "123 Main St" "Cape Town" "Western Cape" "8001" "12345");
     cartItems := [];
     deliveryMethod := "courier_guy";
     deliveryFee := 99%float;
     subtotal := 0%float;
     discountCode := None;
     discountAmount := None;
     total := 99%float |}.

(** A host on which everything works. *)
Definition workingHost : AuditLogger.Host :=
  {| AuditLogger.now := "2025-01-01T00:00:00.000Z";
     AuditLogger.development := false;
     AuditLogger.userAgent := inr "Mozilla/5.0";
     AuditLogger.createClient := inr tt;
     AuditLogger.insert := fun _ => inr None;
     AuditLogger.deliverAlert := fun _ => inr tt |}.

(** A host on which the insert and the alert both throw. *)
Definition brokenHost : AuditLogger.Host :=
  {| AuditLogger.now := "2025-01-01T00:00:00.000Z";
     AuditLogger.development := true;
     AuditLogger.userAgent := inr "Mozilla/5.0";
     AuditLogger.createClient := inr tt;
     AuditLogger.insert := fun _ => inl (HostError "connection refused");
     AuditLogger.deliverAlert := fun _ => inl (HostError "monitoring is down") |}.

Definition logger : AuditLogger.OrderAuditLogger :=
  {| AuditLogger.sessionId := "session_1735689600000_k3j9x2m1q" |}.

Definition emptyWorld : AuditLogger.World :=
  {| AuditLogger.order_audit_logs := [];
     AuditLogger.alerts := [];
     AuditLogger.console := [] |}.

(** [validGuestOrder] with a delivery method of the database. *)
Definition standardGuestOrder : OrderData :=
  {| identity := Guest johnDoe mainStreet;
     cartItems := [CartItem.make "prod-1" 2%float 299.99%float];
     deliveryMethod := "standard";
     deliveryFee := 99%float;
     subtotal := 599.98%float;
     discountCode := Some "SAVE60";
     discountAmount := Some 60%float;
     total := 638.98%float |}.

(** *** The guest cart *)

Definition text (s : string) : string :=
  OrderValidation.quote ++ s ++ OrderValidation.quote.

Definition member (name value : string) : string :=
  text name ++ ":" ++ value.

Definition object (members : list string) : string :=
  "{" ++ join "," members ++ "}".

Definition productText (product : GuestCheckout.ProductInfo.t) : string :=
  object
    [member "id" (text (GuestCheckout.ProductInfo.id product));
     member "name" (text (GuestCheckout.ProductInfo.name product));
     member "price" (plain (GuestCheckout.ProductInfo.price product));
     member "image_url" (text (GuestCheckout.ProductInfo.image_url product));
     member "stock_quantity"
       (plain (GuestCheckout.ProductInfo.stock_quantity product))].

Definition itemText (item : GuestCheckout.GuestCartItem.t) : string :=
  object
    ([member "id" (text (GuestCheckout.GuestCartItem.id item));
      member "product_id" (text (GuestCheckout.GuestCartItem.product_id item));
      member "quantity" (plain (GuestCheckout.GuestCartItem.quantity item));
      member "size" (text (GuestCheckout.GuestCartItem.size item));
      member "color" (text (GuestCheckout.GuestCartItem.color item))]
     ++ match GuestCheckout.GuestCartItem.product item with
        | Some product => [member "product" (productText product)]
        | None => []
        end).

(** The JSON text of a cart whose strings need no escape and whose
    numbers are amounts of money. *)
Definition cartText (cart : list GuestCheckout.GuestCartItem.t) : string :=
  "[" ++ join "," (map itemText cart) ++ "]".

Definition dressInfo : GuestCheckout.ProductInfo.t :=
  GuestCheckout.ProductInfo.make "prod-1" "Dress" 299.99%float "/dress.jpg"
    40%float.

Definition dress : GuestCheckout.GuestCartItem.t :=
  GuestCheckout.GuestCartItem.make "guest_1735689500000_a1b2c3d4e" "prod-1"
    2%float "M" "Black" (Some dressInfo).

Definition threeDresses : GuestCheckout.GuestCartItem.t :=
  GuestCheckout.GuestCartItem.make "guest_1735689500000_a1b2c3d4e" "prod-1"
    3%float "M" "Black" (Some dressInfo).

Definition scarf : GuestCheckout.GuestCartItem.t :=
  GuestCheckout.GuestCartItem.make "guest_1735689600000_k3j9x2m1q" "prod-2"
    1%float "One size" "Red" None.

(** The argument of [addItem] for one more dress and for a scarf. *)
Definition oneMoreDress : GuestCheckout.NewItem.t :=
  GuestCheckout.NewItem.make "prod-1" 1%float "M" "Black" (Some dressInfo).

Definition aScarf : GuestCheckout.NewItem.t :=
  GuestCheckout.NewItem.make "prod-2" 1%float "One size" "Red" None.

Definition knownCarts : list (list GuestCheckout.GuestCartItem.t) :=
  [[]; [dress]; [threeDresses]; [scarf]; [dress; scarf];
   [threeDresses; scarf]].

(** [JSON.parse] on the texts of the carts above; any other text is
    taken not to parse. *)
Definition parseCart (t : string)
  : Result (list GuestCheckout.GuestCartItem.t) :=
  match find (fun cart => (cartText cart =? t)%string) knownCarts with
  | Some cart => inr cart
  | None => inl (HostError "SyntaxError: Unexpected token")
  end.

Definition cartJson : GuestCheckout.Json (list GuestCheckout.GuestCartItem.t) :=
  {| GuestCheckout.stringify := cartText;
     GuestCheckout.parse := parseCart |}.

(** A browser with an open storage of 5000 characters for each entry,
    whose backend answers every call and holds no row yet. *)
Definition browser : GuestCheckout.Host :=
  {| GuestCheckout.hasWindow := true;
     GuestCheckout.storageBlocked := None;
     GuestCheckout.hasRoom := fun _ _ value =>
       (String.length value <=? 5000)%nat;
     GuestCheckout.timestamp := "1735689600000";
     GuestCheckout.randomSuffix := "k3j9x2m1q";
     GuestCheckout.nowISO := "2025-01-01T00:00:00.000Z";
     GuestCheckout.createClient := inr tt;
     GuestCheckout.getUser := inr None;
     GuestCheckout.selectCartItem := fun _ _ _ _ => inr None;
     GuestCheckout.send := fun _ => inr tt |}.

(** The same browser with a storage that is full. *)
Definition fullBrowser : GuestCheckout.Host :=
  {| GuestCheckout.hasWindow := true;
     GuestCheckout.storageBlocked := None;
     GuestCheckout.hasRoom := fun _ _ _ => false;
     GuestCheckout.timestamp := "1735689600000";
     GuestCheckout.randomSuffix := "k3j9x2m1q";
     GuestCheckout.nowISO := "2025-01-01T00:00:00.000Z";
     GuestCheckout.createClient := inr tt;
     GuestCheckout.getUser := inr None;
     GuestCheckout.selectCartItem := fun _ _ _ _ => inr None;
     GuestCheckout.send := fun _ => inr tt |}.

(** The server that renders the pages: there is no window. *)
Definition server : GuestCheckout.Host :=
  {| GuestCheckout.hasWindow := false;
     GuestCheckout.storageBlocked :=
       Some (ReferenceError "localStorage is not defined");
     GuestCheckout.hasRoom := fun _ _ _ => false;
     GuestCheckout.timestamp := "1735689600000";
     GuestCheckout.randomSuffix := "k3j9x2m1q";
     GuestCheckout.nowISO := "2025-01-01T00:00:00.000Z";
     GuestCheckout.createClient := inr tt;
     GuestCheckout.getUser := inr None;
     GuestCheckout.selectCartItem := fun _ _ _ _ => inr None;
     GuestCheckout.send := fun _ => inr tt |}.

Definition emptyStorage : GuestCheckout.World :=
  {| GuestCheckout.localStorage := [];
     GuestCheckout.console := [];
     GuestCheckout.cart_items := [] |}.

(** A storage that holds the cart with two dresses and the data of a
    checkout. *)
Definition dressStorage : GuestCheckout.World :=
  {| GuestCheckout.localStorage :=
       [(GuestCheckout.GUEST_CART_KEY, cartText [dress]);
        (GuestCheckout.GUEST_CHECKOUT_KEY, "{}")];
     GuestCheckout.console := [];
     GuestCheckout.cart_items := [] |}.

(** *** The checkout form *)

Definition filledForm : GuestCheckoutForm.State :=
  {| GuestCheckoutForm.customerInfo := johnDoe;
     GuestCheckoutForm.address :=
       GuestCheckout.GuestAddress.make "123 Main St" "Cape Town"
         "Western Cape" "8001" "South Africa";
     GuestCheckoutForm.deliveryMethod := "courier_guy";
     GuestCheckoutForm.appliedDiscount := None;
     GuestCheckoutForm.isProcessing := false |}.

(** The same form with a second [@] in the email. *)
Definition twoAtForm : GuestCheckoutForm.State :=
  {| GuestCheckoutForm.customerInfo :=
       CustomerInfo.make "John Doe" "john@doe@example.com" "+27123456789";
     GuestCheckoutForm.address :=
       GuestCheckout.GuestAddress.make "123 Main St" "Cape Town"
         "Western Cape" "8001" "South Africa";
     GuestCheckoutForm.deliveryMethod := "courier_guy";
     GuestCheckoutForm.appliedDiscount := None;
     GuestCheckoutForm.isProcessing := false |}.

Definition dressProps : GuestCheckoutForm.Props :=
  {| GuestCheckoutForm.cartItems := [dress];
     GuestCheckoutForm.products :=
       [GuestCheckoutForm.Product.make "prod-1" 299.99%float];
     GuestCheckoutForm.subtotal := 599.98%float |}.

End Examples.

(** ** Theorems *)

(** *** Reasoning about effects *)

Section EffFacts.

Context {St A B : Type}.

Lemma bind_returned (m : Eff.t St A) (k : A -> Eff.t St B) s x :
  fst (m s) = inr x -> Eff.bind m k s = k x (snd (m s)).
Proof.
  unfold Eff.bind. destruct (m s) as [[e | a] s']; simpl; intros H.
  - discriminate.
  - now inversion H.
Qed.

Lemma bind_returned_inv (m : Eff.t St A) (k : A -> Eff.t St B) s y :
  fst (Eff.bind m k s) = inr y ->
  exists x, fst (m s) = inr x /\ fst (k x (snd (m s))) = inr y.
Proof.
  unfold Eff.bind. destruct (m s) as [[e | a] s']; simpl; intros H.
  - discriminate.
  - now exists a.
Qed.

End EffFacts.

(** *** What a sequence of checks pushes *)

Section Appends.

Variable P : OrderValidationError.t -> Prop.

Lemma appends_skip : appends P Arrays.skip.
Proof.
  intros a. exists [], []. rewrite !app_nil_r. now destruct a.
Qed.

Lemma appends_pushError e : P e -> appends P (Arrays.pushError e).
Proof.
  intros He a. exists [e], []. rewrite app_nil_r. split; auto.
Qed.

Lemma appends_pushWarning w : appends P (Arrays.pushWarning w).
Proof.
  intros a. exists [], [w]. rewrite app_nil_r. split; auto.
Qed.

Lemma appends_andThen f g :
  appends P f -> appends P g -> appends P (Arrays.andThen f g).
Proof.
  intros Hf Hg a. unfold Arrays.andThen.
  destruct (Hf a) as (es & ws & E & F).
  destruct (Hg (f a)) as (es' & ws' & E' & F').
  exists (es ++ es'), (ws ++ ws'). rewrite E', E. simpl.
  rewrite !app_assoc. split; auto. now apply Forall_app.
Qed.

Lemma appends_when c f : appends P f -> appends P (Arrays.when c f).
Proof. destruct c; simpl; auto using appends_skip. Qed.

Lemma appends_forEachFrom {A} (l : list A) body :
  (forall x i, appends P (body x i)) ->
  forall i, appends P (Arrays.forEachFrom i l body).
Proof.
  intros Hb. induction l as [| x l IH]; intros i; simpl.
  - apply appends_skip.
  - apply appends_andThen; auto.
Qed.

Lemma appends_forOf {A} (l : list A) body :
  (forall x, appends P (body x)) -> appends P (Arrays.forOf l body).
Proof.
  intros Hb. induction l as [| x l IH]; simpl.
  - apply appends_skip.
  - apply appends_andThen; auto.
Qed.

(** What was pushed stays. *)
Lemma appends_keeps f a e :
  appends P f -> In e (Arrays.errors a) -> In e (Arrays.errors (f a)).
Proof.
  intros Hf Hin. destruct (Hf a) as (es & ws & E & _). rewrite E. simpl.
  apply in_or_app. now left.
Qed.

Lemma appends_keeps_warning f a w :
  appends P f -> In w (Arrays.warnings a) -> In w (Arrays.warnings (f a)).
Proof.
  intros Hf Hin. destruct (Hf a) as (es & ws & E & _). rewrite E. simpl.
  apply in_or_app. now left.
Qed.

(** Errors that satisfy [P] before satisfy it after. *)
Lemma appends_Forall f a :
  appends P f -> Forall P (Arrays.errors a) -> Forall P (Arrays.errors (f a)).
Proof.
  intros Hf Ha. destruct (Hf a) as (es & ws & E & F). rewrite E. simpl.
  now apply Forall_app.
Qed.

Lemma emits_keeps {A} (m : Eff.t Arrays.t A) a e :
  emits P m -> In e (Arrays.errors a) -> In e (Arrays.errors (snd (m a))).
Proof. intros Hm. apply (appends_keeps _ a e Hm). Qed.

Lemma emits_Forall_start {A} (m : Eff.t Arrays.t A) :
  emits P m -> Forall P (Arrays.errors (snd (m Arrays.empty))).
Proof.
  intros Hm. apply (appends_Forall _ Arrays.empty Hm). constructor.
Qed.

Lemma emits_nothing {A} (m : Eff.t Arrays.t A) :
  (forall a, snd (m a) = a) -> emits P m.
Proof.
  intros H a. rewrite H. apply appends_skip.
Qed.

Lemma emits_ret {A} (x : A) : emits P (Eff.ret x).
Proof. now apply emits_nothing. Qed.

Lemma emits_throw {A} e : emits P (@Eff.throw Arrays.t A e).
Proof. now apply emits_nothing. Qed.

Lemma emits_ofResult {A} (r : Js.Result A) : emits P (Eff.ofResult r).
Proof. now apply emits_nothing. Qed.

Lemma emits_get : emits P Eff.get.
Proof. now apply emits_nothing. Qed.

Lemma emits_pushError e : P e -> emits P (OrderValidation.pushError e).
Proof. intros He a. now apply appends_pushError. Qed.

Lemma emits_pushWarning w : emits P (OrderValidation.pushWarning w).
Proof. intros a. apply appends_pushWarning. Qed.

Lemma emits_bind {A B} (m : Eff.t Arrays.t A) (k : A -> Eff.t Arrays.t B) :
  emits P m -> (forall x, emits P (k x)) -> emits P (Eff.bind m k).
Proof.
  intros Hm Hk a. destruct (Hm a) as (es & ws & E & F).
  unfold Eff.bind. destruct (m a) as [[e | x] a']; simpl in *.
  - now exists es, ws.
  - destruct (Hk x a') as (es' & ws' & E' & F'). subst a'. simpl in E'.
    exists (es ++ es'), (ws ++ ws'). rewrite !app_assoc. split; auto.
    now apply Forall_app.
Qed.

Lemma emits_tryCatch {A} (m : Eff.t Arrays.t A) h :
  emits P m -> (forall e, emits P (h e)) -> emits P (Eff.tryCatch m h).
Proof.
  intros Hm Hh a. destruct (Hm a) as (es & ws & E & F).
  unfold Eff.tryCatch. destruct (m a) as [[e | x] a']; simpl in *.
  - destruct (Hh e a') as (es' & ws' & E' & F'). subst a'. simpl in E'.
    exists (es ++ es'), (ws ++ ws'). rewrite !app_assoc. split; auto.
    now apply Forall_app.
  - now exists es, ws.
Qed.

Lemma emits_when c (m : Eff.t Arrays.t unit) :
  emits P m -> emits P (Eff.when c m).
Proof. destruct c; simpl; auto using emits_ret. Qed.

Lemma emits_forOf {A} (l : list A) (body : A -> Eff.t Arrays.t unit) :
  (forall x, emits P (body x)) -> emits P (Eff.forOf l body).
Proof.
  intros Hb. induction l as [| x l IH]; simpl.
  - apply emits_ret.
  - apply emits_bind; auto.
Qed.

End Appends.

Lemma appends_weaken (P Q : OrderValidationError.t -> Prop) f :
  (forall e, P e -> Q e) -> appends P f -> appends Q f.
Proof.
  intros HPQ Hf a. destruct (Hf a) as (es & ws & E & F).
  exists es, ws. split; auto. eapply Forall_impl; eauto.
Qed.

Lemma follows_incl rules rules' e :
  incl rules rules' -> follows rules e -> follows rules' e.
Proof. unfold follows. auto. Qed.

(** Splits statements into their parts and leaves, for every error that
    is pushed, the obligation that it satisfies the predicate. *)
Ltac appends_steps :=
  repeat match goal with
    | |- appends _ (Arrays.andThen _ _) => apply appends_andThen
    | |- appends _ (Arrays.when _ _) => apply appends_when
    | |- appends _ (Arrays.forEach _ _) => apply appends_forEachFrom; intros ? ?
    | |- appends _ (Arrays.forEachFrom _ _ _) =>
        apply appends_forEachFrom; intros ? ?
    | |- appends _ (Arrays.forOf _ _) => apply appends_forOf; intros ?
    | |- appends _ (Arrays.pushError _) => apply appends_pushError
    | |- appends _ (Arrays.pushWarning _) => apply appends_pushWarning
    | |- appends _ Arrays.skip => apply appends_skip
    | |- appends _ (match ?x with _ => _ end) => destruct x
    | |- emits _ (Eff.bind _ _) => apply emits_bind; [| intros ? ]
    | |- emits _ (Eff.when _ _) => apply emits_when
    | |- emits _ (Eff.tryCatch _ _) => apply emits_tryCatch; [| intros ? ]
    | |- emits _ (Eff.forOf _ _) => apply emits_forOf; intros ?
    | |- emits _ (OrderValidation.pushError _) => apply emits_pushError
    | |- emits _ (OrderValidation.pushWarning _) => apply emits_pushWarning
    | |- emits _ (Eff.ret _) => apply emits_ret
    | |- emits _ (Eff.throw _) => apply emits_throw
    | |- emits _ (Eff.ofResult _) => apply emits_ofResult
    | |- emits _ Eff.get => apply emits_get
    | |- emits _ (match ?x with _ => _ end) => destruct x
    end.

(** An error built from constants follows a table that lists it. *)
Ltac follows_table :=
  unfold follows; cbn [OrderValidationError.field OrderValidationError.code
                        OrderValidation.error OrderValidationClient.error];
  repeat first [ left; reflexivity | right ].

(** *** Statements that do not throw *)

Section Returns.

Context {St : Type}.

Lemma returns_ret {A} (x : A) : returns (@Eff.ret St A x).
Proof. intros s. now exists x. Qed.

Lemma returns_get : returns (@Eff.get St).
Proof. intros s. now exists s. Qed.

Lemma returns_update (f : St -> St) : returns (Eff.update f).
Proof. intros s. now exists tt. Qed.

Lemma returns_ofResult {A} (x : A) : returns (@Eff.ofResult St A (inr x)).
Proof. intros s. now exists x. Qed.

Lemma returns_bind {A B} (m : Eff.t St A) (k : A -> Eff.t St B) :
  returns m -> (forall x, returns (k x)) -> returns (Eff.bind m k).
Proof.
  intros Hm Hk s. destruct (Hm s) as (x & Hx).
  rewrite (bind_returned _ _ _ x Hx). apply Hk.
Qed.

Lemma returns_tryCatch {A} (m : Eff.t St A) h :
  (forall e, returns (h e)) -> returns (Eff.tryCatch m h).
Proof.
  intros Hh s. unfold Eff.tryCatch. destruct (m s) as [[e | x] s']; simpl.
  - apply Hh.
  - now exists x.
Qed.

Lemma returns_when c (m : Eff.t St unit) : returns m -> returns (Eff.when c m).
Proof. destruct c; simpl; auto using returns_ret. Qed.

Lemma returns_forOf {A} (l : list A) (body : A -> Eff.t St unit) :
  (forall x, returns (body x)) -> returns (Eff.forOf l body).
Proof.
  intros Hb. induction l as [| x l IH]; simpl.
  - apply returns_ret.
  - apply returns_bind; auto.
Qed.

Lemma returns_unit (m : Eff.t St unit) s : returns m -> fst (m s) = inr tt.
Proof. intros Hm. now destruct (Hm s) as ([] & Hx). Qed.

End Returns.

Ltac returns_steps :=
  repeat match goal with
    | |- returns (Eff.bind _ _) => apply returns_bind; [| intros ? ]
    | |- returns (Eff.when _ _) => apply returns_when
    | |- returns (Eff.tryCatch _ _) => apply returns_tryCatch; intros ?
    | |- returns (Eff.forOf _ _) => apply returns_forOf; intros ?
    | |- returns (OrderValidation.pushError _) => apply returns_update
    | |- returns (OrderValidation.pushWarning _) => apply returns_update
    | |- returns (Eff.ret _) => apply returns_ret
    | |- returns (Eff.ofResult (inr _)) => apply returns_ofResult
    | |- returns Eff.get => apply returns_get
    | |- returns (match ?x with _ => _ end) => destruct x
    end.

(** *** The database validator *)

Section Database.

Context {runtime : Js.Runtime}.
Variable supabase : OrderValidation.Supabase.

Lemma emits_validateDiscountCode P code userId orderTotal :
  emits P (OrderValidation.validateDiscountCode supabase code userId orderTotal).
Proof. unfold OrderValidation.validateDiscountCode. appends_steps. Qed.

Lemma emits_checkItem item :
  emits (follows productRules) (OrderValidation.checkItem supabase item).
Proof. unfold OrderValidation.checkItem. appends_steps; follows_table. Qed.

Lemma emits_checkDeliveryMethod orderData :
  emits (follows rulesBesideCart) (OrderValidation.checkDeliveryMethod orderData).
Proof.
  unfold OrderValidation.checkDeliveryMethod. appends_steps; follows_table.
Qed.

Lemma emits_checkGuest customerInfo address :
  emits (follows rulesBesideCart)
    (OrderValidation.checkGuest customerInfo address).
Proof. unfold OrderValidation.checkGuest. appends_steps; follows_table. Qed.

Lemma emits_checkAuthenticated userId addressId :
  emits (follows rulesBesideCart)
    (OrderValidation.checkAuthenticated supabase userId addressId).
Proof.
  unfold OrderValidation.checkAuthenticated. appends_steps; follows_table.
Qed.

Lemma emits_checkDiscount orderData :
  emits (follows rulesBesideCart)
    (OrderValidation.checkDiscount supabase orderData).
Proof.
  unfold OrderValidation.checkDiscount. appends_steps;
    try apply emits_validateDiscountCode; follows_table.
Qed.

Lemma emits_checkAmounts orderData :
  emits (follows rulesBesideCart) (OrderValidation.checkAmounts orderData).
Proof.
  unfold OrderValidation.checkAmounts, OrderValidation.totalCalculationError.
  appends_steps; follows_table.
Qed.

Lemma emits_checkCart orderData :
  emits (follows (("cartItems", "EMPTY_CART") :: productRules))
    (OrderValidation.checkCart supabase orderData).
Proof.
  unfold OrderValidation.checkCart. appends_steps.
  - follows_table.
  - eapply appends_weaken; [| apply emits_checkItem ].
    intros e. apply follows_incl. apply incl_tl, incl_refl.
Qed.

(** The statements that follow the loop over the cart. *)
Lemma emits_after_cart orderData :
  emits (follows rulesBesideCart)
    (match identity orderData with
     | Guest customerInfo address =>
         OrderValidation.checkGuest customerInfo address
     | Authenticated userId addressId =>
         OrderValidation.checkAuthenticated supabase userId addressId
     end ;;
     OrderValidation.checkDiscount supabase orderData ;;
     OrderValidation.checkAmounts orderData).
Proof.
  apply emits_bind; [| intros _; apply emits_bind; [| intros _ ] ].
  - destruct (identity orderData).
    + apply emits_checkGuest.
    + apply emits_checkAuthenticated.
  - apply emits_checkDiscount.
  - apply emits_checkAmounts.
Qed.

Lemma rulesBesideCart_database : incl rulesBesideCart databaseRules.
Proof.
  unfold databaseRules. apply incl_tl, incl_appr, incl_refl.
Qed.

Lemma emits_constraintChecks orderData :
  emits (follows databaseRules)
    (OrderValidation.constraintChecks supabase orderData).
Proof.
  unfold OrderValidation.constraintChecks.
  apply emits_bind; [| intros _; apply emits_bind; [| intros _ ] ].
  - eapply appends_weaken; [| apply emits_checkDeliveryMethod ].
    intros e. apply follows_incl, rulesBesideCart_database.
  - eapply appends_weaken; [| apply emits_checkCart ].
    intros e. apply follows_incl. unfold databaseRules.
    apply incl_cons; [ now left |]. apply incl_tl, incl_appl, incl_refl.
  - eapply appends_weaken; [| apply emits_after_cart ].
    intros e. apply follows_incl, rulesBesideCart_database.
Qed.

(** The promise of [validateDatabaseConstraints] is always fulfilled:
    what the [try] block throws is caught and the handler only pushes. *)
Lemma validateDatabaseConstraints_returns orderData :
  OrderValidation.validateDatabaseConstraints supabase orderData
  = inr (Arrays.result (databaseArrays supabase orderData)).
Proof.
  unfold OrderValidation.validateDatabaseConstraints, databaseArrays.
  unfold Eff.bind, Eff.tryCatch.
  destruct (OrderValidation.constraintChecks supabase orderData Arrays.empty)
    as [[e | []] a]; reflexivity.
Qed.

(** Every error of the result follows one of the rules. *)
Lemma databaseArrays_follow orderData :
  Forall (follows databaseRules)
    (Arrays.errors (databaseArrays supabase orderData)).
Proof.
  unfold databaseArrays.
  apply (emits_Forall_start (follows databaseRules)).
  apply emits_tryCatch.
  - apply emits_constraintChecks.
  - intros _. apply emits_pushError. follows_table.
Qed.

(** An error pushed by the [try] block before it returns or throws is in
    the result. *)
Lemma databaseArrays_keeps orderData e :
  In e (Arrays.errors
          (snd (OrderValidation.constraintChecks supabase orderData
                  Arrays.empty))) ->
  In e (Arrays.errors (databaseArrays supabase orderData)).
Proof.
  unfold databaseArrays, Eff.tryCatch. intros H.
  destruct (OrderValidation.constraintChecks supabase orderData Arrays.empty)
    as [[x | []] a]; simpl in *; auto.
  apply in_or_app. now left.
Qed.

Lemma checkDeliveryMethod_returns orderData a :
  fst (OrderValidation.checkDeliveryMethod orderData a) = inr tt.
Proof.
  unfold OrderValidation.checkDeliveryMethod, Eff.when.
  now destruct (negb _).
Qed.

(** With an empty cart the [try] block pushes the cart-empty error, and
    what follows keeps it. *)
Lemma constraintChecks_empty_cart orderData :
  cartItems orderData = [] ->
  In serverEmptyCart
    (Arrays.errors
       (snd (OrderValidation.constraintChecks supabase orderData
               Arrays.empty))).
Proof.
  intros Hcart. unfold OrderValidation.constraintChecks.
  rewrite (bind_returned _ _ _ tt) by apply checkDeliveryMethod_returns.
  unfold OrderValidation.checkCart. rewrite Hcart. simpl.
  rewrite (bind_returned _ _ _ tt) by reflexivity.
  eapply emits_keeps; [ apply emits_after_cart |].
  simpl. apply in_or_app. right. now left.
Qed.

(** When no remote call throws, the [try] block runs to its end. *)
Lemma constraintChecks_returns orderData :
  responsive supabase ->
  returns (OrderValidation.constraintChecks supabase orderData).
Proof.
  intros (Hproduct & (user & Huser) & Haddress & Hrpc).
  unfold OrderValidation.constraintChecks, OrderValidation.checkDeliveryMethod,
    OrderValidation.checkCart, OrderValidation.checkGuest,
    OrderValidation.checkAuthenticated, OrderValidation.checkDiscount,
    OrderValidation.checkAmounts, OrderValidation.validateDiscountCode.
  returns_steps.
  - unfold OrderValidation.checkItem.
    match goal with
    | |- context [OrderValidation.selectProduct supabase ?id] =>
        destruct (Hproduct id) as (response & ->)
    end.
    returns_steps.
  - rewrite Huser. returns_steps.
  - destruct (Haddress addressId userId) as (response & ->). returns_steps.
Qed.

(** When the [try] block runs to its end, its last statement has
    compared the totals. *)
Lemma constraintChecks_reports_mismatch orderData a :
  fst (OrderValidation.constraintChecks supabase orderData a) = inr tt ->
  OrderValidation.totalMismatch orderData = true ->
  In (OrderValidation.totalCalculationError orderData)
    (Arrays.errors (snd (OrderValidation.constraintChecks supabase orderData a))).
Proof.
  unfold OrderValidation.constraintChecks. intros Hret Hmismatch.
  repeat match type of Hret with
    | fst (Eff.bind ?m ?k ?s) = inr _ =>
        let x := fresh "x" in
        let Hx := fresh "Hx" in
        destruct (bind_returned_inv m k s _ Hret) as (x & Hx & Hrest);
        rewrite (bind_returned m k s x Hx);
        clear Hret; rename Hrest into Hret
    end.
  unfold OrderValidation.checkAmounts. rewrite Hmismatch.
  unfold Eff.bind, Eff.when, OrderValidation.pushError, Eff.update, Eff.ret.
  destruct (Js.le _ _); destruct (Js.lt _ _); simpl;
    apply in_or_app; right; now left.
Qed.

(** The result holds the error on the totals or the generic error. *)
Lemma databaseArrays_mismatch orderData :
  OrderValidation.totalMismatch orderData = true ->
  (fst (OrderValidation.constraintChecks supabase orderData Arrays.empty)
   = inr tt
   /\ In (OrderValidation.totalCalculationError orderData)
        (Arrays.errors (databaseArrays supabase orderData)))
  \/ ((exists e,
         fst (OrderValidation.constraintChecks supabase orderData Arrays.empty)
         = inl e)
      /\ In OrderValidation.validationError
           (Arrays.errors (databaseArrays supabase orderData))).
Proof.
  intros Hmismatch.
  pose proof (constraintChecks_reports_mismatch orderData Arrays.empty) as Hrep.
  unfold databaseArrays, Eff.tryCatch.
  destruct (OrderValidation.constraintChecks supabase orderData Arrays.empty)
    as [[e | []] a]; simpl in *.
  - right. split; [ now exists e |]. apply in_or_app. right. now left.
  - left. split; auto.
Qed.

(** With an empty cart no rule on products is applied. *)
Lemma databaseArrays_empty_cart_follow orderData :
  cartItems orderData = [] ->
  Forall (follows (("cartItems", "EMPTY_CART") :: rulesBesideCart))
    (Arrays.errors (databaseArrays supabase orderData)).
Proof.
  intros Hcart. unfold databaseArrays.
  apply (emits_Forall_start (follows (("cartItems", "EMPTY_CART")
                                       :: rulesBesideCart))).
  apply emits_tryCatch; [| intros _; apply emits_pushError; follows_table ].
  unfold OrderValidation.constraintChecks.
  apply emits_bind; [| intros _; apply emits_bind; [| intros _ ] ].
  - eapply appends_weaken; [| apply emits_checkDeliveryMethod ].
    intros e. apply follows_incl, incl_tl, incl_refl.
  - unfold OrderValidation.checkCart. rewrite Hcart. simpl.
    apply emits_pushError. follows_table.
  - eapply appends_weaken; [| apply emits_after_cart ].
    intros e. apply follows_incl, incl_tl, incl_refl.
Qed.

End Database.

Lemma length_of_inhabited {A} (l : list A) x :
  In x l -> (List.length l =? 0)%nat = false.
Proof. destruct l; simpl; [ tauto | reflexivity ]. Qed.

Lemma result_invalid a e :
  In e (Arrays.errors a) -> isValid (Arrays.result a) = false.
Proof. apply length_of_inhabited. Qed.

Lemma andThen_apply f g a : Arrays.andThen f g a = g (f a).
Proof. reflexivity. Qed.

(** *** The business rules of the client *)

(** With an empty cart the client pushes its cart-empty error first. *)
Lemma businessRules_empty_cart orderData :
  cartItems orderData = [] ->
  In clientEmptyCart
    (Arrays.errors (OrderValidationClient.businessRules orderData Arrays.empty)).
Proof.
  intros Hcart.
  unfold OrderValidationClient.businessRules,
    OrderValidationClient.checkGuest, OrderValidationClient.checkAuthenticated.
  rewrite andThen_apply.
  apply appends_keeps with (P := fun _ => True).
  - appends_steps; try exact I.
    unfold OrderValidationClient.checkQuantity. appends_steps. exact I.
  - rewrite Hcart. simpl. now left.
Qed.

(** *** The audit logger *)

Lemma includes_In codes x : Js.includes codes x = true <-> In x codes.
Proof.
  unfold Js.includes. rewrite existsb_exists. split.
  - intros (y & Hin & Heq). apply String.eqb_eq in Heq. now subst.
  - intros Hin. exists x. split; auto. apply String.eqb_refl.
Qed.

Lemma someCodeIn_hits codes errors :
  AuditLogger.someCodeIn codes errors = true <-> hits codes errors.
Proof.
  unfold AuditLogger.someCodeIn, hits. rewrite existsb_exists.
  split; intros (e & Hin & H); exists e; split; auto; now apply includes_In.
Qed.

Lemma someCodeIn_none codes errors :
  (forall e, In e errors -> ~ In (OrderValidationError.code e) codes) ->
  AuditLogger.someCodeIn codes errors = false.
Proof.
  intros H. destruct (AuditLogger.someCodeIn codes errors) eqn:E; auto.
  apply someCodeIn_hits in E. destruct E as (e & Hin & Hc).
  now destruct (H e Hin).
Qed.

(** A [try] whose handler writes to the console returns. *)
Lemma tryCatch_consoleWrite (m : Eff.t AuditLogger.World unit) line w :
  fst (Eff.tryCatch m (fun _ => AuditLogger.consoleWrite line) w) = inr tt.
Proof.
  unfold Eff.tryCatch. now destruct (m w) as [[e | []] w'].
Qed.

(** Unfolds the logger down to the calls into the host. *)
Ltac unfold_logger :=
  unfold AuditLogger.logValidationViolation, AuditLogger.logValidationSuccess,
    AuditLogger.logSuspiciousActivity, AuditLogger.storeAuditLog,
    AuditLogger.sendCriticalAlert, AuditLogger.raiseAlert,
    AuditLogger.insertRow, AuditLogger.getClientIP, AuditLogger.consoleWrite,
    Eff.tryCatch, Eff.bind, Eff.when, Eff.ofResult, Eff.update, Eff.ret.

(** Solves a goal on the rows a logging function added: none, or the
    one entry it built. *)
Ltac rows_added :=
  simpl;
  first
    [ exists []; rewrite app_nil_r;
      split; [ reflexivity | split; [ constructor | eauto ] ]
    | eexists [_];
      split; [ reflexivity | split; [ repeat constructor | eauto ] ] ].

(** What [logValidationViolation] leaves behind: the rows of the table,
    followed by at most one new row, which holds the sanitized draft, the
    errors and their severity; and no alert unless the severity is
    critical. *)
Lemma logValidationViolation_effects host self orderData errors context w :
  let w' :=
    snd (AuditLogger.logValidationViolation host self orderData errors context w)
  in
  exists rows,
    AuditLogger.order_audit_logs w' = AuditLogger.order_audit_logs w ++ rows
    /\ Forall
         (fun row =>
            AuditLogger.sanitizeOrderData orderData
            = inr (AuditLogger.AuditLogEntry.order_data row)
            /\ AuditLogger.AuditLogEntry.validation_errors row = errors
            /\ AuditLogger.AuditLogEntry.severity row
               = AuditLogger.determineSeverity errors)
         rows
    /\ (AuditLogger.alerts w' = AuditLogger.alerts w
        \/ AuditLogger.determineSeverity errors = AuditLogger.Level.critical).
Proof.
  unfold_logger.
  destruct (AuditLogger.sanitizeOrderData orderData) as [e | sanitized];
    [ rows_added |].
  destruct (AuditLogger.userAgent host) as [e | agent]; [ rows_added |].
  destruct (AuditLogger.determineSeverity errors) eqn:Hsev;
    destruct (AuditLogger.development host);
    destruct (AuditLogger.createClient host) as [? | []];
    simpl;
    try (destruct (AuditLogger.insert host _) as [? | [? |]]);
    simpl;
    try (destruct (AuditLogger.deliverAlert host _) as [? | []]);
    rows_added.
Qed.

Lemma logValidationSuccess_effects host self orderData warnings w :
  let w' :=
    snd (AuditLogger.logValidationSuccess host self orderData warnings w) in
  exists rows,
    AuditLogger.order_audit_logs w' = AuditLogger.order_audit_logs w ++ rows
    /\ Forall
         (fun row =>
            AuditLogger.sanitizeOrderData orderData
            = inr (AuditLogger.AuditLogEntry.order_data row)
            /\ AuditLogger.AuditLogEntry.validation_errors row = warnings
            /\ AuditLogger.AuditLogEntry.severity row = AuditLogger.Level.low)
         rows
    /\ AuditLogger.alerts w' = AuditLogger.alerts w.
Proof.
  unfold_logger.
  destruct (0 <? List.length warnings)%nat; [| rows_added ].
  destruct (AuditLogger.sanitizeOrderData orderData) as [e | sanitized];
    [ rows_added |].
  destruct (AuditLogger.userAgent host) as [e | agent]; [ rows_added |].
  destruct (AuditLogger.createClient host) as [? | []];
    simpl;
    try (destruct (AuditLogger.insert host _) as [? | [? |]]);
    rows_added.
Qed.

Lemma logSuspiciousActivity_effects host self description orderData context w :
  let w' :=
    snd (AuditLogger.logSuspiciousActivity host self description orderData
           context w) in
  exists rows,
    AuditLogger.order_audit_logs w' = AuditLogger.order_audit_logs w ++ rows
    /\ Forall
         (fun row =>
            AuditLogger.sanitizeOrderData orderData
            = inr (AuditLogger.AuditLogEntry.order_data row)
            /\ AuditLogger.AuditLogEntry.severity row = AuditLogger.Level.high)
         rows
    /\ (AuditLogger.alerts w' = AuditLogger.alerts w
        \/ exists logEntry,
             AuditLogger.alerts w' = AuditLogger.alerts w ++ [logEntry]).
Proof.
  unfold_logger.
  destruct (AuditLogger.sanitizeOrderData orderData) as [e | sanitized];
    [ rows_added |].
  destruct (AuditLogger.userAgent host) as [e | agent]; [ rows_added |].
  destruct (AuditLogger.createClient host) as [? | []];
    simpl;
    try (destruct (AuditLogger.insert host _) as [? | [? |]]);
    simpl;
    try (destruct (AuditLogger.deliverAlert host _) as [? | []]);
    rows_added.
Qed.

(** A row found after a logging call was there before or is one of the
    rows the call added. *)
Lemma row_old_or_added {A} (old rows : list A) (P : A -> Prop) row :
  Forall P rows -> In row (old ++ rows) -> In row old \/ P row.
Proof.
  intros HP Hin. apply in_app_or in Hin. destruct Hin as [Hin | Hin]; auto.
  right. rewrite Forall_forall in HP. auto.
Qed.

Lemma sanitizeOrderData_frame orderData sanitized :
  AuditLogger.sanitizeOrderData orderData = inr sanitized ->
  sameOutsideMaskedFields orderData sanitized.
Proof.
  unfold AuditLogger.sanitizeOrderData, sameOutsideMaskedFields.
  destruct (identity orderData) as [customerInfo address | userId addressId]
    eqn:Hid.
  - destruct (AuditLogger.maskEmail _) as [e | email]; [ discriminate |].
    destruct (AuditLogger.maskPhone (CustomerInfo.phone customerInfo))
      as [e | phone]; [ discriminate |].
    destruct (AuditLogger.maskPhone (Address.phone address))
      as [e | addressPhone]; [ discriminate |].
    intros H. inversion H. simpl. repeat split; reflexivity.
  - intros H. inversion H. subst sanitized. rewrite Hid. repeat split.
Qed.

(** In a table of rules, the field decides which codes are possible. *)
Ltac by_rule H :=
  unfold follows in H; simpl in H;
  repeat match type of H with
    | _ \/ _ => destruct H as [H | H]
    end;
  try contradiction; inversion H; congruence.

(** *** Substrings *)

Lemma substring_whole s : String.substring 0 (String.length s) s = s.
Proof. induction s as [| c s IH]; simpl; [ reflexivity | now rewrite IH ]. Qed.

Lemma substring_length s :
  forall n m,
    n + m <= String.length s -> String.length (String.substring n m s) = m.
Proof.
  induction s as [| c s IH]; intros [| n] [| m] H; simpl in *;
    try reflexivity; try lia;
    try (f_equal; apply IH; lia); apply IH; lia.
Qed.

(** Two adjacent substrings make one. *)
Lemma substring_append s :
  forall k n m,
    (String.substring k n s ++ String.substring (k + n) m s)%string
    = String.substring k (n + m) s.
Proof.
  induction s as [| c s IH]; intros [| k] [| n] [| m]; simpl;
    try reflexivity; try (f_equal; apply (IH 0)); apply IH.
Qed.

Lemma Js_substring_prefix s n :
  n <= String.length s ->
  Js.substring s 0 (Z.of_nat n) = String.substring 0 n s.
Proof.
  intros H. unfold Js.substring, Js.clamp, Js.length.
  replace (Z.min (Z.max 0 0) (Z.of_nat (String.length s))) with 0%Z by lia.
  replace (Z.min (Z.max (Z.of_nat n) 0) (Z.of_nat (String.length s)))
    with (Z.of_nat n) by lia.
  replace (Z.min 0 (Z.of_nat n)) with 0%Z by lia.
  replace (Z.max 0 (Z.of_nat n) - 0)%Z with (Z.of_nat n) by lia.
  now rewrite Nat2Z.id.
Qed.

Lemma Js_substringFrom_suffix s n :
  n <= String.length s ->
  Js.substringFrom s (Js.length s - Z.of_nat n)
  = String.substring (String.length s - n) n s.
Proof.
  intros H. unfold Js.substringFrom, Js.substring, Js.clamp, Js.length.
  set (len := Z.of_nat (String.length s)).
  replace (Z.min (Z.max (len - Z.of_nat n) 0) len)
    with (len - Z.of_nat n)%Z by lia.
  replace (Z.min (Z.max len 0) len) with len by lia.
  replace (Z.min (len - Z.of_nat n) len) with (len - Z.of_nat n)%Z by lia.
  replace (Z.max (len - Z.of_nat n) len - (len - Z.of_nat n))%Z
    with (Z.of_nat n) by lia.
  rewrite Nat2Z.id. f_equal. unfold len. lia.
Qed.

(** *** The quantity of a cart item *)

Lemma le_15_0 : Js.le 15%float 0%float = false.
Proof. reflexivity. Qed.

Lemma gt_15_10 : Js.gt 15%float 10%float = true.
Proof. reflexivity. Qed.

Lemma appends_when_true P c f :
  (c = true -> appends P f) -> appends P (Arrays.when c f).
Proof. destruct c; simpl; auto using appends_skip. Qed.

(** The loop over the cart warns about an item of quantity 15. *)
Lemma forEachFrom_large_quantity l :
  forall start a index item,
    nth_error l index = Some item ->
    CartItem.quantity item = 15%float ->
    In (OrderValidationClient.warning
          (OrderValidationClient.quantityField (start + index))
          "Large quantity order - please verify" "LARGE_QUANTITY")
      (Arrays.warnings
         (Arrays.forEachFrom start l OrderValidationClient.checkQuantity a)).
Proof.
  induction l as [| x l IH]; intros start a [| index] item Hnth Hq;
    simpl in Hnth; try discriminate; simpl; rewrite andThen_apply.
  - inversion Hnth; subst x.
    apply appends_keeps_warning with (P := fun _ => True).
    + apply appends_forEachFrom. intros y i.
      unfold OrderValidationClient.checkQuantity. appends_steps. exact I.
    + unfold OrderValidationClient.checkQuantity. rewrite andThen_apply.
      rewrite Hq, le_15_0, gt_15_10, Nat.add_0_r. simpl.
      apply in_or_app. right. now left.
  - replace (start + S index) with (S start + index) by lia.
    now apply IH with (item := item).
Qed.

(** The errors of the loop over the cart are on items whose quantity is
    not positive. *)
Lemma appends_forEachFrom_quantity l :
  forall start,
    appends (quantityError start l)
      (Arrays.forEachFrom start l OrderValidationClient.checkQuantity).
Proof.
  induction l as [| x l IH]; intros start; simpl.
  - apply appends_skip.
  - apply appends_andThen.
    + unfold OrderValidationClient.checkQuantity. apply appends_andThen.
      * apply appends_when_true. intros Hle. apply appends_pushError.
        exists 0, x. rewrite Nat.add_0_r. repeat split; auto.
      * apply appends_when, appends_pushWarning.
    + eapply appends_weaken; [| apply (IH (S start)) ].
      intros e (j & item & Hnth & Hle & Hfield).
      exists (S j), item. repeat split; auto.
      rewrite Hfield. f_equal. lia.
Qed.

Lemma appends_client_quantity orderData :
  appends
    (fun e =>
       follows clientRules e \/ quantityError 0 (cartItems orderData) e)
    (OrderValidationClient.businessRules orderData).
Proof.
  unfold OrderValidationClient.businessRules,
    OrderValidationClient.checkGuest, OrderValidationClient.checkAuthenticated.
  apply appends_andThen; [| apply appends_andThen ].
  - appends_steps. left. follows_table.
  - eapply appends_weaken; [| apply appends_forEachFrom_quantity ].
    intros e He. now right.
  - appends_steps; left; follows_table.
Qed.

Lemma string_length_append s t :
  String.length (s ++ t) = String.length s + String.length t.
Proof. induction s as [| c s IH]; simpl; auto. Qed.

Lemma append_cancel_right s1 :
  forall s2 t, (s1 ++ t = s2 ++ t)%string -> s1 = s2.
Proof.
  induction s1 as [| c s1 IH]; intros [| d s2] t H; simpl in H.
  - reflexivity.
  - apply (f_equal String.length) in H. simpl in H.
    rewrite string_length_append in H. lia.
  - apply (f_equal String.length) in H. simpl in H.
    rewrite string_length_append in H. lia.
  - inversion H. f_equal. eauto.
Qed.

Lemma indexToString_injective i j :
  Js.indexToString i = Js.indexToString j -> i = j.
Proof.
  unfold Js.indexToString. intros H.
  apply (f_equal NilEmpty.uint_of_string) in H.
  rewrite !NilEmpty.usu in H. inversion H as [Huint].
  apply (f_equal Nat.of_uint) in Huint.
  now rewrite !DecimalNat.Unsigned.of_to in Huint.
Qed.

(** Two cart items are reported on the same field only if they are the
    same item. *)
Lemma quantityField_injective i j :
  OrderValidationClient.quantityField i = OrderValidationClient.quantityField j ->
  i = j.
Proof.
  unfold OrderValidationClient.quantityField. simpl. intros H.
  inversion H as [Htail].
  apply indexToString_injective, (append_cancel_right _ _ _ Htail).
Qed.

(** What [checkQuantity] does to the errors. *)
Lemma checkQuantity_errors item index a :
  Arrays.errors (OrderValidationClient.checkQuantity item index a)
  = if Js.le (CartItem.quantity item) 0%float
    then Arrays.errors a
           ++ [OrderValidationClient.error
                 (OrderValidationClient.quantityField index)
                 "Quantity must be greater than 0" "INVALID_QUANTITY"]
    else Arrays.errors a.
Proof.
  unfold OrderValidationClient.checkQuantity. rewrite andThen_apply.
  destruct (Js.le _ _); destruct (Js.gt _ _); reflexivity.
Qed.

Section SameErrors.

Lemma sameErrors_skip : sameErrors Arrays.skip Arrays.skip.
Proof. intros a a' H. exact H. Qed.

Lemma sameErrors_pushError e :
  sameErrors (Arrays.pushError e) (Arrays.pushError e).
Proof. intros a a' H. simpl. now rewrite H. Qed.

Lemma sameErrors_andThen f f' g g' :
  sameErrors f f' -> sameErrors g g' ->
  sameErrors (Arrays.andThen f g) (Arrays.andThen f' g').
Proof. intros Hf Hg a a' H. unfold Arrays.andThen. auto. Qed.

Lemma sameErrors_when c f f' :
  sameErrors f f' -> sameErrors (Arrays.when c f) (Arrays.when c f').
Proof. destruct c; simpl; auto using sameErrors_skip. Qed.

(** The loop over the same cart. *)
Lemma sameErrors_forEachFrom l :
  forall start,
    sameErrors
      (Arrays.forEachFrom start l OrderValidationClient.checkQuantity)
      (Arrays.forEachFrom start l OrderValidationClient.checkQuantity).
Proof.
  induction l as [| x l IH]; intros start; simpl.
  - apply sameErrors_skip.
  - apply sameErrors_andThen; auto.
    intros a a' H. rewrite !checkQuantity_errors, H. reflexivity.
Qed.

(** The loop over a cart in which one positive quantity is replaced by
    another. *)
Lemma sameErrors_setQuantity l :
  forall start index item quantity,
    nth_error l index = Some item ->
    Js.le (CartItem.quantity item) 0%float = false ->
    Js.le quantity 0%float = false ->
    sameErrors
      (Arrays.forEachFrom start (setQuantity index quantity l)
         OrderValidationClient.checkQuantity)
      (Arrays.forEachFrom start l OrderValidationClient.checkQuantity).
Proof.
  induction l as [| x l IH]; intros start [| index] item quantity Hnth Hle Hq;
    simpl in Hnth; try discriminate; simpl; apply sameErrors_andThen.
  - inversion Hnth; subst x. intros a a' H.
    rewrite !checkQuantity_errors. simpl. now rewrite Hle, Hq.
  - apply sameErrors_forEachFrom.
  - intros a a' H. rewrite !checkQuantity_errors, H. reflexivity.
  - eapply IH; eauto.
Qed.

End SameErrors.

Lemma length_setQuantity l :
  forall index quantity,
    List.length (setQuantity index quantity l) = List.length l.
Proof.
  induction l as [| x l IH]; intros [| index] quantity; simpl; auto.
Qed.

Ltac sameErrors_steps :=
  repeat match goal with
    | |- sameErrors (Arrays.andThen _ _) (Arrays.andThen _ _) =>
        apply sameErrors_andThen
    | |- sameErrors (Arrays.when _ _) (Arrays.when _ _) =>
        apply sameErrors_when
    | |- sameErrors (Arrays.pushError _) (Arrays.pushError _) =>
        apply sameErrors_pushError
    | |- sameErrors (match ?x with _ => _ end) _ => destruct x
    end.

(** Replacing one positive quantity by another leaves the errors of the
    client as they are. *)
Lemma businessRules_setQuantity orderData index item quantity :
  nth_error (cartItems orderData) index = Some item ->
  Js.le (CartItem.quantity item) 0%float = false ->
  Js.le quantity 0%float = false ->
  sameErrors
    (OrderValidationClient.businessRules (withQuantity index quantity orderData))
    (OrderValidationClient.businessRules orderData).
Proof.
  intros Hnth Hle Hq.
  unfold OrderValidationClient.businessRules,
    OrderValidationClient.checkGuest, OrderValidationClient.checkAuthenticated.
  cbn [withQuantity cartItems total deliveryMethod identity].
  rewrite length_setQuantity.
  apply sameErrors_andThen; [| apply sameErrors_andThen ].
  - sameErrors_steps.
  - eapply sameErrors_setQuantity; eauto.
  - sameErrors_steps.
Qed.

(** *** The business rules of [order-validation] *)

(** A total of 15099 is above the maximum order value. *)
Lemma total_15099_exceeds_maximum :
  Js.gt 15099%float OrderValidation.maximumOrderValue = true.
Proof. reflexivity. Qed.

Lemma appends_server_businessRules {runtime : Js.Runtime} orderData :
  appends (follows businessErrorRules) (OrderValidation.businessRules orderData).
Proof.
  unfold OrderValidation.businessRules, OrderValidation.checkMaxQuantity.
  appends_steps; follows_table.
Qed.

Lemma gt_15_maxQuantityPerItem :
  Js.gt 15%float OrderValidation.maxQuantityPerItem = true.
Proof. reflexivity. Qed.

(** The loop of the business rules of [order-validation] makes a
    quantity of 15 an error. *)
Lemma forOf_excessive_quantity {runtime : Js.Runtime} l :
  forall a item,
    In item l ->
    CartItem.quantity item = 15%float ->
    In (OrderValidation.error "cartItems"
          ("Maximum quantity per item is "
           ++ Js.numberToString OrderValidation.maxQuantityPerItem)
          "EXCESSIVE_QUANTITY")
      (Arrays.errors (Arrays.forOf l OrderValidation.checkMaxQuantity a)).
Proof.
  induction l as [| x l IH]; intros a item Hin Hq; [ destruct Hin |].
  simpl. rewrite andThen_apply. destruct Hin as [-> | Hin].
  - apply appends_keeps with (P := fun _ => True).
    + apply appends_forOf. intros y.
      unfold OrderValidation.checkMaxQuantity. appends_steps. exact I.
    + unfold OrderValidation.checkMaxQuantity.
      rewrite Hq, gt_15_maxQuantityPerItem. simpl.
      apply in_or_app. right. now left.
  - now apply IH with (item := item).
Qed.

Lemma businessRules_excessive_quantity {runtime : Js.Runtime} orderData item :
  In item (cartItems orderData) ->
  CartItem.quantity item = 15%float ->
  In (OrderValidation.error "cartItems"
        ("Maximum quantity per item is "
         ++ Js.numberToString OrderValidation.maxQuantityPerItem)
        "EXCESSIVE_QUANTITY")
    (Arrays.errors (OrderValidation.businessRules orderData Arrays.empty)).
Proof.
  intros Hin Hq. unfold OrderValidation.businessRules.
  do 2 rewrite andThen_apply. now apply forOf_excessive_quantity with item.
Qed.

(** *** The model on the data of the test file *)

Example maskPhone_ten_digits :
  AuditLogger.maskPhone "0123456789" = inr "012****789".
Proof. reflexivity. Qed.

Example maskPhone_six_digits : AuditLogger.maskPhone "123456" = inr "123456".
Proof. reflexivity. Qed.

Example maskPhone_four_digits : AuditLogger.maskPhone "1234" = inr "1234".
Proof. reflexivity. Qed.

Example maskPhone_five_digits :
  AuditLogger.maskPhone "12345" = inl (Js.RangeError "Invalid count value").
Proof. reflexivity. Qed.

Example maskEmail_short_name : AuditLogger.maskEmail "jo@x.com" = inr "jo@x.com".
Proof. reflexivity. Qed.

Example maskEmail_long_name :
  AuditLogger.maskEmail "john@example.com" = inr "jo**@example.com".
Proof. reflexivity. Qed.

Example client_email_pattern :
  map (Js.testAnchored OrderValidationClient.emailPattern)
    ["john@example.com"; "invalid-email"; "a@b"; "a b@c.d"]
  = [true; false; false; false].
Proof. reflexivity. Qed.

Example server_email_pattern :
  map (Js.testAnywhere OrderValidation.emailPattern)
    ["john@example.com"; "invalid-email"; "a@b"; "a b@c.d"]
  = [true; false; false; true].
Proof. reflexivity. Qed.

(** On the mocked database of the test file, the valid guest order of
    the tests is rejected: [courier_guy] is not one of the delivery
    methods of the validator and the mock finds no product. *)
Example validGuestOrder_on_the_mock :
  option_map (fun result => (isValid result,
                             map OrderValidationError.code (errors result)))
    (match OrderValidation.validateOrder (runtime := Examples.moneyRuntime)
             Examples.jestSupabase Examples.validGuestOrder with
     | inr result => Some result
     | inl _ => None
     end)
  = Some (false, ["INVALID_DELIVERY_METHOD"; "PRODUCT_NOT_FOUND"]).
Proof. vm_compute. reflexivity. Qed.

(** With a correct total nothing is said about the totals, and with a
    wrong one the message prints both. *)
Example wrongTotalOrder_message :
  option_map (fun result => map OrderValidationError.message (errors result))
    (match OrderValidation.validateDatabaseConstraints
             (runtime := Examples.moneyRuntime) Examples.stockedSupabase
             Examples.wrongTotalOrder with
     | inr result => Some result
     | inl _ => None
     end)
  = Some ["Order total calculation error. Expected: R698.98, Received: R999.99"].
Proof. vm_compute. reflexivity. Qed.

(** An error list with a critical and a high code. *)
Example critical_wins_over_high :
  AuditLogger.determineSeverity
    [OrderValidation.error "discountCode" "Invalid discount code"
       "INVALID_DISCOUNT_CODE";
     OrderValidation.error "cartItems" "Product with ID prod-1 not found"
       "PRODUCT_NOT_FOUND"]
  = AuditLogger.Level.critical.
Proof. reflexivity. Qed.

(** The cart-empty error of the client is stored with the severity low,
    and no alert is raised. *)
Example empty_cart_violation_is_stored_as_low :
  let w :=
    snd (AuditLogger.logValidationViolation Examples.workingHost
           Examples.logger Examples.emptyCartOrder [clientEmptyCart] None
           Examples.emptyWorld) in
  map AuditLogger.AuditLogEntry.severity (AuditLogger.order_audit_logs w)
  = [AuditLogger.Level.low]
  /\ AuditLogger.alerts w = [].
Proof. split; reflexivity. Qed.

(** A violation of a guest whose phone has five characters leaves no row:
    [maskPhone] throws inside [logValidationViolation], which catches it
    and writes to the console. *)
Example short_phone_violation_is_not_stored :
  AuditLogger.logValidationViolation Examples.workingHost Examples.logger
    Examples.shortPhoneOrder [clientEmptyCart] None Examples.emptyWorld
  = (inr tt,
     {| AuditLogger.order_audit_logs := [];
        AuditLogger.alerts := [];
        AuditLogger.console := ["Failed to log validation violation:"] |}).
Proof. reflexivity. Qed.

(** On a host whose insert and alert both throw, a critical violation is
    logged to the console only, and the call returns. *)
Example critical_violation_on_a_broken_host :
  AuditLogger.logValidationViolation Examples.brokenHost Examples.logger
    Examples.emptyCartOrder
    [OrderValidation.error "cartItems" "Product with ID prod-1 not found"
       "PRODUCT_NOT_FOUND"]
    None Examples.emptyWorld
  = (inr tt,
     {| AuditLogger.order_audit_logs := [];
        AuditLogger.alerts := [];
        AuditLogger.console :=
          ["Order Validation Violation"; "Severity:"; "Event Type:";
           "Errors:"; "Order Data:"; "Error storing audit log:";
           "Failed to send critical alert:"] |}).
Proof. reflexivity. Qed.

(** *** Claims *)

(** C1.  For every draft whose [cartItems] is empty, the business rules
    of the client and [validateDatabaseConstraints] both return a result
    that holds a cart-empty error on the field [cartItems] and whose
    [isValid] is false; the latter does so whatever the database answers,
    also when it cannot be reached. *)
Theorem empty_cart_is_rejected_by_both_validators :
  forall (runtime : Js.Runtime) (supabase : OrderValidation.Supabase)
         (orderData : OrderData),
    cartItems orderData = [] ->
    (In clientEmptyCart
       (errors (OrderValidationClient.validateBusinessRules orderData))
     /\ isValid (OrderValidationClient.validateBusinessRules orderData) = false)
    /\ exists result,
         OrderValidation.validateDatabaseConstraints supabase orderData
         = inr result
         /\ In serverEmptyCart (errors result)
         /\ isValid result = false.
Proof.
  intros runtime supabase orderData Hcart. split.
  - pose proof (businessRules_empty_cart orderData Hcart) as Hin.
    split; [ exact Hin | eapply result_invalid; exact Hin ].
  - exists (Arrays.result (databaseArrays supabase orderData)).
    pose proof (databaseArrays_keeps supabase orderData _
                  (constraintChecks_empty_cart supabase orderData Hcart))
      as Hin.
    split; [ apply validateDatabaseConstraints_returns |].
    split; [ exact Hin | eapply result_invalid; exact Hin ].
Qed.

Lemma empty_cart_is_rejected_by_both_validators_witness :
  (In clientEmptyCart
     (errors (OrderValidationClient.validateBusinessRules Examples.emptyCartOrder))
   /\ isValid (OrderValidationClient.validateBusinessRules Examples.emptyCartOrder)
      = false)
  /\ exists result,
       OrderValidation.validateDatabaseConstraints (runtime := Examples.moneyRuntime)
         Examples.unreachableSupabase Examples.emptyCartOrder
       = inr result
       /\ In serverEmptyCart (errors result)
       /\ isValid result = false.
Proof.
  apply (empty_cart_is_rejected_by_both_validators Examples.moneyRuntime
           Examples.unreachableSupabase Examples.emptyCartOrder).
  reflexivity.
Defined.

(** C2.  [determineSeverity] answers with the first of the tiers
    critical, high and medium that holds the code of some error, each
    tier being exactly the four codes listed, and with low when no tier
    does; so a list with a critical code and a high code is critical. *)
Theorem determineSeverity_first_matching_tier :
  forall errors : list OrderValidationError.t,
    let critical :=
      ["PRODUCT_NOT_FOUND"; "CALCULATION_MISMATCH"; "CART_EMPTY";
       "INVALID_USER_ID"] in
    let high :=
      ["PRODUCT_OUT_OF_STOCK"; "INVALID_DISCOUNT_CODE";
       "DISCOUNT_USAGE_EXCEEDED"; "MAXIMUM_ORDER_EXCEEDED"] in
    let medium :=
      ["PRODUCT_PRICE_CHANGED"; "DISCOUNT_EXPIRED"; "MINIMUM_ORDER_NOT_MET";
       "INVALID_QUANTITY"] in
    (AuditLogger.determineSeverity errors = AuditLogger.Level.critical
     <-> hits critical errors)
    /\ (AuditLogger.determineSeverity errors = AuditLogger.Level.high
        <-> ~ hits critical errors /\ hits high errors)
    /\ (AuditLogger.determineSeverity errors = AuditLogger.Level.medium
        <-> ~ hits critical errors /\ ~ hits high errors
            /\ hits medium errors)
    /\ (AuditLogger.determineSeverity errors = AuditLogger.Level.low
        <-> ~ hits critical errors /\ ~ hits high errors
            /\ ~ hits medium errors)
    /\ (hits critical errors /\ hits high errors ->
        AuditLogger.determineSeverity errors = AuditLogger.Level.critical).
Proof.
  intros errors critical high medium.
  pose proof (someCodeIn_hits AuditLogger.criticalCodes errors) as Hc.
  pose proof (someCodeIn_hits AuditLogger.highCodes errors) as Hh.
  pose proof (someCodeIn_hits AuditLogger.mediumCodes errors) as Hm.
  change AuditLogger.criticalCodes with critical in Hc.
  change AuditLogger.highCodes with high in Hh.
  change AuditLogger.mediumCodes with medium in Hm.
  unfold AuditLogger.determineSeverity.
  change AuditLogger.criticalCodes with critical.
  change AuditLogger.highCodes with high.
  change AuditLogger.mediumCodes with medium.
  destruct (AuditLogger.someCodeIn critical errors);
    destruct (AuditLogger.someCodeIn high errors);
    destruct (AuditLogger.someCodeIn medium errors);
    intuition (try discriminate; try congruence).
Qed.

(** C3 (what the code does).  A draft whose total is 15099 is rejected by
    [validateOrder], with an error of code [EXCESSIVE_ORDER_VALUE]; no
    error of the result carries the code [MAXIMUM_ORDER_EXCEEDED]. *)
Theorem total_15099_is_rejected_as_excessive_order_value :
  forall (runtime : Js.Runtime) (supabase : OrderValidation.Supabase)
         (orderData : OrderData),
    total orderData = 15099%float ->
    exists result,
      OrderValidation.validateOrder supabase orderData = inr result
      /\ isValid result = false
      /\ hasCode "EXCESSIVE_ORDER_VALUE" (errors result)
      /\ ~ hasCode "MAXIMUM_ORDER_EXCEEDED" (errors result).
Proof.
  intros runtime supabase orderData Htotal.
  unfold OrderValidation.validateOrder.
  rewrite validateDatabaseConstraints_returns.
  eexists. split; [ reflexivity |]. simpl.
  assert (Hin : In (OrderValidation.error "total"
                      ("Order total exceeds maximum allowed amount of R"
                       ++ Js.numberToString OrderValidation.maximumOrderValue)
                      "EXCESSIVE_ORDER_VALUE")
                  (Arrays.errors
                     (OrderValidation.businessRules orderData Arrays.empty))).
  { unfold OrderValidation.businessRules. rewrite !andThen_apply.
    apply appends_keeps with (P := fun _ => True).
    - unfold OrderValidation.checkMaxQuantity. appends_steps; exact I.
    - rewrite Htotal, total_15099_exceeds_maximum. simpl.
      apply in_or_app. right. now left. }
  split; [| split ].
  - rewrite (length_of_inhabited _ _ Hin). apply andb_false_r.
  - eexists. split; [ apply in_or_app; right; exact Hin | reflexivity ].
  - intros (e & He & Hcode). apply in_app_or in He. destruct He as [He | He].
    + pose proof (databaseArrays_follow supabase orderData) as Hall.
      rewrite Forall_forall in Hall. pose proof (Hall e He) as H. by_rule H.
    + pose proof (appends_Forall _ _ Arrays.empty
                    (appends_server_businessRules orderData) (Forall_nil _))
        as Hall.
      rewrite Forall_forall in Hall. pose proof (Hall e He) as H. by_rule H.
Qed.

Lemma total_15099_is_rejected_as_excessive_order_value_witness :
  exists result,
    OrderValidation.validateOrder (runtime := Examples.moneyRuntime)
      Examples.jestSupabase Examples.highValueOrder = inr result
    /\ isValid result = false
    /\ hasCode "EXCESSIVE_ORDER_VALUE" (errors result)
    /\ ~ hasCode "MAXIMUM_ORDER_EXCEEDED" (errors result).
Proof.
  apply (total_15099_is_rejected_as_excessive_order_value
           Examples.moneyRuntime Examples.jestSupabase Examples.highValueOrder).
  reflexivity.
Defined.

(** *** The [try] block when it throws *)

Section Thrown.

Context {runtime : Js.Runtime}.
Variable supabase : OrderValidation.Supabase.

Lemma keepsWhenThrown_bind P {A B} (m : Eff.t Arrays.t A)
  (k : A -> Eff.t Arrays.t B) :
  emits P m -> (forall x, keepsWhenThrown P (k x)) ->
  keepsWhenThrown P (Eff.bind m k).
Proof.
  intros Hm Hk a e Ha.
  pose proof (appends_Forall P _ a Hm Ha) as Hafter.
  unfold Eff.bind. cbn beta in Hafter.
  destruct (m a) as [[e' | x] a']; cbn [fst snd] in *.
  - intros _. exact Hafter.
  - now apply Hk.
Qed.

Lemma keepsWhenThrown_returns P (m : Eff.t Arrays.t unit) :
  (forall a, fst (m a) = inr tt) -> keepsWhenThrown P m.
Proof. intros Hm a e _ H. rewrite Hm in H. discriminate. Qed.

Lemma checkAmounts_returns orderData a :
  fst (OrderValidation.checkAmounts orderData a) = inr tt.
Proof.
  unfold OrderValidation.checkAmounts, Eff.bind, Eff.when,
    OrderValidation.pushError, Eff.update, Eff.ret.
  destruct (Js.le _ _); destruct (Js.lt _ _);
    destruct (OrderValidation.totalMismatch orderData); reflexivity.
Qed.

(** The statements before the comparison of the totals push no error on
    the totals, so none is in the arrays when one of them throws. *)
Lemma constraintChecks_keeps_when_thrown orderData :
  keepsWhenThrown notOnTheTotals
    (OrderValidation.constraintChecks supabase orderData).
Proof.
  unfold OrderValidation.constraintChecks.
  repeat match goal with
    | |- keepsWhenThrown _ (Eff.bind _ _) =>
        apply keepsWhenThrown_bind; [| intros _ ]
    end.
  - unfold OrderValidation.checkDeliveryMethod.
    appends_steps. unfold notOnTheTotals. cbn. discriminate.
  - unfold OrderValidation.checkCart, OrderValidation.checkItem.
    appends_steps; unfold notOnTheTotals; cbn; discriminate.
  - unfold OrderValidation.checkGuest, OrderValidation.checkAuthenticated.
    appends_steps; unfold notOnTheTotals; cbn; discriminate.
  - unfold OrderValidation.checkDiscount.
    appends_steps; try apply emits_validateDiscountCode;
      unfold notOnTheTotals; cbn; discriminate.
  - apply keepsWhenThrown_returns. apply checkAmounts_returns.
Qed.

(** The [try] block pushes no generic error. *)
Lemma emits_constraintChecks_not_generic orderData :
  emits notGeneric (OrderValidation.constraintChecks supabase orderData).
Proof.
  unfold OrderValidation.constraintChecks,
    OrderValidation.checkDeliveryMethod, OrderValidation.checkCart,
    OrderValidation.checkItem, OrderValidation.checkGuest,
    OrderValidation.checkAuthenticated, OrderValidation.checkDiscount,
    OrderValidation.checkAmounts, OrderValidation.totalCalculationError.
  appends_steps; try apply emits_validateDiscountCode;
    unfold notGeneric; cbn; discriminate.
Qed.

End Thrown.

(** C4 (counterexample).  The total of this draft of a signed-in user
    is off by 435; the database client is the one the test file mocks, on
    which [auth.getUser] throws.  The [catch] is entered before the totals
    are compared, and no error of the result is on the totals. *)
Lemma total_mismatch_unreported_after_a_throw :
  OrderValidation.totalMismatch Examples.wrongTotalAuthOrder = true
  /\ exists result,
       OrderValidation.validateDatabaseConstraints
         (runtime := Examples.moneyRuntime) Examples.jestSupabase
         Examples.wrongTotalAuthOrder = inr result
       /\ map OrderValidationError.code (errors result)
          = ["INVALID_DELIVERY_METHOD"; "PRODUCT_NOT_FOUND"; "VALIDATION_ERROR"]
       /\ ~ hasCode "TOTAL_CALCULATION_ERROR" (errors result).
Proof.
  split; [ reflexivity |].
  eexists. split; [ vm_compute; reflexivity |].
  split; [ reflexivity |].
  intros (e & Hin & Hcode). simpl in Hin.
  destruct Hin as [<- | [<- | [<- | []]]]; discriminate.
Qed.

(** C4 (amended).  When the total differs from [subtotal + deliveryFee -
    (discountAmount || 0)] by more than 0.01, the result of
    [validateDatabaseConstraints] is invalid.  When the [try] block runs
    to its end, as it does when no remote call throws, the result holds
    the error [TOTAL_CALCULATION_ERROR], whose message prints the
    expected and the received total with two decimals, and not the
    generic one.  When a call of the [try] block throws, the result
    holds the generic [VALIDATION_ERROR] instead, and no error on the
    totals. *)
Theorem total_mismatch_is_reported_unless_a_call_throws :
  forall (runtime : Js.Runtime) (supabase : OrderValidation.Supabase)
         (orderData : OrderData),
    OrderValidation.totalMismatch orderData = true ->
    let tryBlock :=
      fst (OrderValidation.constraintChecks supabase orderData Arrays.empty) in
    let totalError :=
      OrderValidationError.make "total"
        ("Order total calculation error. Expected: R"
         ++ Js.toFixed (OrderValidation.expectedTotal orderData) 2
         ++ ", Received: R" ++ Js.toFixed (total orderData) 2)
        "TOTAL_CALCULATION_ERROR" Severity.error in
    exists result,
      OrderValidation.validateDatabaseConstraints supabase orderData
      = inr result
      /\ isValid result = false
      /\ (tryBlock = inr tt ->
          In totalError (errors result)
          /\ ~ hasCode "VALIDATION_ERROR" (errors result))
      /\ (forall e,
            tryBlock = inl e ->
            In OrderValidation.validationError (errors result)
            /\ ~ hasCode "TOTAL_CALCULATION_ERROR" (errors result))
      /\ (responsive supabase ->
          tryBlock = inr tt /\ In totalError (errors result)).
Proof.
  intros runtime supabase orderData Hmismatch tryBlock totalError.
  rewrite validateDatabaseConstraints_returns. eexists.
  split; [ reflexivity |].
  assert (Hreturned :
            tryBlock = inr tt ->
            In totalError
              (errors (Arrays.result (databaseArrays supabase orderData)))
            /\ ~ hasCode "VALIDATION_ERROR"
                 (errors (Arrays.result (databaseArrays supabase orderData)))).
  { intros Hret.
    pose proof (constraintChecks_reports_mismatch supabase orderData
                  Arrays.empty Hret Hmismatch) as Hin.
    pose proof (emits_Forall_start notGeneric _
                  (emits_constraintChecks_not_generic supabase orderData))
      as Hall.
    unfold databaseArrays, Eff.tryCatch. unfold tryBlock in Hret.
    destruct (OrderValidation.constraintChecks supabase orderData
                Arrays.empty) as [[e | []] a]; [ discriminate |].
    cbn [fst snd errors Arrays.result] in *.
    split; [ exact Hin |].
    intros (e & He & Hcode). rewrite Forall_forall in Hall.
    now apply (Hall e He). }
  assert (Hthrown :
            forall e,
              tryBlock = inl e ->
              In OrderValidation.validationError
                (errors (Arrays.result (databaseArrays supabase orderData)))
              /\ ~ hasCode "TOTAL_CALCULATION_ERROR"
                   (errors (Arrays.result
                              (databaseArrays supabase orderData)))).
  { intros e Hthrown.
    pose proof (constraintChecks_keeps_when_thrown supabase orderData
                  Arrays.empty e (Forall_nil _) Hthrown) as Hall.
    unfold databaseArrays, Eff.tryCatch. unfold tryBlock in Hthrown.
    destruct (OrderValidation.constraintChecks supabase orderData
                Arrays.empty) as [[e' | []] a]; [| discriminate ].
    cbn [fst snd errors Arrays.result Arrays.errors
           OrderValidation.pushError Eff.update Arrays.pushError] in *.
    split; [ apply in_or_app; right; now left |].
    intros (x & Hx & Hcode). apply in_app_or in Hx.
    destruct Hx as [Hx | [<- | []]]; [| discriminate Hcode ].
    rewrite Forall_forall in Hall. now apply (Hall x Hx). }
  assert (Hresponsive : responsive supabase -> tryBlock = inr tt).
  { intros H.
    exact (returns_unit _ Arrays.empty
             (constraintChecks_returns supabase orderData H)). }
  split; [| split; [ exact Hreturned | split; [ exact Hthrown |] ] ].
  - destruct tryBlock as [e | []] eqn:Hblock.
    + eapply result_invalid. apply (Hthrown e eq_refl).
    + eapply result_invalid. apply (Hreturned eq_refl).
  - intros H. split; [ now apply Hresponsive |].
    apply Hreturned. now apply Hresponsive.
Qed.

Lemma total_mismatch_is_reported_unless_a_call_throws_witness :
  let tryBlock :=
    fst (OrderValidation.constraintChecks (runtime := Examples.moneyRuntime)
           Examples.jestSupabase Examples.wrongTotalOrder Arrays.empty) in
  let totalError :=
    OrderValidationError.make "total"
      ("Order total calculation error. Expected: R"
       ++ Js.toFixed (Runtime := Examples.moneyRuntime)
            (OrderValidation.expectedTotal Examples.wrongTotalOrder) 2
       ++ ", Received: R"
       ++ Js.toFixed (Runtime := Examples.moneyRuntime)
            (total Examples.wrongTotalOrder) 2)
      "TOTAL_CALCULATION_ERROR" Severity.error in
  exists result,
    OrderValidation.validateDatabaseConstraints
      (runtime := Examples.moneyRuntime) Examples.jestSupabase
      Examples.wrongTotalOrder = inr result
    /\ isValid result = false
    /\ (tryBlock = inr tt ->
        In totalError (errors result)
        /\ ~ hasCode "VALIDATION_ERROR" (errors result))
    /\ (forall e,
          tryBlock = inl e ->
          In OrderValidation.validationError (errors result)
          /\ ~ hasCode "TOTAL_CALCULATION_ERROR" (errors result))
    /\ (responsive Examples.jestSupabase ->
        tryBlock = inr tt /\ In totalError (errors result)).
Proof.
  apply (total_mismatch_is_reported_unless_a_call_throws Examples.moneyRuntime
           Examples.jestSupabase Examples.wrongTotalOrder).
  reflexivity.
Defined.

(** The order of a guest with a total that is off, on the database
    client the test file mocks: no call of the [try] block throws for a
    guest, though the client is not responsive, and the error on the
    totals is reported. *)
Lemma guest_total_mismatch_is_reported_on_the_mock :
  fst (OrderValidation.constraintChecks (runtime := Examples.moneyRuntime)
         Examples.jestSupabase Examples.wrongTotalOrder Arrays.empty)
  = inr tt
  /\ exists result,
       OrderValidation.validateDatabaseConstraints
         (runtime := Examples.moneyRuntime) Examples.jestSupabase
         Examples.wrongTotalOrder = inr result
       /\ map OrderValidationError.code (errors result)
          = ["PRODUCT_NOT_FOUND"; "TOTAL_CALCULATION_ERROR"].
Proof.
  split; [ reflexivity |].
  eexists. split; [ vm_compute; reflexivity |]. reflexivity.
Qed.

(** C5.  [validateOrder] is valid exactly when both validations are, and
    its errors and warnings are those of the database validation
    followed by those of the business rules; nothing is removed, so an
    entry occurs as often as in the two lists together. *)
Theorem validateOrder_merges_both_results :
  forall (runtime : Js.Runtime) (supabase : OrderValidation.Supabase)
         (orderData : OrderData),
  exists dbValidation result,
    let businessValidation := OrderValidation.validateBusinessRules orderData in
    OrderValidation.validateDatabaseConstraints supabase orderData
    = inr dbValidation
    /\ OrderValidation.validateOrder supabase orderData = inr result
    /\ (isValid result = true
        <-> isValid dbValidation = true /\ isValid businessValidation = true)
    /\ errors result = errors dbValidation ++ errors businessValidation
    /\ warnings result = warnings dbValidation ++ warnings businessValidation
    /\ (forall e,
          count_occ OrderValidationError.eq_dec (errors result) e
          = count_occ OrderValidationError.eq_dec (errors dbValidation) e
            + count_occ OrderValidationError.eq_dec (errors businessValidation) e)
    /\ (forall w,
          count_occ OrderValidationError.eq_dec (warnings result) w
          = count_occ OrderValidationError.eq_dec (warnings dbValidation) w
            + count_occ OrderValidationError.eq_dec
                (warnings businessValidation) w).
Proof.
  intros runtime supabase orderData.
  unfold OrderValidation.validateOrder.
  rewrite validateDatabaseConstraints_returns.
  do 2 eexists. cbv zeta.
  split; [ reflexivity | split; [ reflexivity |] ]. simpl.
  split; [ apply andb_true_iff |].
  split; [ reflexivity | split; [ reflexivity |] ].
  split; intros x; apply count_occ_app.
Qed.

(** C6 (what the code does).  [maskPhone] by the length of the phone: up
    to four characters it is returned as it is; from six on the phone is
    its first three characters, a middle and its last three characters,
    and the result has one star for each character of the middle; a
    phone of exactly five characters passes the guard [phone.length > 4],
    the count [phone.length - 6] is -1 and [repeat] throws, so no masked
    phone is returned. *)
Theorem maskPhone_by_length :
  forall phone : string,
    ((Js.length phone <= 4)%Z -> AuditLogger.maskPhone phone = inr phone)
    /\ (Js.length phone = 5%Z ->
        AuditLogger.maskPhone phone
        = inl (Js.RangeError "Invalid count value"))
    /\ ((6 <= Js.length phone)%Z ->
        exists first middle last,
          phone = (first ++ middle ++ last)%string
          /\ String.length first = 3
          /\ String.length last = 3
          /\ AuditLogger.maskPhone phone
             = inr (first ++ Js.replicate (String.length middle) "*"
                    ++ last)%string).
Proof.
  intros phone. unfold AuditLogger.maskPhone, Js.repeat.
  split; [| split ]; intros H.
  - destruct (Z.gtb_spec (Js.length phone) 4); [ lia | reflexivity ].
  - rewrite H. reflexivity.
  - destruct (Z.gtb_spec (Js.length phone) 4); [| lia ].
    destruct (Z.ltb_spec (Js.length phone - 6) 0); [ lia |].
    assert (Hlen : 6 <= String.length phone) by (unfold Js.length in H; lia).
    exists (String.substring 0 3 phone),
      (String.substring 3 (String.length phone - 6) phone),
      (String.substring (String.length phone - 3) 3 phone).
    split; [| split; [| split ] ].
    + replace (String.length phone - 3) with (3 + (String.length phone - 6))
        by lia.
      rewrite substring_append, (substring_append phone 0).
      replace (3 + (String.length phone - 6 + 3)) with (String.length phone)
        by lia.
      symmetry. apply substring_whole.
    + apply substring_length. lia.
    + apply substring_length. lia.
    + rewrite substring_length by lia.
      change 3%Z with (Z.of_nat 3).
      rewrite (Js_substring_prefix phone 3), (Js_substringFrom_suffix phone 3)
        by lia.
      replace (Z.to_nat (Js.length phone - 6)) with (String.length phone - 6)
        by (unfold Js.length; lia).
      reflexivity.
Qed.

(** C7 (counterexample).  For the order of fifteen pieces the business
    rules of [order-validation], the ones [validateOrder] runs, push an
    error and no warning, and the result is not valid. *)
Lemma large_quantity_is_an_error_for_validateOrder :
  let result :=
    OrderValidation.validateBusinessRules (runtime := Examples.moneyRuntime)
      Examples.largeQuantityOrder in
  isValid result = false
  /\ map (fun e => (OrderValidationError.code e,
                    OrderValidationError.severity e)) (errors result)
     = [("EXCESSIVE_QUANTITY", Severity.error)]
  /\ warnings result = [].
Proof. vm_compute. repeat split. Qed.

(** C7 (amended).  For a cart item of quantity 15 the client pushes the
    warning [LARGE_QUANTITY] on the field of that item and no error on
    it, and [isValid] says whether [errors] is empty: errors and
    [isValid] are those of the same draft with any positive quantity for
    that item.  The business rules of [order-validation] push the error
    [EXCESSIVE_QUANTITY] for it and their result is not valid. *)
Theorem large_quantity_warns_the_client_and_fails_the_server :
  forall (runtime : Js.Runtime) (orderData : OrderData) (index : nat)
         (item : CartItem.t),
    nth_error (cartItems orderData) index = Some item ->
    CartItem.quantity item = 15%float ->
    let result := OrderValidationClient.validateBusinessRules orderData in
    let server := OrderValidation.validateBusinessRules orderData in
    In (OrderValidationError.make
          (OrderValidationClient.quantityField index)
          "Large quantity order - please verify" "LARGE_QUANTITY"
          Severity.warning)
       (warnings result)
    /\ (forall e,
          In e (errors result) ->
          OrderValidationError.field e
          <> OrderValidationClient.quantityField index)
    /\ isValid result = (List.length (errors result) =? 0)%nat
    /\ (forall quantity,
          Js.le quantity 0%float = false ->
          let other :=
            OrderValidationClient.validateBusinessRules
              (withQuantity index quantity orderData) in
          errors other = errors result /\ isValid other = isValid result)
    /\ In (OrderValidationError.make "cartItems"
             ("Maximum quantity per item is "
              ++ Js.numberToString OrderValidation.maxQuantityPerItem)
             "EXCESSIVE_QUANTITY" Severity.error)
          (errors server)
    /\ isValid server = false.
Proof.
  intros runtime orderData index item Hnth Hq. cbv zeta.
  split; [| split; [| split; [| split; [| split ] ] ] ].
  - unfold OrderValidationClient.validateBusinessRules, Arrays.run.
    unfold OrderValidationClient.businessRules,
      OrderValidationClient.checkGuest,
      OrderValidationClient.checkAuthenticated.
    do 2 rewrite andThen_apply.
    apply appends_keeps_warning with (P := fun _ => True);
      [ appends_steps; exact I |].
    apply (forEachFrom_large_quantity _ 0 _ index item Hnth Hq).
  - intros e Hin Hfield.
    pose proof (appends_Forall _ _ Arrays.empty
                  (appends_client_quantity orderData) (Forall_nil _)) as Hall.
    rewrite Forall_forall in Hall.
    destruct (Hall e Hin) as [H | (j & other & Hj & Hle & Hf)].
    + unfold OrderValidationClient.quantityField in Hfield.
      simpl in Hfield. by_rule H.
    + rewrite Hfield in Hf. apply quantityField_injective in Hf.
      simpl in Hf. subst j. rewrite Hnth in Hj. inversion Hj; subst other.
      rewrite Hq, le_15_0 in Hle. discriminate.
  - reflexivity.
  - intros quantity Hpositive.
    assert (Hsame :
      Arrays.errors
        (OrderValidationClient.businessRules
           (withQuantity index quantity orderData) Arrays.empty)
      = Arrays.errors
          (OrderValidationClient.businessRules orderData Arrays.empty)).
    { apply (businessRules_setQuantity orderData index item quantity);
        auto. rewrite Hq. apply le_15_0. }
    unfold OrderValidationClient.validateBusinessRules, Arrays.run.
    simpl. rewrite Hsame. split; reflexivity.
  - apply (businessRules_excessive_quantity orderData item);
      [ eapply nth_error_In; eauto | exact Hq ].
  - eapply result_invalid.
    apply (businessRules_excessive_quantity orderData item);
      [ eapply nth_error_In; eauto | exact Hq ].
Qed.

Lemma large_quantity_warns_the_client_and_fails_the_server_witness :
  let runtime := Examples.moneyRuntime in
  let result :=
    OrderValidationClient.validateBusinessRules Examples.largeQuantityOrder in
  let server :=
    OrderValidation.validateBusinessRules Examples.largeQuantityOrder in
  In (OrderValidationError.make
        (OrderValidationClient.quantityField 0)
        "Large quantity order - please verify" "LARGE_QUANTITY"
        Severity.warning)
     (warnings result)
  /\ (forall e,
        In e (errors result) ->
        OrderValidationError.field e <> OrderValidationClient.quantityField 0)
  /\ isValid result = (List.length (errors result) =? 0)%nat
  /\ (forall quantity,
        Js.le quantity 0%float = false ->
        let other :=
          OrderValidationClient.validateBusinessRules
            (withQuantity 0 quantity Examples.largeQuantityOrder) in
        errors other = errors result /\ isValid other = isValid result)
  /\ In (OrderValidationError.make "cartItems"
           ("Maximum quantity per item is "
            ++ Js.numberToString OrderValidation.maxQuantityPerItem)
           "EXCESSIVE_QUANTITY" Severity.error)
        (errors server)
  /\ isValid server = false.
Proof.
  apply (large_quantity_warns_the_client_and_fails_the_server
           Examples.moneyRuntime Examples.largeQuantityOrder 0
           (CartItem.make "prod-1" 15%float 299.99%float)).
  - reflexivity.
  - reflexivity.
Defined.

(** C8.  The three logging functions return normally whatever the host
    does: a throw of the insert, of the database client, of the alert
    delivery, of [navigator.userAgent] or of the sanitization is caught.
    So do [storeAuditLog] and [sendCriticalAlert] on their own. *)
Theorem logging_never_throws :
  forall (host : AuditLogger.Host) (self : AuditLogger.OrderAuditLogger)
         (orderData : OrderData) (errors : list OrderValidationError.t)
         (description : string) (context : option string)
         (logEntry : AuditLogger.AuditLogEntry.t) (w : AuditLogger.World),
    fst (AuditLogger.logValidationViolation host self orderData errors context w)
    = inr tt
    /\ fst (AuditLogger.logValidationSuccess host self orderData errors w)
       = inr tt
    /\ fst (AuditLogger.logSuspiciousActivity host self description orderData
              context w)
       = inr tt
    /\ fst (AuditLogger.storeAuditLog host logEntry w) = inr tt
    /\ fst (AuditLogger.sendCriticalAlert host logEntry w) = inr tt.
Proof.
  intros. repeat split; apply tryCatch_consoleWrite.
Qed.

(** C9.  On an empty cart both validators emit their cart-empty error,
    and it carries the code [EMPTY_CART]; no other error of theirs on
    the field [cartItems] of an empty cart carries another code.  The
    code is in none of the three tiers, so a list of errors that all
    carry it is classified low: the entry that [logValidationViolation]
    builds for it has the severity low, that entry is the row added to
    the table when the insert succeeds, and no alert is raised. *)
Theorem empty_cart_code_is_classified_low :
  forall (runtime : Js.Runtime) (supabase : OrderValidation.Supabase)
         (orderData : OrderData),
    (cartItems orderData = [] ->
     In clientEmptyCart
       (errors (OrderValidationClient.validateBusinessRules orderData))
     /\ exists result,
          OrderValidation.validateDatabaseConstraints supabase orderData
          = inr result
          /\ In serverEmptyCart (errors result))
    /\ OrderValidationError.code clientEmptyCart = "EMPTY_CART"
    /\ OrderValidationError.code serverEmptyCart = "EMPTY_CART"
    /\ (forall e,
          In e (errors (OrderValidationClient.validateBusinessRules orderData)) ->
          OrderValidationError.field e = "cartItems" ->
          OrderValidationError.code e = "EMPTY_CART")
    /\ (cartItems orderData = [] ->
        forall result e,
          OrderValidation.validateDatabaseConstraints supabase orderData
          = inr result ->
          In e (errors result) ->
          OrderValidationError.field e = "cartItems" ->
          OrderValidationError.code e = "EMPTY_CART")
    /\ ~ In "EMPTY_CART"
          (AuditLogger.criticalCodes ++ AuditLogger.highCodes
           ++ AuditLogger.mediumCodes)
    /\ (forall host self errors context w,
          (forall e, In e errors -> OrderValidationError.code e = "EMPTY_CART") ->
          let w' :=
            snd (AuditLogger.logValidationViolation host self orderData errors
                   context w) in
          AuditLogger.determineSeverity errors = AuditLogger.Level.low
          /\ (forall row,
                In row (AuditLogger.order_audit_logs w') ->
                In row (AuditLogger.order_audit_logs w)
                \/ AuditLogger.AuditLogEntry.severity row
                   = AuditLogger.Level.low)
          /\ AuditLogger.alerts w' = AuditLogger.alerts w
          /\ (forall sanitized agent,
                AuditLogger.sanitizeOrderData orderData = inr sanitized ->
                AuditLogger.userAgent host = inr agent ->
                let logEntry :=
                  violationEntry host self orderData sanitized errors agent
                    context in
                AuditLogger.AuditLogEntry.severity logEntry
                = AuditLogger.Level.low
                /\ AuditLogger.order_audit_logs w'
                   = AuditLogger.order_audit_logs w
                     ++ (if inserted host logEntry then [logEntry] else []))).
Proof.
  intros runtime supabase orderData.
  split; [| split; [ reflexivity | split; [ reflexivity |] ] ].
  { intros Hcart. split.
    - now apply businessRules_empty_cart.
    - exists (Arrays.result (databaseArrays supabase orderData)).
      split; [ apply validateDatabaseConstraints_returns |].
      exact (databaseArrays_keeps supabase orderData _
               (constraintChecks_empty_cart supabase orderData Hcart)). }
  split; [| split; [| split ] ].
  - intros e Hin Hfield.
    pose proof (appends_Forall _ _ Arrays.empty
                  (appends_client_quantity orderData) (Forall_nil _)) as Hall.
    rewrite Forall_forall in Hall.
    destruct (Hall e Hin) as [H | (j & item & _ & _ & Hf)].
    + by_rule H.
    + rewrite Hfield in Hf. discriminate.
  - intros Hcart result e Hres Hin Hfield.
    rewrite validateDatabaseConstraints_returns in Hres. inversion Hres.
    subst result.
    pose proof (databaseArrays_empty_cart_follow supabase orderData Hcart)
      as Hall.
    rewrite Forall_forall in Hall. pose proof (Hall e Hin) as H. by_rule H.
  - simpl. intuition discriminate.
  - intros host self errs context w Hcodes.
    assert (Hlow : AuditLogger.determineSeverity errs = AuditLogger.Level.low).
    { unfold AuditLogger.determineSeverity.
      rewrite !someCodeIn_none; auto;
        intros e He; rewrite (Hcodes e He); simpl; intuition discriminate. }
    destruct (logValidationViolation_effects host self orderData errs
                context w) as (rows & Hrows & Hall & Halerts).
    cbv zeta. split; [ exact Hlow | split; [| split ] ].
    + intros row Hin. rewrite Hrows in Hin.
      destruct (row_old_or_added _ _ _ _ Hall Hin) as [Hold | (_ & _ & Hsev)];
        [ now left | right; congruence ].
    + destruct Halerts as [Halerts | Hcritical];
        [ exact Halerts | congruence ].
    + intros sanitized agent Hsanitized Hagent.
      split; [ exact Hlow |].
      unfold violationEntry, inserted. unfold_logger.
      rewrite Hsanitized, Hagent, Hlow.
      destruct (AuditLogger.development host);
        destruct (AuditLogger.createClient host) as [? | []]; cbn;
        try (destruct (AuditLogger.insert host _) as [? | [? |]]); cbn;
        rewrite ?app_nil_r; reflexivity.
Qed.

(** C10.  A sanitized draft differs from the draft in
    [customerInfo.email], [customerInfo.phone] and [address.phone] at
    most, and the row that any of the three logging functions stores
    holds such a copy: name, street, city, province, postal code, cart,
    amounts, discount, [userId] and [addressId] are those of the draft. *)
Theorem sanitizeOrderData_changes_only_masked_fields :
  forall orderData : OrderData,
    (forall sanitized,
        AuditLogger.sanitizeOrderData orderData = inr sanitized ->
        sameOutsideMaskedFields orderData sanitized)
    /\ (forall host self errors description context w row,
          In row
            (AuditLogger.order_audit_logs
               (snd (AuditLogger.logValidationViolation host self orderData
                       errors context w)))
          \/ In row
               (AuditLogger.order_audit_logs
                  (snd (AuditLogger.logValidationSuccess host self orderData
                          errors w)))
          \/ In row
               (AuditLogger.order_audit_logs
                  (snd (AuditLogger.logSuspiciousActivity host self description
                          orderData context w))) ->
          In row (AuditLogger.order_audit_logs w)
          \/ sameOutsideMaskedFields orderData
               (AuditLogger.AuditLogEntry.order_data row)).
Proof.
  intros orderData. split.
  - apply sanitizeOrderData_frame.
  - intros host self errors description context w row [Hin | [Hin | Hin]].
    + destruct (logValidationViolation_effects host self orderData errors
                  context w) as (rows & Hrows & Hall & _).
      rewrite Hrows in Hin.
      destruct (row_old_or_added _ _ _ _ Hall Hin) as [Hold | (Hs & _)];
        [ now left | right; now apply sanitizeOrderData_frame ].
    + destruct (logValidationSuccess_effects host self orderData errors w)
        as (rows & Hrows & Hall & _).
      rewrite Hrows in Hin.
      destruct (row_old_or_added _ _ _ _ Hall Hin) as [Hold | (Hs & _)];
        [ now left | right; now apply sanitizeOrderData_frame ].
    + destruct (logSuspiciousActivity_effects host self description orderData
                  context w) as (rows & Hrows & Hall & _).
      rewrite Hrows in Hin.
      destruct (row_old_or_added _ _ _ _ Hall Hin) as [Hold | (Hs & _)];
        [ now left | right; now apply sanitizeOrderData_frame ].
Qed.

(** ** Further properties *)

(** *** Splitting and masking *)

Lemma contains_append c a b :
  contains c (a ++ b) = contains c a || contains c b.
Proof.
  induction a as [| x a IH]; simpl; [ reflexivity |].
  now rewrite IH, orb_assoc.
Qed.

Lemma contains_substring c s :
  contains c s = false ->
  forall n m, contains c (String.substring n m s) = false.
Proof.
  induction s as [| x s IH]; intros H [| n] [| m]; simpl in *;
    try reflexivity; apply orb_false_iff in H; destruct H as [Hx Hs];
    try (rewrite Hx; simpl); now apply IH.
Qed.

Lemma contains_stars c n :
  Ascii.eqb "*" c = false -> contains c (Js.replicate n "*") = false.
Proof.
  intros H. induction n as [| n IH]; [ reflexivity |].
  change (Js.replicate (S n) "*") with (String "*" (Js.replicate n "*")).
  cbn [contains]. now rewrite H, IH.
Qed.

Lemma string_append_assoc a b c :
  ((a ++ b) ++ c = a ++ (b ++ c))%string.
Proof. induction a as [| x a IH]; simpl; [ reflexivity | now rewrite IH ]. Qed.

Lemma length_stars n : String.length (Js.replicate n "*") = n.
Proof. induction n as [| n IH]; simpl; auto. Qed.

Lemma substring_of_prefix a :
  forall b, String.substring 0 (String.length a) (a ++ b) = a.
Proof.
  induction a as [| x a IH]; intros b; simpl.
  - now destruct b.
  - now rewrite IH.
Qed.

Lemma substring_of_suffix a :
  forall b,
    String.substring (String.length a) (String.length b) (a ++ b) = b.
Proof.
  induction a as [| x a IH]; intros b; simpl.
  - apply substring_whole.
  - apply IH.
Qed.

(** Starring keeps the length and leaves a starred string as it is. *)
Lemma length_starred keep s :
  String.length (starred keep s) = String.length s.
Proof.
  unfold starred. destruct (Nat.ltb_spec keep (String.length s));
    [| reflexivity ].
  rewrite string_length_append, length_stars, substring_length by lia. lia.
Qed.

Lemma starred_starred keep s : starred keep (starred keep s) = starred keep s.
Proof.
  unfold starred at 1. rewrite length_starred.
  destruct (Nat.ltb_spec keep (String.length s)) as [Hlt |]; [| reflexivity ].
  unfold starred. destruct (Nat.ltb_spec keep (String.length s)); [| lia ].
  f_equal.
  rewrite <- (substring_length s 0 keep) at 1 by lia.
  apply substring_of_prefix.
Qed.

Lemma contains_starred c keep s :
  Ascii.eqb "*" c = false ->
  contains c s = false -> contains c (starred keep s) = false.
Proof.
  intros Hstar H. unfold starred.
  destruct (keep <? String.length s)%nat; [| exact H ].
  now rewrite contains_append, contains_substring, contains_stars.
Qed.

Lemma split_inhabited sep s : exists w ws, Js.split sep s = w :: ws.
Proof.
  induction s as [| c s (w & ws & IH)]; simpl.
  - now exists "", [].
  - destruct (Ascii.eqb c sep); [ now exists "", (Js.split sep s) |].
    rewrite IH. now exists (String c w), ws.
Qed.

(** No part of a split holds the separator. *)
Lemma split_parts sep s :
  Forall (fun part => contains sep part = false) (Js.split sep s).
Proof.
  induction s as [| c s IH]; simpl.
  - now repeat constructor.
  - destruct (Ascii.eqb c sep) eqn:E; [ now constructor |].
    destruct (Js.split sep s) as [| w ws];
      [ repeat constructor; simpl; now rewrite E |].
    inversion IH; subst. constructor; auto. simpl. now rewrite E.
Qed.

(** A string split at the first separator. *)
Lemma split_at_first sep u :
  contains sep u = false ->
  forall rest,
    Js.split sep (u ++ String sep rest) = u :: Js.split sep rest.
Proof.
  induction u as [| c u IH]; intros H rest; simpl in *.
  - now rewrite Ascii.eqb_refl.
  - apply orb_false_iff in H. destruct H as [Hc Hu].
    now rewrite Hc, (IH Hu).
Qed.

Lemma split_without_separator sep u :
  contains sep u = false -> Js.split sep u = [u].
Proof.
  induction u as [| c u IH]; intros H; simpl in *; [ reflexivity |].
  apply orb_false_iff in H. destruct H as [Hc Hu].
  now rewrite Hc, (IH Hu).
Qed.

(** [maskEmail] in terms of the parts of the split. *)
Lemma maskEmail_of_parts email username rest :
  Js.split "@" email = username :: rest ->
  AuditLogger.maskEmail email
  = inr (starred 2 username ++ "@" ++ nth 0 rest "undefined")%string.
Proof.
  intros Hsplit. unfold AuditLogger.maskEmail, Js.repeat. rewrite Hsplit.
  cbn [nth]. unfold starred, Js.length.
  destruct (Z.gtb_spec (Z.of_nat (String.length username)) 2);
    destruct (Nat.ltb_spec 2 (String.length username)); try lia;
    [| reflexivity ].
  destruct (Z.ltb_spec (Z.of_nat (String.length username) - 2) 0); [ lia |].
  change 2%Z with (Z.of_nat 2). rewrite Js_substring_prefix by lia.
  replace (Z.to_nat (Z.of_nat (String.length username) - Z.of_nat 2))
    with (String.length username - 2) by lia.
  now rewrite string_append_assoc.
Qed.

(** The masked phone of a phone of six characters or more. *)
Lemma maskPhone_long phone :
  6 <= String.length phone ->
  AuditLogger.maskPhone phone
  = inr (String.substring 0 3 phone
         ++ Js.replicate (String.length phone - 6) "*"
         ++ String.substring (String.length phone - 3) 3 phone)%string.
Proof.
  intros H. unfold AuditLogger.maskPhone, Js.repeat, Js.length.
  destruct (Z.gtb_spec (Z.of_nat (String.length phone)) 4); [| lia ].
  destruct (Z.ltb_spec (Z.of_nat (String.length phone) - 6) 0); [ lia |].
  change 3%Z with (Z.of_nat 3).
  rewrite (Js_substring_prefix phone 3) by lia.
  pose proof (Js_substringFrom_suffix phone 3) as Hsuffix.
  unfold Js.length in Hsuffix. rewrite Hsuffix by lia.
  replace (Z.to_nat (Z.of_nat (String.length phone) - 6))
    with (String.length phone - 6) by lia.
  reflexivity.
Qed.

Lemma maskPhone_short phone :
  String.length phone <= 4 -> AuditLogger.maskPhone phone = inr phone.
Proof.
  intros H. unfold AuditLogger.maskPhone, Js.length.
  destruct (Z.gtb_spec (Z.of_nat (String.length phone)) 4);
    [ lia | reflexivity ].
Qed.

Lemma maskPhone_five phone :
  String.length phone = 5 ->
  AuditLogger.maskPhone phone = inl (Js.RangeError "Invalid count value").
Proof.
  intros H. unfold AuditLogger.maskPhone, Js.length. now rewrite H.
Qed.

(** [maskPhone] returns unless the phone has five characters. *)
Lemma maskPhone_returns phone :
  fiveCharacters phone = false ->
  exists masked,
    AuditLogger.maskPhone phone = inr masked
    /\ String.length masked = String.length phone
    /\ AuditLogger.maskPhone masked = inr masked.
Proof.
  unfold fiveCharacters. intros H. apply Nat.eqb_neq in H.
  destruct (Nat.le_gt_cases (String.length phone) 4) as [Hshort | Hlong].
  - exists phone. now rewrite maskPhone_short.
  - assert (Hsix : 6 <= String.length phone) by lia.
    set (first := String.substring 0 3 phone).
    set (last := String.substring (String.length phone - 3) 3 phone).
    set (stars := Js.replicate (String.length phone - 6) "*").
    assert (Hfirst : String.length first = 3)
      by (apply substring_length; lia).
    assert (Hlast : String.length last = 3)
      by (apply substring_length; lia).
    assert (Hstars : String.length stars = String.length phone - 6)
      by apply length_stars.
    assert (Hlen : String.length (first ++ stars ++ last)
                   = String.length phone).
    { rewrite !string_length_append. lia. }
    exists (first ++ stars ++ last)%string.
    split; [ now apply maskPhone_long |]. split; [ exact Hlen |].
    rewrite maskPhone_long by lia. rewrite Hlen. f_equal.
    rewrite <- Hfirst at 1. rewrite substring_of_prefix. f_equal. f_equal.
    replace (String.length phone - 3)
      with (String.length (first ++ stars)%string)
      by (rewrite string_length_append; lia).
    rewrite <- string_append_assoc. rewrite <- Hlast at 1.
    apply substring_of_suffix.
Qed.

Lemma nth_of_parts sep (parts : list string) :
  Forall (fun part => contains sep part = false) parts ->
  contains sep "undefined" = false ->
  contains sep (nth 0 parts "undefined") = false.
Proof. intros H Hdefault. destruct H; simpl; auto. Qed.

(** What [maskEmail] returns: a starred part without [@], an [@] and a
    part without [@]. *)
Lemma maskEmail_result email :
  exists username domain,
    contains "@" username = false
    /\ contains "@" domain = false
    /\ AuditLogger.maskEmail email
       = inr (starred 2 username ++ String "@" domain)%string.
Proof.
  destruct (split_inhabited "@" email) as (username & rest & Hsplit).
  pose proof (split_parts "@" email) as Hparts. rewrite Hsplit in Hparts.
  inversion Hparts as [| ? ? Husername Hrest]; subst.
  exists username, (nth 0 rest "undefined"). split; [ exact Husername |].
  split; [ now apply nth_of_parts |].
  now apply maskEmail_of_parts.
Qed.

Lemma maskEmail_of_two_parts username domain :
  contains "@" username = false ->
  contains "@" domain = false ->
  AuditLogger.maskEmail (username ++ String "@" domain)
  = inr (starred 2 username ++ String "@" domain)%string.
Proof.
  intros Husername Hdomain.
  rewrite (maskEmail_of_parts _ username [domain]); [ reflexivity |].
  now rewrite split_at_first, split_without_separator.
Qed.

Lemma maskEmail_masked email masked :
  AuditLogger.maskEmail email = inr masked ->
  AuditLogger.maskEmail masked = inr masked.
Proof.
  destruct (maskEmail_result email)
    as (username & domain & Husername & Hdomain & Hmasked).
  rewrite Hmasked. intros H. inversion H; subst masked.
  rewrite maskEmail_of_two_parts; auto.
  - now rewrite starred_starred.
  - now apply contains_starred.
Qed.

Lemma fiveCharacters_maskPhone phone :
  fiveCharacters phone = true ->
  AuditLogger.maskPhone phone = inl (Js.RangeError "Invalid count value").
Proof.
  unfold fiveCharacters. intros H. apply Nat.eqb_eq in H.
  now apply maskPhone_five.
Qed.

(** When [sanitizeOrderData] throws and what it returns otherwise. *)
Lemma sanitizeOrderData_outcome orderData :
  (hasFiveCharacterPhone orderData = true ->
   AuditLogger.sanitizeOrderData orderData
   = inl (Js.RangeError "Invalid count value"))
  /\ (hasFiveCharacterPhone orderData = false ->
      exists sanitized,
        AuditLogger.sanitizeOrderData orderData = inr sanitized
        /\ AuditLogger.sanitizeOrderData sanitized = inr sanitized).
Proof.
  unfold hasFiveCharacterPhone, AuditLogger.sanitizeOrderData.
  destruct (identity orderData) as [customerInfo address | userId addressId]
    eqn:Hid.
  - destruct (maskEmail_result (CustomerInfo.email customerInfo))
      as (username & domain & Husername & Hdomain & Hemail).
    pose proof (maskEmail_masked _ _ Hemail) as Hagain.
    rewrite Hemail. split; intros Hfive.
    + destruct (fiveCharacters (CustomerInfo.phone customerInfo)) eqn:Hphone.
      * now rewrite (fiveCharacters_maskPhone _ Hphone).
      * destruct (maskPhone_returns _ Hphone) as (phone & -> & _).
        simpl in Hfive. now rewrite (fiveCharacters_maskPhone _ Hfive).
    + apply orb_false_iff in Hfive. destruct Hfive as [Hphone Haddress].
      destruct (maskPhone_returns _ Hphone) as (phone & -> & _ & Hphone').
      destruct (maskPhone_returns _ Haddress)
        as (addressPhone & -> & _ & Haddress').
      eexists. split; [ reflexivity |].
      cbn [identity CustomerInfo.email CustomerInfo.phone Address.phone].
      now rewrite Hagain, Hphone', Haddress'.
  - split; [ discriminate |]. intros _. exists orderData.
    split; [ reflexivity |]. now rewrite Hid.
Qed.

(** X1.  [maskEmail] on an address with one [@] keeps the first two
    characters of the part before it, puts a star for each further
    character of that part and keeps the part after it in clear; a
    second [@] and what follows it are dropped, and an address without
    [@] gets the domain [undefined]. *)
Theorem maskEmail_stars_the_name_and_keeps_the_domain :
  forall username : string,
    contains "@" username = false ->
    (forall domain,
        contains "@" domain = false ->
        AuditLogger.maskEmail (username ++ "@" ++ domain)
        = inr (starred 2 username ++ "@" ++ domain)%string
        /\ forall rest,
            AuditLogger.maskEmail (username ++ "@" ++ domain ++ "@" ++ rest)
            = inr (starred 2 username ++ "@" ++ domain)%string)
    /\ AuditLogger.maskEmail username
       = inr (starred 2 username ++ "@undefined")%string.
Proof.
  intros username Husername. split.
  - intros domain Hdomain. split.
    + now apply maskEmail_of_two_parts.
    + intros rest.
      destruct (split_inhabited "@" rest) as (w & ws & Hrest).
      rewrite (maskEmail_of_parts _ username (domain :: w :: ws));
        [ reflexivity |].
      change (username ++ "@" ++ domain ++ "@" ++ rest)%string
        with (username ++ String "@" (domain ++ String "@" rest))%string.
      now rewrite !split_at_first, Hrest.
  - rewrite (maskEmail_of_parts _ username []); [ reflexivity |].
    now apply split_without_separator.
Qed.

Lemma maskEmail_stars_the_name_and_keeps_the_domain_witness :
  (forall domain,
      contains "@" domain = false ->
      AuditLogger.maskEmail ("john" ++ "@" ++ domain)
      = inr (starred 2 "john" ++ "@" ++ domain)%string
      /\ forall rest,
          AuditLogger.maskEmail ("john" ++ "@" ++ domain ++ "@" ++ rest)
          = inr (starred 2 "john" ++ "@" ++ domain)%string)
  /\ AuditLogger.maskEmail "john" = inr (starred 2 "john" ++ "@undefined")%string.
Proof.
  apply (maskEmail_stars_the_name_and_keeps_the_domain "john"). reflexivity.
Defined.

(** X2.  [maskEmail] returns for every string, and masking a masked
    address changes nothing. *)
Theorem maskEmail_is_idempotent :
  forall email : string,
  exists masked,
    AuditLogger.maskEmail email = inr masked
    /\ AuditLogger.maskEmail masked = inr masked.
Proof.
  intros email.
  destruct (maskEmail_result email) as (username & domain & _ & _ & Hmasked).
  eexists. split; [ exact Hmasked |]. now apply (maskEmail_masked email).
Qed.

(** X3.  Unless the phone has five characters, [maskPhone] returns a
    string as long as the phone, and masking it again changes nothing. *)
Theorem maskPhone_keeps_the_length_and_is_idempotent :
  forall phone : string,
    String.length phone <> 5 ->
    exists masked,
      AuditLogger.maskPhone phone = inr masked
      /\ String.length masked = String.length phone
      /\ AuditLogger.maskPhone masked = inr masked.
Proof.
  intros phone H. apply maskPhone_returns. now apply Nat.eqb_neq.
Qed.

Lemma maskPhone_keeps_the_length_and_is_idempotent_witness :
  exists masked,
    AuditLogger.maskPhone "+27123456789" = inr masked
    /\ String.length masked = String.length "+27123456789"
    /\ AuditLogger.maskPhone masked = inr masked.
Proof.
  apply (maskPhone_keeps_the_length_and_is_idempotent "+27123456789").
  simpl. lia.
Defined.

(** X4.  [sanitizeOrderData] throws a RangeError exactly for the guest
    drafts one of whose two phones has five characters; for every other
    draft it returns, and sanitizing its result changes nothing. *)
Theorem sanitizeOrderData_throws_on_five_characters_only :
  forall orderData : OrderData,
    (hasFiveCharacterPhone orderData = true
     <-> AuditLogger.sanitizeOrderData orderData
         = inl (Js.RangeError "Invalid count value"))
    /\ (hasFiveCharacterPhone orderData = false
        <-> exists sanitized,
              AuditLogger.sanitizeOrderData orderData = inr sanitized)
    /\ (forall sanitized,
          AuditLogger.sanitizeOrderData orderData = inr sanitized ->
          AuditLogger.sanitizeOrderData sanitized = inr sanitized).
Proof.
  intros orderData.
  destruct (sanitizeOrderData_outcome orderData) as [Hthrows Hreturns].
  destruct (hasFiveCharacterPhone orderData) eqn:Hfive.
  - rewrite (Hthrows eq_refl). split; [| split ].
    + tauto.
    + split; [ discriminate | intros (sanitized & H); discriminate ].
    + discriminate.
  - destruct (Hreturns eq_refl) as (sanitized & Hs & Hagain). rewrite Hs.
    split; [| split ].
    + split; discriminate.
    + split; [ eauto | reflexivity ].
    + intros s H. inversion H; subst s. exact Hagain.
Qed.

(** *** What the logger leaves behind *)

(** Destructs the calls into the host of an unfolded logging function. *)
Ltac host_cases host :=
  try destruct (AuditLogger.development host);
  try destruct (AuditLogger.createClient host) as [? | []];
  cbn;
  try (destruct (AuditLogger.insert host _) as [? | [? |]]);
  cbn;
  try (destruct (AuditLogger.deliverAlert host _) as [? | []]);
  cbn; rewrite ?app_nil_r.

(** X5.  For a guest draft one of whose phones has five characters none
    of the three logging functions stores a row or raises an alert,
    whatever the errors and the host: the sanitization throws first. *)
Theorem five_character_phone_leaves_no_audit_record :
  forall (host : AuditLogger.Host) (self : AuditLogger.OrderAuditLogger)
         (orderData : OrderData) (errors : list OrderValidationError.t)
         (description : string) (context : option string)
         (w : AuditLogger.World),
    hasFiveCharacterPhone orderData = true ->
    sameRecords w
      (snd (AuditLogger.logValidationViolation host self orderData errors
              context w))
    /\ sameRecords w
         (snd (AuditLogger.logValidationSuccess host self orderData errors w))
    /\ sameRecords w
         (snd (AuditLogger.logSuspiciousActivity host self description
                 orderData context w)).
Proof.
  intros host self orderData errors description context w Hfive.
  destruct (sanitizeOrderData_outcome orderData) as [Hthrows _].
  specialize (Hthrows Hfive). unfold sameRecords. unfold_logger.
  rewrite Hthrows. destruct (0 <? List.length errors)%nat; cbn; auto.
Qed.

Lemma five_character_phone_leaves_no_audit_record_witness :
  sameRecords Examples.emptyWorld
    (snd (AuditLogger.logValidationViolation Examples.workingHost
            Examples.logger Examples.shortPhoneOrder
            [OrderValidation.error "cartItems"
               "Product with ID prod-1 not found" "PRODUCT_NOT_FOUND"]
            None Examples.emptyWorld))
  /\ sameRecords Examples.emptyWorld
       (snd (AuditLogger.logValidationSuccess Examples.workingHost
               Examples.logger Examples.shortPhoneOrder
               [OrderValidation.error "cartItems"
                  "Product with ID prod-1 not found" "PRODUCT_NOT_FOUND"]
               Examples.emptyWorld))
  /\ sameRecords Examples.emptyWorld
       (snd (AuditLogger.logSuspiciousActivity Examples.workingHost
               Examples.logger "Unusually high quantity order"
               Examples.shortPhoneOrder None Examples.emptyWorld)).
Proof.
  apply (five_character_phone_leaves_no_audit_record Examples.workingHost
           Examples.logger Examples.shortPhoneOrder).
  reflexivity.
Defined.

(** X6.  When the sanitization and [navigator.userAgent] return,
    [logValidationViolation] adds the entry it built to the table exactly
    when the database client is created and the insert succeeds, and it
    raises an alert for that entry exactly when the severity is critical
    and the delivery succeeds, whether the row was stored or not. *)
Theorem logValidationViolation_stores_and_alerts :
  forall (host : AuditLogger.Host) (self : AuditLogger.OrderAuditLogger)
         (orderData sanitized : OrderData)
         (errors : list OrderValidationError.t) (agent : string)
         (context : option string) (w : AuditLogger.World),
    AuditLogger.sanitizeOrderData orderData = inr sanitized ->
    AuditLogger.userAgent host = inr agent ->
    let logEntry :=
      violationEntry host self orderData sanitized errors agent context in
    let w' :=
      snd (AuditLogger.logValidationViolation host self orderData errors
             context w) in
    AuditLogger.order_audit_logs w'
    = AuditLogger.order_audit_logs w
      ++ (if inserted host logEntry then [logEntry] else [])
    /\ AuditLogger.alerts w'
       = AuditLogger.alerts w
         ++ (if AuditLogger.Level.eqb (AuditLogger.determineSeverity errors)
                  AuditLogger.Level.critical
                && succeeded (AuditLogger.deliverAlert host logEntry)
             then [logEntry] else []).
Proof.
  intros host self orderData sanitized errors agent context w Hs Hagent.
  cbv zeta. unfold violationEntry, inserted, succeeded. unfold_logger.
  rewrite Hs, Hagent.
  destruct (AuditLogger.determineSeverity errors); host_cases host; auto.
Qed.

Lemma logValidationViolation_stores_and_alerts_witness :
  let errors :=
    [OrderValidation.error "cartItems" "Product with ID prod-1 not found"
       "PRODUCT_NOT_FOUND"] in
  let sanitized :=
    match AuditLogger.sanitizeOrderData Examples.validGuestOrder with
    | inr s => s
    | inl _ => Examples.validGuestOrder
    end in
  let logEntry :=
    violationEntry Examples.brokenHost Examples.logger
      Examples.validGuestOrder sanitized errors "Mozilla/5.0" None in
  let w' :=
    snd (AuditLogger.logValidationViolation Examples.brokenHost
           Examples.logger Examples.validGuestOrder errors None
           Examples.emptyWorld) in
  AuditLogger.order_audit_logs w'
  = AuditLogger.order_audit_logs Examples.emptyWorld
    ++ (if inserted Examples.brokenHost logEntry then [logEntry] else [])
  /\ AuditLogger.alerts w'
     = AuditLogger.alerts Examples.emptyWorld
       ++ (if AuditLogger.Level.eqb (AuditLogger.determineSeverity errors)
                AuditLogger.Level.critical
              && succeeded (AuditLogger.deliverAlert Examples.brokenHost
                              logEntry)
           then [logEntry] else []).
Proof.
  apply (logValidationViolation_stores_and_alerts Examples.brokenHost
           Examples.logger Examples.validGuestOrder).
  - reflexivity.
  - reflexivity.
Defined.

(** X7.  [logValidationSuccess] without warnings leaves the world as it
    is.  With warnings, when the sanitization and [navigator.userAgent]
    return, it adds its entry, of severity low and of type
    [validation_warning], exactly when the insert succeeds; it never
    raises an alert. *)
Theorem logValidationSuccess_stores_warnings_only :
  forall (host : AuditLogger.Host) (self : AuditLogger.OrderAuditLogger)
         (orderData sanitized : OrderData) (agent : string)
         (w : AuditLogger.World),
    AuditLogger.sanitizeOrderData orderData = inr sanitized ->
    AuditLogger.userAgent host = inr agent ->
    AuditLogger.logValidationSuccess host self orderData [] w = (inr tt, w)
    /\ forall warning warnings,
        let logEntry :=
          warningEntry host self orderData sanitized (warning :: warnings)
            agent in
        let w' :=
          snd (AuditLogger.logValidationSuccess host self orderData
                 (warning :: warnings) w) in
        AuditLogger.order_audit_logs w'
        = AuditLogger.order_audit_logs w
          ++ (if inserted host logEntry then [logEntry] else [])
        /\ AuditLogger.alerts w' = AuditLogger.alerts w.
Proof.
  intros host self orderData sanitized agent w Hs Hagent.
  split; [ reflexivity |]. intros warning warnings. cbv zeta.
  unfold warningEntry, inserted. unfold_logger.
  cbn [List.length Nat.ltb Nat.leb]. rewrite Hs, Hagent.
  host_cases host; auto.
Qed.

Lemma logValidationSuccess_stores_warnings_only_witness :
  let sanitized :=
    match AuditLogger.sanitizeOrderData Examples.validGuestOrder with
    | inr s => s
    | inl _ => Examples.validGuestOrder
    end in
  AuditLogger.logValidationSuccess Examples.workingHost Examples.logger
    Examples.validGuestOrder [] Examples.emptyWorld
  = (inr tt, Examples.emptyWorld)
  /\ forall warning warnings,
      let logEntry :=
        warningEntry Examples.workingHost Examples.logger
          Examples.validGuestOrder sanitized (warning :: warnings)
          "Mozilla/5.0" in
      let w' :=
        snd (AuditLogger.logValidationSuccess Examples.workingHost
               Examples.logger Examples.validGuestOrder
               (warning :: warnings) Examples.emptyWorld) in
      AuditLogger.order_audit_logs w'
      = AuditLogger.order_audit_logs Examples.emptyWorld
        ++ (if inserted Examples.workingHost logEntry then [logEntry] else [])
      /\ AuditLogger.alerts w' = AuditLogger.alerts Examples.emptyWorld.
Proof.
  apply (logValidationSuccess_stores_warnings_only Examples.workingHost
           Examples.logger Examples.validGuestOrder).
  - reflexivity.
  - reflexivity.
Defined.

(** X8.  When the sanitization and [navigator.userAgent] return,
    [logSuspiciousActivity] adds its entry, of severity high, of type
    [suspicious_activity] and with the one error [SUSPICIOUS_ACTIVITY]
    that carries the description, exactly when the insert succeeds, and
    raises an alert for it exactly when the delivery succeeds, whether
    the row was stored or not. *)
Theorem logSuspiciousActivity_stores_and_always_alerts :
  forall (host : AuditLogger.Host) (self : AuditLogger.OrderAuditLogger)
         (description : string) (orderData sanitized : OrderData)
         (agent : string) (context : option string) (w : AuditLogger.World),
    AuditLogger.sanitizeOrderData orderData = inr sanitized ->
    AuditLogger.userAgent host = inr agent ->
    let logEntry :=
      suspiciousEntry host self description orderData sanitized agent context
    in
    let w' :=
      snd (AuditLogger.logSuspiciousActivity host self description orderData
             context w) in
    AuditLogger.order_audit_logs w'
    = AuditLogger.order_audit_logs w
      ++ (if inserted host logEntry then [logEntry] else [])
    /\ AuditLogger.alerts w'
       = AuditLogger.alerts w
         ++ (if succeeded (AuditLogger.deliverAlert host logEntry)
             then [logEntry] else []).
Proof.
  intros host self description orderData sanitized agent context w Hs Hagent.
  cbv zeta. unfold suspiciousEntry, inserted, succeeded. unfold_logger.
  rewrite Hs, Hagent. host_cases host; auto.
Qed.

Lemma logSuspiciousActivity_stores_and_always_alerts_witness :
  let sanitized :=
    match AuditLogger.sanitizeOrderData Examples.validGuestOrder with
    | inr s => s
    | inl _ => Examples.validGuestOrder
    end in
  let logEntry :=
    suspiciousEntry Examples.workingHost Examples.logger
      "Unusually high quantity order" Examples.validGuestOrder sanitized
      "Mozilla/5.0" None in
  let w' :=
    snd (AuditLogger.logSuspiciousActivity Examples.workingHost
           Examples.logger "Unusually high quantity order"
           Examples.validGuestOrder None Examples.emptyWorld) in
  AuditLogger.order_audit_logs w'
  = AuditLogger.order_audit_logs Examples.emptyWorld
    ++ (if inserted Examples.workingHost logEntry then [logEntry] else [])
  /\ AuditLogger.alerts w'
     = AuditLogger.alerts Examples.emptyWorld
       ++ (if succeeded (AuditLogger.deliverAlert Examples.workingHost
                           logEntry)
           then [logEntry] else []).
Proof.
  apply (logSuspiciousActivity_stores_and_always_alerts Examples.workingHost
           Examples.logger "Unusually high quantity order"
           Examples.validGuestOrder).
  - reflexivity.
  - reflexivity.
Defined.

Lemma hasErrors_Exists :
  forall errors : list OrderValidationError.t,
    existsb (fun e => Severity.eqb (OrderValidationError.severity e)
                        Severity.error) errors = true
    <-> Exists (fun e => OrderValidationError.severity e = Severity.error)
          errors.
Proof.
  intros errors. rewrite existsb_exists, Exists_exists.
  split; intros [e [Hin He]]; exists e; split; auto;
    destruct (OrderValidationError.severity e); auto; discriminate.
Qed.

Lemma no_errors_Forall :
  forall errors : list OrderValidationError.t,
    existsb (fun e => Severity.eqb (OrderValidationError.severity e)
                        Severity.error) errors = false
    <-> Forall (fun e => OrderValidationError.severity e = Severity.warning)
          errors.
Proof.
  intros errors. induction errors as [| e errors IH]; simpl.
  - split; [ constructor | reflexivity ].
  - destruct e as [f m c [|]]; simpl.
    + split; [ discriminate |].
      intros H. inversion H as [| ? ? He _]; subst. discriminate He.
    + rewrite IH. split; [ now constructor |].
      intros H. now inversion H.
Qed.

Lemma hasWarnings_of_no_errors :
  forall (e : OrderValidationError.t) (errors : list OrderValidationError.t),
    Forall (fun e => OrderValidationError.severity e = Severity.warning)
      (e :: errors) ->
    existsb (fun e => Severity.eqb (OrderValidationError.severity e)
                        Severity.warning) (e :: errors) = true.
Proof.
  intros e errors H. inversion H as [| ? ? He _]; subst. simpl.
  now rewrite He.
Qed.

(** X9.  [determineEventType] answers [validation_warning] exactly for a
    list that is not empty and holds warnings only, and
    [validation_failure] for every other list, the empty one included. *)
Theorem determineEventType_by_severity :
  forall errors : list OrderValidationError.t,
    (AuditLogger.determineEventType errors
     = AuditLogger.EventType.validation_warning
     <-> errors <> []
         /\ Forall (fun e => OrderValidationError.severity e
                             = Severity.warning) errors)
    /\ (AuditLogger.determineEventType errors
        = AuditLogger.EventType.validation_failure
        <-> errors = []
            \/ Exists (fun e => OrderValidationError.severity e
                                = Severity.error) errors).
Proof.
  intros errors. unfold AuditLogger.determineEventType.
  destruct (existsb
              (fun e => Severity.eqb (OrderValidationError.severity e)
                          Severity.error) errors) eqn:Herr.
  - pose proof (proj1 (hasErrors_Exists errors) Herr) as Hex.
    split; split; try discriminate; auto.
    intros [_ Hall]. apply no_errors_Forall in Hall. congruence.
  - pose proof (proj1 (no_errors_Forall errors) Herr) as Hall.
    destruct errors as [| e errors].
    + simpl. split; split; try discriminate; auto.
      intros [H _]. now destruct H.
    + rewrite (hasWarnings_of_no_errors e errors Hall).
      split; split; try discriminate.
      * intros _. split; [ discriminate | exact Hall ].
      * reflexivity.
      * intros [H | H]; [ discriminate |].
        apply hasErrors_Exists in H. congruence.
Qed.

(** *** The severity of what the validators report *)











(** *** Which drafts are accepted *)

Lemma make_eta a : Arrays.make (Arrays.errors a) (Arrays.warnings a) = a.
Proof. now destruct a. Qed.

Section Uniform.

Lemma uniform_skip : uniform Arrays.skip.
Proof. intros a. unfold Arrays.skip. simpl. now rewrite !app_nil_r, make_eta. Qed.

Lemma uniform_pushError e : uniform (Arrays.pushError e).
Proof. intros a. unfold Arrays.pushError. simpl. now rewrite app_nil_r. Qed.

Lemma uniform_pushWarning w : uniform (Arrays.pushWarning w).
Proof. intros a. unfold Arrays.pushWarning. simpl. now rewrite app_nil_r. Qed.

Lemma uniform_andThen f g :
  uniform f -> uniform g -> uniform (Arrays.andThen f g).
Proof.
  intros Hf Hg a. unfold Arrays.andThen.
  rewrite (Hg (f a)), (Hg (f Arrays.empty)), (Hf a). simpl.
  now rewrite !app_assoc.
Qed.

Lemma uniform_when c f : uniform f -> uniform (Arrays.when c f).
Proof. destruct c; simpl; auto using uniform_skip. Qed.

Lemma uniform_forEachFrom {A} (l : list A) body :
  (forall x i, uniform (body x i)) ->
  forall i, uniform (Arrays.forEachFrom i l body).
Proof.
  intros Hb. induction l as [| x l IH]; intros i; simpl.
  - apply uniform_skip.
  - apply uniform_andThen; auto.
Qed.

Lemma uniform_forOf {A} (l : list A) body :
  (forall x, uniform (body x)) -> uniform (Arrays.forOf l body).
Proof.
  intros Hb. induction l as [| x l IH]; simpl.
  - apply uniform_skip.
  - apply uniform_andThen; auto.
Qed.

Lemma silent_andThen f g :
  uniform g -> silent (Arrays.andThen f g) <-> silent f /\ silent g.
Proof.
  intros Hg. unfold silent, Arrays.andThen.
  rewrite (Hg (f Arrays.empty)). simpl. split.
  - intros H. now apply app_eq_nil in H.
  - intros [-> ->]. reflexivity.
Qed.

Lemma silent_when_pushError c e :
  silent (Arrays.when c (Arrays.pushError e)) <-> c = false.
Proof. unfold silent. destruct c; simpl; split; auto; discriminate. Qed.

Lemma silent_when_pushWarning c w :
  silent (Arrays.when c (Arrays.pushWarning w)) <-> True.
Proof. unfold silent. destruct c; simpl; tauto. Qed.

Lemma silent_pushError e : silent (Arrays.pushError e) <-> False.
Proof. unfold silent. simpl. split; [ discriminate | tauto ]. Qed.

Lemma silent_forEachFrom {A} (l : list A) body (Q : A -> Prop) :
  (forall x i, uniform (body x i)) ->
  (forall x i, silent (body x i) <-> Q x) ->
  forall i, silent (Arrays.forEachFrom i l body) <-> Forall Q l.
Proof.
  intros Hu Hb. induction l as [| x l IH]; intros i; simpl.
  - split; [ constructor | reflexivity ].
  - rewrite silent_andThen by now apply uniform_forEachFrom.
    rewrite Hb, IH. split.
    + intros [Hx Hl]. now constructor.
    + intros H. now inversion H.
Qed.

Lemma silent_forOf {A} (l : list A) body (Q : A -> Prop) :
  (forall x, uniform (body x)) ->
  (forall x, silent (body x) <-> Q x) ->
  silent (Arrays.forOf l body) <-> Forall Q l.
Proof.
  intros Hu Hb. induction l as [| x l IH]; simpl.
  - split; [ constructor | reflexivity ].
  - rewrite silent_andThen by now apply uniform_forOf.
    rewrite Hb, IH. split.
    + intros [Hx Hl]. now constructor.
    + intros H. now inversion H.
Qed.

(** The result of a validator that only pushes is valid exactly when
    its statements are silent. *)
Lemma run_valid f : isValid (Arrays.run f) = true <-> silent f.
Proof.
  unfold Arrays.run, Arrays.result, silent. simpl.
  rewrite Nat.eqb_eq. apply length_zero_iff_nil.
Qed.

Lemma uniformly_ret {A} (x : A) : uniformly (@Eff.ret Arrays.t A x).
Proof.
  intros a. unfold Eff.ret. simpl. now rewrite !app_nil_r, make_eta.
Qed.

Lemma uniformly_throw {A} e : uniformly (@Eff.throw Arrays.t A e).
Proof.
  intros a. unfold Eff.throw. simpl. now rewrite !app_nil_r, make_eta.
Qed.

Lemma uniformly_ofResult {A} (r : Js.Result A) :
  uniformly (@Eff.ofResult Arrays.t A r).
Proof.
  intros a. unfold Eff.ofResult. simpl. now rewrite !app_nil_r, make_eta.
Qed.

Lemma uniformly_pushError e : uniformly (OrderValidation.pushError e).
Proof.
  intros a. unfold OrderValidation.pushError, Eff.update. simpl.
  now rewrite app_nil_r.
Qed.

Lemma uniformly_pushWarning w : uniformly (OrderValidation.pushWarning w).
Proof.
  intros a. unfold OrderValidation.pushWarning, Eff.update. simpl.
  now rewrite app_nil_r.
Qed.

Lemma uniformly_bind {A B} (m : Eff.t Arrays.t A) (k : A -> Eff.t Arrays.t B) :
  uniformly m -> (forall x, uniformly (k x)) -> uniformly (Eff.bind m k).
Proof.
  intros Hm Hk a. unfold Eff.bind.
  destruct (Hm a) as [Hf Hs].
  destruct (m a) as [r s]. destruct (m Arrays.empty) as [r0 s0].
  simpl in Hf, Hs. subst r s. destruct r0 as [e | x]; simpl.
  - split; reflexivity.
  - destruct (Hk x (Arrays.make (Arrays.errors a ++ Arrays.errors s0)
                      (Arrays.warnings a ++ Arrays.warnings s0))) as [H1 H2].
    destruct (Hk x s0) as [H3 H4].
    rewrite H1, H2, H3, H4. simpl. now rewrite !app_assoc.
Qed.

Lemma uniformly_tryCatch {A} (m : Eff.t Arrays.t A) h :
  uniformly m -> (forall e, uniformly (h e)) -> uniformly (Eff.tryCatch m h).
Proof.
  intros Hm Hh a. unfold Eff.tryCatch.
  destruct (Hm a) as [Hf Hs].
  destruct (m a) as [r s]. destruct (m Arrays.empty) as [r0 s0].
  simpl in Hf, Hs. subst r s. destruct r0 as [e | x]; simpl.
  - destruct (Hh e (Arrays.make (Arrays.errors a ++ Arrays.errors s0)
                      (Arrays.warnings a ++ Arrays.warnings s0))) as [H1 H2].
    destruct (Hh e s0) as [H3 H4].
    rewrite H1, H2, H3, H4. simpl. now rewrite !app_assoc.
  - split; reflexivity.
Qed.

Lemma uniformly_when c (m : Eff.t Arrays.t unit) :
  uniformly m -> uniformly (Eff.when c m).
Proof. destruct c; simpl; auto using uniformly_ret. Qed.

Lemma uniformly_forOf {A} (l : list A) body :
  (forall x, uniformly (body x)) -> uniformly (Eff.forOf l body).
Proof.
  intros Hb. induction l as [| x l IH]; simpl.
  - apply uniformly_ret.
  - apply uniformly_bind; auto.
Qed.

Lemma passes_bind {A B} (m : Eff.t Arrays.t A) (k : A -> Eff.t Arrays.t B) :
  (forall x, uniformly (k x)) ->
  passes (Eff.bind m k)
  <-> exists x,
        fst (m Arrays.empty) = inr x
        /\ Arrays.errors (snd (m Arrays.empty)) = []
        /\ passes (k x).
Proof.
  intros Hk. unfold passes, Eff.bind.
  destruct (m Arrays.empty) as [[e | x] s]; simpl.
  - split.
    + intros [[y Hy] _]. discriminate.
    + intros (y & Hy & _). discriminate.
  - destruct (Hk x s) as [H1 H2]. rewrite H1, H2. simpl. split.
    + intros [Hret Herr]. apply app_eq_nil in Herr.
      exists x. tauto.
    + intros (y & Hy & Hs & Hret & Herr).
      injection Hy as <-. rewrite Hs, Herr. auto.
Qed.

Lemma passes_seq (m k : Eff.t Arrays.t unit) :
  uniformly k -> passes (m ;; k) <-> passes m /\ passes k.
Proof.
  intros Hk. rewrite passes_bind by auto. unfold passes. split.
  - intros (x & Hx & Hs & Hp). eauto.
  - intros [[[x Hx] Hs] Hp]. eauto.
Qed.

Lemma passes_ret {A} (x : A) : passes (@Eff.ret Arrays.t A x) <-> True.
Proof. unfold passes, Eff.ret. simpl. split; eauto. Qed.

Lemma passes_pushError e : passes (OrderValidation.pushError e) <-> False.
Proof.
  unfold passes, OrderValidation.pushError, Eff.update. simpl.
  split; [ intros [_ H]; discriminate | tauto ].
Qed.

Lemma passes_when_pushError c e :
  passes (Eff.when c (OrderValidation.pushError e)) <-> c = false.
Proof.
  destruct c; simpl.
  - rewrite passes_pushError. split; [ tauto | discriminate ].
  - rewrite passes_ret. tauto.
Qed.

Lemma passes_when_pushWarning c w :
  passes (Eff.when c (OrderValidation.pushWarning w)) <-> True.
Proof.
  unfold passes, OrderValidation.pushWarning, Eff.update.
  destruct c; simpl; split; eauto.
Qed.

Lemma passes_forOf {A} (l : list A) body (Q : A -> Prop) :
  (forall x, uniformly (body x)) ->
  (forall x, passes (body x) <-> Q x) ->
  passes (Eff.forOf l body) <-> Forall Q l.
Proof.
  intros Hu Hb. induction l as [| x l IH]; simpl.
  - rewrite passes_ret. split; auto.
  - rewrite passes_seq by now apply uniformly_forOf.
    rewrite Hb, IH. split.
    + intros [Hx Hl]. now constructor.
    + intros H. now inversion H.
Qed.

End Uniform.

(** Splits statements into their parts; none of them looks at the
    arrays. *)
Ltac uniform_steps :=
  repeat match goal with
    | |- uniform (Arrays.andThen _ _) => apply uniform_andThen
    | |- uniform (Arrays.when _ _) => apply uniform_when
    | |- uniform (Arrays.forEach _ _) =>
        apply uniform_forEachFrom; intros ? ?
    | |- uniform (Arrays.forEachFrom _ _ _) =>
        apply uniform_forEachFrom; intros ? ?
    | |- uniform (Arrays.forOf _ _) => apply uniform_forOf; intros ?
    | |- uniform (Arrays.pushError _) => apply uniform_pushError
    | |- uniform (Arrays.pushWarning _) => apply uniform_pushWarning
    | |- uniform Arrays.skip => apply uniform_skip
    | |- uniform (match ?x with _ => _ end) => destruct x
    | |- uniformly (Eff.bind _ _) => apply uniformly_bind; [| intros ? ]
    | |- uniformly (Eff.when _ _) => apply uniformly_when
    | |- uniformly (Eff.tryCatch _ _) => apply uniformly_tryCatch; [| intros ? ]
    | |- uniformly (Eff.forOf _ _) => apply uniformly_forOf; intros ?
    | |- uniformly (OrderValidation.pushError _) => apply uniformly_pushError
    | |- uniformly (OrderValidation.pushWarning _) =>
        apply uniformly_pushWarning
    | |- uniformly (Eff.ret _) => apply uniformly_ret
    | |- uniformly (Eff.throw _) => apply uniformly_throw
    | |- uniformly (Eff.ofResult _) => apply uniformly_ofResult
    | |- uniformly (match ?x with _ => _ end) => destruct x
    end.

Lemma length_eqb_0 {A} (l : list A) :
  (List.length l =? 0)%nat = false <-> l <> [].
Proof. destruct l; simpl; split; congruence. Qed.

Lemma silent_checkQuantity item index :
  silent (OrderValidationClient.checkQuantity item index)
  <-> Js.le (CartItem.quantity item) 0%float = false.
Proof.
  unfold OrderValidationClient.checkQuantity.
  rewrite silent_andThen by uniform_steps.
  rewrite silent_when_pushError, silent_when_pushWarning. tauto.
Qed.

Lemma silent_client_checkGuest customerInfo address :
  silent (OrderValidationClient.checkGuest customerInfo address)
  <-> Js.blank (CustomerInfo.full_name customerInfo) = false
      /\ Js.blank (CustomerInfo.email customerInfo) = false
      /\ Js.testAnchored OrderValidationClient.emailPattern
           (CustomerInfo.email customerInfo) = true
      /\ Js.blank (CustomerInfo.phone customerInfo) = false
      /\ Js.blank (Address.street_address address) = false
      /\ Js.blank (Address.city address) = false
      /\ Js.blank (Address.province address) = false
      /\ Js.blank (Address.postal_code address) = false.
Proof.
  unfold OrderValidationClient.checkGuest.
  rewrite !silent_andThen by uniform_steps.
  rewrite !silent_when_pushError.
  destruct (Js.blank (CustomerInfo.email customerInfo)).
  - rewrite silent_pushError. intuition discriminate.
  - rewrite silent_when_pushError, negb_false_iff. tauto.
Qed.

Lemma silent_client_checkAuthenticated userId addressId :
  silent (OrderValidationClient.checkAuthenticated userId addressId)
  <-> Js.blank userId = false /\ Js.blank addressId = false.
Proof.
  unfold OrderValidationClient.checkAuthenticated.
  rewrite silent_andThen by uniform_steps.
  rewrite !silent_when_pushError. tauto.
Qed.

(** The statements of the client push no error exactly on the drafts
    that meet what it asks. *)
Lemma silent_client_businessRules (orderData : OrderData) :
  silent (OrderValidationClient.businessRules orderData)
  <-> clientAccepts orderData.
Proof.
  unfold clientAccepts, OrderValidationClient.businessRules.
  assert (Hquantity : forall item index,
            uniform (OrderValidationClient.checkQuantity item index))
    by (intros; unfold OrderValidationClient.checkQuantity; uniform_steps).
  rewrite !silent_andThen
    by (unfold OrderValidationClient.checkGuest,
          OrderValidationClient.checkAuthenticated; uniform_steps; auto).
  rewrite !silent_when_pushError, length_eqb_0, negb_false_iff.
  unfold Arrays.forEach.
  rewrite (silent_forEachFrom _ _
             (fun item => Js.le (CartItem.quantity item) 0%float = false))
    by (auto using silent_checkQuantity).
  destruct (identity orderData) as [customerInfo address | userId addressId].
  - rewrite silent_client_checkGuest. tauto.
  - rewrite silent_client_checkAuthenticated. tauto.
Qed.

(** X12.  [validateOrderClient] answers [isValid: true] exactly for a
    draft whose cart is not empty and holds no quantity that is at most
    0, whose total is not at most 0, whose delivery method is not empty
    and whose buyer is complete: for a guest a name, an email that the
    pattern matches, a phone and the four address fields, none of them
    blank; for a signed-in buyer a user id and an address id. *)
Theorem validateOrderClient_accepts_exactly_the_complete_drafts :
  forall orderData : OrderData,
    isValid (OrderValidationClient.validateOrderClient orderData) = true
    <-> clientAccepts orderData.
Proof.
  intros orderData.
  unfold OrderValidationClient.validateOrderClient,
    OrderValidationClient.validateBusinessRules.
  rewrite run_valid. apply silent_client_businessRules.
Qed.

Lemma passes_ofResult {A B} (r : Js.Result A) (k : A -> Eff.t Arrays.t B) :
  (forall x, uniformly (k x)) ->
  passes (x <- Eff.ofResult r ;; k x)
  <-> exists x, r = inr x /\ passes (k x).
Proof.
  intros Hk. rewrite passes_bind by exact Hk.
  unfold Eff.ofResult. simpl. split.
  - intros (x & Hx & _ & Hp). eauto.
  - intros (x & Hx & Hp). eauto.
Qed.

Section DatabaseAccepts.

Context {runtime : Js.Runtime}.
Variable supabase : OrderValidation.Supabase.

Lemma uniformly_validateDiscountCode code userId orderTotal :
  uniformly
    (OrderValidation.validateDiscountCode supabase code userId orderTotal).
Proof. unfold OrderValidation.validateDiscountCode. uniform_steps. Qed.

Lemma uniformly_checkItem item :
  uniformly (OrderValidation.checkItem supabase item).
Proof. unfold OrderValidation.checkItem. uniform_steps. Qed.

Lemma uniformly_checkCart orderData :
  uniformly (OrderValidation.checkCart supabase orderData).
Proof.
  unfold OrderValidation.checkCart. uniform_steps. apply uniformly_checkItem.
Qed.

Lemma uniformly_checkGuest customerInfo address :
  uniformly (OrderValidation.checkGuest customerInfo address).
Proof. unfold OrderValidation.checkGuest. uniform_steps. Qed.

Lemma uniformly_checkAuthenticated userId addressId :
  uniformly (OrderValidation.checkAuthenticated supabase userId addressId).
Proof. unfold OrderValidation.checkAuthenticated. uniform_steps. Qed.

Lemma uniformly_checkDiscount orderData :
  uniformly (OrderValidation.checkDiscount supabase orderData).
Proof.
  unfold OrderValidation.checkDiscount. uniform_steps.
  apply uniformly_validateDiscountCode.
Qed.

Lemma uniformly_checkAmounts orderData :
  uniformly (OrderValidation.checkAmounts orderData).
Proof. unfold OrderValidation.checkAmounts. uniform_steps. Qed.

Lemma passes_checkDeliveryMethod orderData :
  passes (OrderValidation.checkDeliveryMethod orderData)
  <-> Js.includes OrderValidation.validDeliveryMethods
        (deliveryMethod orderData) = true.
Proof.
  unfold OrderValidation.checkDeliveryMethod.
  now rewrite passes_when_pushError, negb_false_iff.
Qed.

Lemma passes_checkItem item :
  passes (OrderValidation.checkItem supabase item)
  <-> itemAccepted supabase item.
Proof.
  unfold OrderValidation.checkItem, itemAccepted.
  rewrite passes_ofResult by (intros; uniform_steps).
  split.
  - intros ([data err] & Hsel & Hp). simpl in Hp.
    destruct err as [msg |]; destruct data as [product |];
      try (apply passes_pushError in Hp; contradiction).
    exists product. rewrite Hsel. split; [ reflexivity |].
    rewrite !passes_seq in Hp by uniform_steps.
    rewrite !passes_when_pushError, passes_when_pushWarning, negb_false_iff
      in Hp.
    destruct Hp as (Havailable & Hstock & _ & Hquantity).
    repeat split; auto.
    now destruct (OrderValidation.Product.stock_quantity product).
  - intros (product & Hsel & Havailable & Hstock & Hquantity).
    exists (OrderValidation.Response.make (Some product) None).
    split; [ exact Hsel |]. simpl.
    rewrite !passes_seq by uniform_steps.
    rewrite !passes_when_pushError, passes_when_pushWarning, negb_false_iff.
    repeat split; auto.
    now destruct (OrderValidation.Product.stock_quantity product).
Qed.

Lemma passes_checkCart orderData :
  passes (OrderValidation.checkCart supabase orderData)
  <-> cartItems orderData <> []
      /\ Forall (itemAccepted supabase) (cartItems orderData).
Proof.
  unfold OrderValidation.checkCart.
  destruct (List.length (cartItems orderData) =? 0)%nat eqn:Hlength.
  - rewrite passes_pushError.
    apply Nat.eqb_eq, length_zero_iff_nil in Hlength. tauto.
  - apply length_eqb_0 in Hlength.
    rewrite (passes_forOf _ _ (itemAccepted supabase))
      by auto using uniformly_checkItem, passes_checkItem.
    tauto.
Qed.

Lemma passes_checkGuest customerInfo address :
  passes (OrderValidation.checkGuest customerInfo address)
  <-> identityAccepted supabase (Guest customerInfo address).
Proof.
  unfold OrderValidation.checkGuest, identityAccepted.
  rewrite !passes_seq by uniform_steps.
  rewrite !passes_when_pushError.
  destruct (Js.blank (CustomerInfo.email customerInfo)).
  - rewrite passes_pushError. intuition discriminate.
  - rewrite passes_when_pushError, negb_false_iff. tauto.
Qed.

Lemma passes_checkAuthenticated userId addressId :
  passes (OrderValidation.checkAuthenticated supabase userId addressId)
  <-> identityAccepted supabase (Authenticated userId addressId).
Proof.
  unfold OrderValidation.checkAuthenticated, identityAccepted.
  rewrite passes_ofResult by (intros; uniform_steps).
  split.
  - intros (user & Huser & Hp).
    rewrite passes_seq in Hp by uniform_steps.
    destruct Hp as [Hid Hp]. apply passes_when_pushError in Hid.
    destruct user as [id |]; [| discriminate ].
    apply negb_false_iff, String.eqb_eq in Hid. subst id.
    split; [ exact Huser |].
    apply passes_ofResult in Hp; [| intros; uniform_steps ].
    destruct Hp as ([data err] & Hsel & Hp). simpl in Hp.
    apply passes_when_pushError in Hp.
    destruct err; destruct data as [row |]; try discriminate.
    now exists row.
  - intros (Huser & row & Hsel). exists (Some userId).
    split; [ exact Huser |].
    rewrite passes_seq by uniform_steps. split.
    + apply passes_when_pushError. now rewrite String.eqb_refl.
    + apply passes_ofResult; [ intros; uniform_steps |].
      exists (OrderValidation.Response.make (Some row) None).
      split; [ exact Hsel |].
      now apply passes_when_pushError.
Qed.

(** [validateDiscountCode] returns, and the code is valid only when the
    database function resolved without an error and said so. *)
Lemma validateDiscountCode_outcome code userId orderTotal (a : Arrays.t) :
  exists discountValidation,
    OrderValidation.validateDiscountCode supabase code userId orderTotal a
    = (inr discountValidation, a)
    /\ (OrderValidation.DiscountValidation.isValid discountValidation = true
        <-> exists reply,
              OrderValidation.rpcValidateDiscountCode supabase code userId
                orderTotal
              = inr (OrderValidation.Response.make (Some reply) None)
              /\ OrderValidation.DiscountReply.valid reply = true).
Proof.
  unfold OrderValidation.validateDiscountCode, Eff.tryCatch, Eff.bind,
    Eff.ofResult.
  destruct (OrderValidation.rpcValidateDiscountCode supabase code userId
              orderTotal) as [e | [data err]]; simpl.
  - eexists. split; [ reflexivity |]. simpl. split; [ discriminate |].
    intros (reply & H & _). discriminate.
  - destruct err as [msg |]; simpl.
    + eexists. split; [ reflexivity |]. simpl. split; [ discriminate |].
      intros (reply & H & _). discriminate.
    + destruct data as [reply |]; simpl.
      * eexists. split; [ reflexivity |]. simpl. split.
        -- intros H. now exists reply.
        -- intros (reply' & H & Hvalid). injection H as <-. exact Hvalid.
      * eexists. split; [ reflexivity |]. simpl. split; [ discriminate |].
        intros (reply & H & _). discriminate.
Qed.

Lemma passes_checkDiscount orderData :
  passes (OrderValidation.checkDiscount supabase orderData)
  <-> discountAccepted supabase orderData.
Proof.
  unfold OrderValidation.checkDiscount, discountAccepted.
  destruct (discountCode orderData) as [code |];
    [| now rewrite passes_ret ].
  destruct (Js.truthy code);
    [| rewrite passes_ret; split; [ discriminate | tauto ] ].
  rewrite passes_bind by (intros; uniform_steps).
  destruct (validateDiscountCode_outcome code (userIdOf orderData)
              (subtotal orderData) Arrays.empty)
    as (discountValidation & -> & Hvalid).
  simpl. split.
  - intros (x & Hx & _ & Hp) _. injection Hx as <-.
    apply passes_when_pushError, negb_false_iff in Hp. now apply Hvalid.
  - intros H. exists discountValidation.
    split; [ reflexivity | split; [ reflexivity |] ].
    apply passes_when_pushError, negb_false_iff. apply Hvalid. now apply H.
Qed.

Lemma passes_checkAmounts orderData :
  passes (OrderValidation.checkAmounts orderData)
  <-> amountsAccepted orderData.
Proof.
  unfold OrderValidation.checkAmounts, amountsAccepted.
  rewrite !passes_seq by uniform_steps.
  now rewrite !passes_when_pushError.
Qed.

Lemma passes_constraintChecks orderData :
  passes (OrderValidation.constraintChecks supabase orderData)
  <-> databaseAccepts supabase orderData.
Proof.
  unfold OrderValidation.constraintChecks, databaseAccepts.
  assert (Hidentity :
            uniformly
              match identity orderData with
              | Guest customerInfo address =>
                  OrderValidation.checkGuest customerInfo address
              | Authenticated userId addressId =>
                  OrderValidation.checkAuthenticated supabase userId addressId
              end)
    by (destruct (identity orderData);
        auto using uniformly_checkGuest, uniformly_checkAuthenticated).
  rewrite !passes_seq
    by (repeat match goal with
               | |- uniformly (Eff.bind _ _) =>
                   apply uniformly_bind; [| intros ? ]
               end;
        auto using uniformly_checkCart, uniformly_checkDiscount,
          uniformly_checkAmounts).
  rewrite passes_checkDeliveryMethod, passes_checkCart, passes_checkDiscount,
    passes_checkAmounts.
  destruct (identity orderData) as [customerInfo address | userId addressId].
  - rewrite passes_checkGuest. tauto.
  - rewrite passes_checkAuthenticated. tauto.
Qed.

(** The result is valid exactly when the [try] block ran to its end
    without a push on [errors]. *)
Lemma databaseArrays_valid orderData :
  isValid (Arrays.result (databaseArrays supabase orderData)) = true
  <-> databaseAccepts supabase orderData.
Proof.
  rewrite <- passes_constraintChecks.
  unfold databaseArrays, passes, Eff.tryCatch, Arrays.result. simpl.
  rewrite Nat.eqb_eq, length_zero_iff_nil.
  destruct (OrderValidation.constraintChecks supabase orderData Arrays.empty)
    as [[e | []] a]; simpl.
  - split.
    + intros H. now apply app_eq_nil in H.
    + intros [[x Hx] _]. discriminate.
  - split; [ eauto | tauto ].
Qed.

Lemma silent_server_businessRules orderData :
  silent (OrderValidation.businessRules orderData)
  <-> businessAccepts orderData.
Proof.
  unfold OrderValidation.businessRules, businessAccepts.
  assert (Hmax : forall item, uniform (OrderValidation.checkMaxQuantity item))
    by (intros; unfold OrderValidation.checkMaxQuantity; uniform_steps).
  rewrite !silent_andThen by (uniform_steps; auto).
  rewrite silent_when_pushError, silent_when_pushWarning.
  rewrite (silent_forOf _ _
             (fun item =>
                Js.gt (CartItem.quantity item)
                  OrderValidation.maxQuantityPerItem = false)).
  - tauto.
  - exact Hmax.
  - intros item. unfold OrderValidation.checkMaxQuantity.
    apply silent_when_pushError.
Qed.

End DatabaseAccepts.

(** X13.  [validateOrder] answers [isValid: true] exactly when no remote
    call failed and every check passed: the delivery method is one of
    standard, express and collection; the cart is not empty and each of
    its products is found, available and in stock, in a quantity that is
    positive and at most 10; the buyer is a guest with a name, an email
    the pattern matches and an address, or the signed-in user with an
    address of theirs; a discount code, if there is one, is accepted by
    the database; the total is positive, at most 10000 and within 0.01
    of subtotal plus fee minus discount; the fee is not negative. *)
Theorem validateOrder_accepts_exactly_the_checked_orders :
  forall (runtime : Js.Runtime) (supabase : OrderValidation.Supabase)
         (orderData : OrderData),
  exists result,
    OrderValidation.validateOrder supabase orderData = inr result
    /\ (isValid result = true
        <-> databaseAccepts supabase orderData /\ businessAccepts orderData)
    /\ (isValid result = true <-> errors result = []).
Proof.
  intros runtime supabase orderData.
  unfold OrderValidation.validateOrder.
  rewrite validateDatabaseConstraints_returns.
  eexists. split; [ reflexivity |].
  cbn [isValid errors]. rewrite andb_true_iff.
  split.
  - rewrite databaseArrays_valid.
    unfold OrderValidation.validateBusinessRules.
    now rewrite run_valid, silent_server_businessRules.
  - unfold OrderValidation.validateBusinessRules, Arrays.run, Arrays.result.
    cbn [isValid errors]. rewrite !Nat.eqb_eq, !length_zero_iff_nil.
    split.
    + intros [-> ->]. reflexivity.
    + intros H. now apply app_eq_nil in H.
Qed.

(** A draft that [validateOrder] accepts. *)
Lemma standardGuestOrder_accepted :
  databaseAccepts Examples.stockedSupabase Examples.standardGuestOrder
  /\ businessAccepts Examples.standardGuestOrder.
Proof.
  unfold databaseAccepts, businessAccepts, identityAccepted, discountAccepted,
    amountsAccepted.
  repeat split; try reflexivity; try discriminate.
  - repeat constructor. eexists. split; [ reflexivity |].
    repeat split; reflexivity.
  - intros _. eexists. split; reflexivity.
  - repeat constructor.
Qed.

(** *** The delivery method *)

Section DeliveryMethod.

Context {runtime : Js.Runtime}.
Variable supabase : OrderValidation.Supabase.

(** No statement after the first pushes the error on the delivery
    method. *)
Lemma emits_after_delivery orderData :
  emits otherCode
    (Eff.tryCatch
       (OrderValidation.checkCart supabase orderData ;;
        match identity orderData with
        | Guest customerInfo address =>
            OrderValidation.checkGuest customerInfo address
        | Authenticated userId addressId =>
            OrderValidation.checkAuthenticated supabase userId addressId
        end ;;
        OrderValidation.checkDiscount supabase orderData ;;
        OrderValidation.checkAmounts orderData)
       (fun _ => OrderValidation.pushError OrderValidation.validationError)).
Proof.
  unfold OrderValidation.checkCart, OrderValidation.checkItem,
    OrderValidation.checkGuest, OrderValidation.checkAuthenticated,
    OrderValidation.checkDiscount, OrderValidation.checkAmounts,
    OrderValidation.totalCalculationError, OrderValidation.validationError.
  appends_steps; try apply emits_validateDiscountCode;
    unfold otherCode; cbn; discriminate.
Qed.

Lemma appends_business_other orderData :
  appends otherCode (OrderValidation.businessRules orderData).
Proof.
  unfold OrderValidation.businessRules, OrderValidation.checkMaxQuantity.
  appends_steps; unfold otherCode; cbn; discriminate.
Qed.

(** The [try] block after its first statement. *)
Lemma databaseArrays_after_delivery orderData :
  databaseArrays supabase orderData
  = snd (Eff.tryCatch
           (OrderValidation.checkCart supabase orderData ;;
            match identity orderData with
            | Guest customerInfo address =>
                OrderValidation.checkGuest customerInfo address
            | Authenticated userId addressId =>
                OrderValidation.checkAuthenticated supabase userId addressId
            end ;;
            OrderValidation.checkDiscount supabase orderData ;;
            OrderValidation.checkAmounts orderData)
           (fun _ => OrderValidation.pushError OrderValidation.validationError)
           (snd (OrderValidation.checkDeliveryMethod orderData Arrays.empty))).
Proof.
  unfold databaseArrays, OrderValidation.constraintChecks.
  unfold Eff.tryCatch.
  rewrite (bind_returned _ _ _ tt) by apply checkDeliveryMethod_returns.
  reflexivity.
Qed.

End DeliveryMethod.

(** X14.  [validateOrder] reports [INVALID_DELIVERY_METHOD] exactly when
    the delivery method is not one of standard, express and collection.
    The error is then the first of the list, with the three methods in
    its message, and the order is not valid, whatever the database
    answers and whether a remote call fails or not. *)
Theorem validateOrder_reports_an_unlisted_delivery_method_first :
  forall (runtime : Js.Runtime) (supabase : OrderValidation.Supabase)
         (orderData : OrderData),
  exists result,
    OrderValidation.validateOrder supabase orderData = inr result
    /\ (Js.includes OrderValidation.validDeliveryMethods
          (deliveryMethod orderData) = false ->
        isValid result = false
        /\ exists rest, errors result = deliveryMethodError :: rest)
    /\ (Js.includes OrderValidation.validDeliveryMethods
          (deliveryMethod orderData) = true ->
        ~ hasCode "INVALID_DELIVERY_METHOD" (errors result)).
Proof.
  intros runtime supabase orderData.
  unfold OrderValidation.validateOrder.
  rewrite validateDatabaseConstraints_returns.
  eexists. split; [ reflexivity |].
  cbn [isValid errors Arrays.result].
  rewrite databaseArrays_after_delivery.
  destruct (emits_after_delivery supabase orderData
              (snd (OrderValidation.checkDeliveryMethod orderData
                      Arrays.empty)))
    as (es & ws & -> & Hes).
  unfold OrderValidation.checkDeliveryMethod.
  split; intros ->; cbn.
  - split; [ reflexivity |]. eexists. reflexivity.
  - intros (e & Hin & Hcode).
    apply in_app_or in Hin. destruct Hin as [Hin | Hin].
    + rewrite Forall_forall in Hes. now apply (Hes e).
    + pose proof (appends_Forall _ _ Arrays.empty
                    (appends_business_other orderData)
                    (Forall_nil _)) as Hbusiness.
      rewrite Forall_forall in Hbusiness. now apply (Hbusiness e).
Qed.

(** *** The guest cart *)

Section FindIndex.

Context {A : Type}.
Variable p : A -> bool.

Lemma findIndexFrom_cases (l : list A) :
  forall i,
    (GuestCheckout.findIndexFrom i p l = (-1)%Z
     /\ forall y, In y l -> p y = false)
    \/ exists before x after,
         l = before ++ x :: after
         /\ (forall y, In y before -> p y = false)
         /\ p x = true
         /\ GuestCheckout.findIndexFrom i p l
            = (i + Z.of_nat (List.length before))%Z.
Proof.
  induction l as [| x l IH]; intros i; simpl.
  - left. split; [ reflexivity | tauto ].
  - destruct (p x) eqn:Hx.
    + right. exists [], x, l. simpl. rewrite Z.add_0_r. repeat split; tauto.
    + destruct (IH (i + 1)%Z) as [[Hnone Hall] | (b & y & a & -> & Hb & Hy & Hi)].
      * left. split; [ exact Hnone |]. intros y [<- | Hin]; auto.
      * right. exists (x :: b), y, a. simpl. repeat split; auto.
        -- intros z [<- | Hin]; auto.
        -- rewrite Hi. lia.
Qed.

Lemma findIndex_cases (l : list A) :
  (GuestCheckout.findIndex p l = (-1)%Z
   /\ forall y, In y l -> p y = false)
  \/ exists before x after,
       l = before ++ x :: after
       /\ (forall y, In y before -> p y = false)
       /\ p x = true
       /\ GuestCheckout.findIndex p l = Z.of_nat (List.length before).
Proof. apply (findIndexFrom_cases l 0%Z). Qed.

(** The first element that satisfies [p] is unique. *)
Lemma first_match_unique (b b' a a' : list A) x x' :
  b ++ x :: a = b' ++ x' :: a' ->
  (forall y, In y b -> p y = false) -> p x = true ->
  (forall y, In y b' -> p y = false) -> p x' = true ->
  b = b' /\ x = x' /\ a = a'.
Proof.
  revert b'. induction b as [| y b IH]; intros [| y' b'] E Hb Hx Hb' Hx';
    simpl in E; injection E as E1 E2; subst.
  - auto.
  - rewrite (Hb' y') in Hx; [ discriminate | now left ].
  - rewrite (Hb x') in Hx'; [ discriminate | now left ].
  - destruct (IH b' E2) as (-> & -> & ->); auto.
    + intros z Hz. apply Hb. now right.
    + intros z Hz. apply Hb'. now right.
Qed.

Lemma modifyNth_at (f : A -> A) (before : list A) x after :
  GuestCheckout.modifyNth (List.length before) f (before ++ x :: after)
  = Some (before ++ f x :: after).
Proof.
  induction before as [| y before IH]; simpl.
  - reflexivity.
  - now rewrite IH.
Qed.

Lemma modifyAt_at (f : A -> A) (before : list A) x after :
  GuestCheckout.modifyAt (Z.of_nat (List.length before)) f
    (before ++ x :: after)
  = inr (before ++ f x :: after).
Proof.
  unfold GuestCheckout.modifyAt.
  destruct (Z.ltb_spec (Z.of_nat (List.length before)) 0); [ lia |].
  now rewrite Nat2Z.id, modifyNth_at.
Qed.

Lemma spliceOne_at (before : list A) x after :
  GuestCheckout.spliceOne (Z.of_nat (List.length before))
    (before ++ x :: after)
  = before ++ after.
Proof.
  unfold GuestCheckout.spliceOne.
  destruct (Z.ltb_spec (Z.of_nat (List.length before)) 0); [ lia |].
  rewrite Z.min_l by (rewrite length_app; lia). rewrite Nat2Z.id.
  induction before as [| y before IH]; simpl.
  - reflexivity.
  - f_equal. apply IH. lia.
Qed.

End FindIndex.

Lemma lookup_without_same key entries :
  GuestCheckout.lookup key (GuestCheckout.without key entries) = None.
Proof.
  induction entries as [| [k v] entries IH]; simpl; auto.
  destruct (String.eqb_spec k key) as [-> | Hk]; simpl; auto.
  destruct (String.eqb_spec k key); [ contradiction | exact IH ].
Qed.

Lemma lookup_without_other key k entries :
  key <> k ->
  GuestCheckout.lookup key (GuestCheckout.without k entries)
  = GuestCheckout.lookup key entries.
Proof.
  intros Hne. induction entries as [| [k' v] entries IH]; simpl; auto.
  destruct (String.eqb_spec k' k) as [-> | Hk]; simpl.
  - destruct (String.eqb_spec k key); [ congruence | exact IH ].
  - now rewrite IH.
Qed.

(** Unfolds the operations on the storage down to the pairs of an
    outcome and a world. *)
Ltac unfold_storage :=
  unfold GuestCheckout.getItem, GuestCheckout.setItem,
    GuestCheckout.removeStored, GuestCheckout.access,
    GuestCheckout.consoleError, Eff.tryCatch, Eff.bind, Eff.get,
    Eff.update, Eff.throw, Eff.ofResult, Eff.ret.

Section GuestCart.

Context {cartJson : GuestCheckout.Json (list GuestCheckout.GuestCartItem.t)}.
Variable host : GuestCheckout.Host.

Lemma getCart_returns w :
  GuestCheckout.getCart host w = (inr (cartIn host w), w).
Proof.
  unfold cartIn, GuestCheckout.getCart. unfold_storage.
  destruct (GuestCheckout.hasWindow host); simpl; auto.
  destruct (GuestCheckout.storageBlocked host); simpl; auto.
  destruct (GuestCheckout.lookup _ _) as [text |]; simpl; auto.
  destruct (Js.truthy text); simpl; auto.
  destruct (GuestCheckout.parse text); reflexivity.
Qed.

(** A cart that is not empty was parsed from the entry of the storage. *)
Lemma cartIn_inhabited w :
  cartIn host w <> [] ->
  storageOpen host
  /\ exists text,
       GuestCheckout.lookup GuestCheckout.GUEST_CART_KEY
         (GuestCheckout.localStorage w) = Some text
       /\ GuestCheckout.parse text = inr (cartIn host w).
Proof.
  unfold cartIn, GuestCheckout.getCart, storageOpen. unfold_storage.
  destruct (GuestCheckout.hasWindow host); simpl; [| congruence ].
  destruct (GuestCheckout.storageBlocked host); simpl; [ congruence |].
  destruct (GuestCheckout.lookup _ _) as [text |]; simpl; [| congruence ].
  destruct (Js.truthy text); simpl; [| congruence ].
  destruct (GuestCheckout.parse text) eqn:Hparse; simpl; [ congruence |].
  intros _. split; [ auto |]. exists text. auto.
Qed.

Lemma cartIn_stored w text cart :
  storageOpen host ->
  GuestCheckout.lookup GuestCheckout.GUEST_CART_KEY
    (GuestCheckout.localStorage w) = Some text ->
  text <> "" ->
  GuestCheckout.parse text = inr cart ->
  cartIn host w = cart.
Proof.
  intros [Hwindow Hopen] Hlookup Htext Hparse.
  unfold cartIn, GuestCheckout.getCart. unfold_storage.
  rewrite Hwindow, Hopen. simpl. rewrite Hlookup.
  unfold Js.truthy. destruct (String.eqb_spec text ""); [ contradiction |].
  simpl. now rewrite Hparse.
Qed.

(** [getCart] looks at nothing but the storage. *)
Lemma cartIn_same_storage w w' :
  GuestCheckout.localStorage w = GuestCheckout.localStorage w' ->
  cartIn host w = cartIn host w'.
Proof.
  intros H. unfold cartIn, GuestCheckout.getCart. unfold_storage.
  destruct (GuestCheckout.hasWindow host); simpl; auto.
  destruct (GuestCheckout.storageBlocked host); simpl; auto.
  rewrite H. clear H.
  destruct (GuestCheckout.lookup _ _) as [text |]; simpl; auto.
  destruct (Js.truthy text); simpl; auto.
  destruct (GuestCheckout.parse text); reflexivity.
Qed.

Lemma cartIn_withCart cart w :
  storageOpen host -> roundTrips cart ->
  cartIn host (withCart cart w) = cart.
Proof.
  intros Hopen [Hparse Htext].
  apply (cartIn_stored _ (GuestCheckout.stringify cart)); auto.
Qed.

Lemma lookup_withCart_other cart w key :
  key <> GuestCheckout.GUEST_CART_KEY ->
  GuestCheckout.lookup key (GuestCheckout.localStorage (withCart cart w))
  = GuestCheckout.lookup key (GuestCheckout.localStorage w).
Proof.
  intros Hkey. unfold withCart, GuestCheckout.setEntries.
  cbn [GuestCheckout.localStorage GuestCheckout.lookup].
  destruct (String.eqb_spec GuestCheckout.GUEST_CART_KEY key);
    [ congruence |].
  now apply lookup_without_other.
Qed.

Lemma saveCart_server cart w :
  GuestCheckout.hasWindow host = false ->
  GuestCheckout.saveCart host cart w = (inr tt, w).
Proof. unfold GuestCheckout.saveCart. now intros ->. Qed.

Lemma saveCart_stores cart w :
  storageOpen host -> fits host w cart ->
  GuestCheckout.saveCart host cart w = (inr tt, withCart cart w).
Proof.
  intros [Hwindow Hopen] Hfits.
  unfold GuestCheckout.saveCart, withCart. unfold_storage.
  rewrite Hwindow, Hopen. simpl. unfold fits in Hfits. now rewrite Hfits.
Qed.

Lemma saveCart_fails cart w :
  GuestCheckout.hasWindow host = true ->
  ~ (storageOpen host /\ fits host w cart) ->
  GuestCheckout.saveCart host cart w
  = (inr tt, withLine "Failed to save guest cart:" w).
Proof.
  intros Hwindow Hfails.
  unfold GuestCheckout.saveCart. unfold_storage. rewrite Hwindow. simpl.
  destruct (GuestCheckout.storageBlocked host) eqn:Hblocked; simpl;
    [ reflexivity |].
  destruct (GuestCheckout.hasRoom host _ _ _) eqn:Hroom; simpl;
    [| reflexivity ].
  destruct Hfails. unfold storageOpen, fits. auto.
Qed.

(** [saveCart] returns, and leaves the world, stores the cart or writes
    a line to the console. *)
Lemma saveCart_cases cart w :
  GuestCheckout.saveCart host cart w = (inr tt, w)
  \/ (storageOpen host /\ fits host w cart
      /\ GuestCheckout.saveCart host cart w = (inr tt, withCart cart w))
  \/ GuestCheckout.saveCart host cart w
     = (inr tt, withLine "Failed to save guest cart:" w).
Proof.
  unfold GuestCheckout.saveCart, storageOpen, fits, withCart. unfold_storage.
  destruct (GuestCheckout.hasWindow host); simpl; auto.
  destruct (GuestCheckout.storageBlocked host); simpl; auto.
  destruct (GuestCheckout.hasRoom host _ _ _); simpl; auto.
Qed.

End GuestCart.

(** X15.  [getCart] never throws and changes nothing.  The cart it
    returns is empty unless there is a window, the storage can be read,
    and the entry [caarl_guest_cart] holds a text that parses to the
    cart: on the server, with a blocked storage, without the entry and
    with a text that does not parse the cart is empty. *)
Theorem getCart_returns_the_stored_cart_or_nothing :
  forall (cartJson : GuestCheckout.Json (list GuestCheckout.GuestCartItem.t))
         (host : GuestCheckout.Host) (w : GuestCheckout.World),
  exists cart,
    GuestCheckout.getCart host w = (inr cart, w)
    /\ (cart <> [] ->
        storageOpen host
        /\ exists text,
             GuestCheckout.lookup GuestCheckout.GUEST_CART_KEY
               (GuestCheckout.localStorage w) = Some text
             /\ GuestCheckout.parse text = inr cart).
Proof.
  intros cartJson host w. exists (cartIn host w).
  split; [ apply getCart_returns | apply cartIn_inhabited ].
Qed.

(** X16.  When the storage is open and has room, and the text of the
    cart parses back to the cart, [getCart] after [saveCart] returns the
    cart that was saved; the other entries of the storage and the
    console are as they were. *)
Theorem getCart_after_saveCart :
  forall (cartJson : GuestCheckout.Json (list GuestCheckout.GuestCartItem.t))
         (host : GuestCheckout.Host)
         (cart : list GuestCheckout.GuestCartItem.t)
         (w : GuestCheckout.World),
    storageOpen host -> fits host w cart -> roundTrips cart ->
    let w' := snd (GuestCheckout.saveCart host cart w) in
    fst (GuestCheckout.saveCart host cart w) = inr tt
    /\ GuestCheckout.getCart host w' = (inr cart, w')
    /\ (forall key,
          key <> GuestCheckout.GUEST_CART_KEY ->
          GuestCheckout.lookup key (GuestCheckout.localStorage w')
          = GuestCheckout.lookup key (GuestCheckout.localStorage w))
    /\ GuestCheckout.console w' = GuestCheckout.console w.
Proof.
  intros cartJson host cart w Hopen Hfits Hround. cbv zeta.
  rewrite saveCart_stores by assumption. cbn [fst snd].
  split; [ reflexivity |]. split; [| split; [| reflexivity ] ].
  - rewrite getCart_returns. now rewrite cartIn_withCart.
  - intros key Hkey. now apply lookup_withCart_other.
Qed.

Lemma getCart_after_saveCart_witness :
  let w' :=
    snd (GuestCheckout.saveCart (cartJson := Examples.cartJson)
           Examples.browser [Examples.dress] Examples.emptyStorage) in
  fst (GuestCheckout.saveCart (cartJson := Examples.cartJson)
         Examples.browser [Examples.dress] Examples.emptyStorage) = inr tt
  /\ GuestCheckout.getCart (cartJson := Examples.cartJson) Examples.browser w'
     = (inr [Examples.dress], w')
  /\ (forall key,
        key <> GuestCheckout.GUEST_CART_KEY ->
        GuestCheckout.lookup key (GuestCheckout.localStorage w')
        = GuestCheckout.lookup key
            (GuestCheckout.localStorage Examples.emptyStorage))
  /\ GuestCheckout.console w'
     = GuestCheckout.console Examples.emptyStorage.
Proof.
  apply (getCart_after_saveCart Examples.cartJson Examples.browser
           [Examples.dress] Examples.emptyStorage).
  - split; reflexivity.
  - reflexivity.
  - split; [ reflexivity | discriminate ].
Defined.

Section CartOperations.

Context {cartJson : GuestCheckout.Json (list GuestCheckout.GuestCartItem.t)}.
Variable host : GuestCheckout.Host.

Lemma bind_getCart {B}
  (k : list GuestCheckout.GuestCartItem.t -> Eff.t GuestCheckout.World B) w :
  Eff.bind (GuestCheckout.getCart host) k w = k (cartIn host w) w.
Proof. unfold Eff.bind. now rewrite getCart_returns. Qed.

Lemma saveCart_returns cart w :
  fst (GuestCheckout.saveCart host cart w) = inr tt.
Proof.
  destruct (saveCart_cases host cart w) as [-> | [(_ & _ & ->) | ->]];
    reflexivity.
Qed.

(** After a call that is a [saveCart], [getCart] returns the saved cart
    when the storage takes it. *)
Lemma getCart_after_save cart w :
  storageOpen host -> fits host w cart -> roundTrips cart ->
  GuestCheckout.getCart host (snd (GuestCheckout.saveCart host cart w))
  = (inr cart, snd (GuestCheckout.saveCart host cart w)).
Proof.
  intros Hopen Hfits Hround. rewrite saveCart_stores by assumption.
  cbn [snd]. rewrite getCart_returns. now rewrite cartIn_withCart.
Qed.

Lemma sameVariant_variant item line :
  GuestCheckout.sameVariant item line = true
  <-> variant line = variantOf item.
Proof.
  unfold GuestCheckout.sameVariant, variant, variantOf.
  rewrite !andb_true_iff, !String.eqb_eq. split.
  - intros [[-> ->] ->]. reflexivity.
  - intros H. injection H as -> -> ->. auto.
Qed.

Lemma addItem_saves item w :
  exists cart',
    mergedInto host item (cartIn host w) cart'
    /\ GuestCheckout.addItem host item w
       = GuestCheckout.saveCart host cart' w.
Proof.
  unfold GuestCheckout.addItem. rewrite bind_getCart.
  destruct (findIndex_cases (GuestCheckout.sameVariant item) (cartIn host w))
    as [[Hindex Hnone] | (before & found & after & Hcart & Hbefore & Hfound
                          & Hindex)];
    rewrite Hindex.
  - exists (cartIn host w ++ [GuestCheckout.newItem host item]). split.
    + split; [ reflexivity |].
      intros b f a Hcart _ Hf. rewrite Hnone in Hf; [ discriminate |].
      rewrite Hcart. apply in_or_app. right. now left.
    + reflexivity.
  - destruct (Z.leb_spec 0 (Z.of_nat (List.length before))); [| lia ].
    rewrite Hcart, modifyAt_at.
    eexists. split; [| reflexivity ]. split.
    + intros Hnone. rewrite Hnone in Hfound; [ discriminate |].
      apply in_or_app. right. now left.
    + intros b f a E Hb Hf.
      destruct (first_match_unique (GuestCheckout.sameVariant item)
                  before b after a found f E)
        as (-> & -> & ->); auto.
Qed.

Lemma removeItem_saves itemId w :
  GuestCheckout.removeItem host itemId w
  = GuestCheckout.saveCart host
      (filter (fun item => negb (GuestCheckout.hasId itemId item))
         (cartIn host w))
      w.
Proof. unfold GuestCheckout.removeItem. now rewrite bind_getCart. Qed.

Lemma updateQuantity_unknown itemId quantity w :
  (forall line, In line (cartIn host w) ->
                GuestCheckout.hasId itemId line = false) ->
  GuestCheckout.updateQuantity host itemId quantity w = (inr tt, w).
Proof.
  intros Hnone. unfold GuestCheckout.updateQuantity. rewrite bind_getCart.
  destruct (findIndex_cases (GuestCheckout.hasId itemId) (cartIn host w))
    as [[-> _] | (before & found & after & Hcart & _ & Hfound & _)].
  - reflexivity.
  - rewrite Hnone in Hfound; [ discriminate |].
    rewrite Hcart. apply in_or_app. right. now left.
Qed.

Lemma updateQuantity_saves itemId quantity w before found after :
  cartIn host w = before ++ found :: after ->
  (forall line, In line before -> GuestCheckout.hasId itemId line = false) ->
  GuestCheckout.hasId itemId found = true ->
  GuestCheckout.updateQuantity host itemId quantity w
  = GuestCheckout.saveCart host (requantified quantity before found after) w.
Proof.
  intros Hcart Hbefore Hfound.
  unfold GuestCheckout.updateQuantity. rewrite bind_getCart.
  destruct (findIndex_cases (GuestCheckout.hasId itemId) (cartIn host w))
    as [[_ Hnone] | (b & f & a & E & Hb & Hf & ->)].
  - rewrite Hnone in Hfound; [ discriminate |].
    rewrite Hcart. apply in_or_app. right. now left.
  - rewrite Hcart in E.
    destruct (first_match_unique (GuestCheckout.hasId itemId)
                before b after a found f E)
      as (<- & <- & <-); auto.
    destruct (Z.leb_spec 0 (Z.of_nat (List.length before))); [| lia ].
    rewrite Hcart. unfold requantified.
    destruct (Js.le quantity 0%float).
    + now rewrite spliceOne_at.
    + now rewrite modifyAt_at.
Qed.

(** In a cart whose ids are distinct the only line with an id is the
    first one. *)
Lemma filter_distinct itemId before found after :
  NoDup (ids (before ++ found :: after)) ->
  (forall line, In line before -> GuestCheckout.hasId itemId line = false) ->
  GuestCheckout.hasId itemId found = true ->
  filter (fun item => negb (GuestCheckout.hasId itemId item))
    (before ++ found :: after)
  = before ++ after.
Proof.
  intros Hdistinct Hbefore Hfound.
  rewrite filter_app. simpl. rewrite Hfound. simpl. f_equal.
  - clear Hdistinct. induction before as [| x before IH]; simpl; auto.
    rewrite (Hbefore x) by now left. simpl. f_equal.
    apply IH. intros line Hin. apply Hbefore. now right.
  - unfold ids in Hdistinct. rewrite map_app in Hdistinct. simpl in Hdistinct.
    apply NoDup_remove_2 in Hdistinct.
    apply String.eqb_eq in Hfound.
    assert (Hafter : forall line, In line after ->
                       GuestCheckout.hasId itemId line = false).
    { intros line Hin. unfold GuestCheckout.hasId.
      destruct (String.eqb_spec (GuestCheckout.GuestCartItem.id line) itemId)
        as [Hid |]; auto.
      destruct Hdistinct. apply in_or_app. right.
      rewrite Hfound, <- Hid. now apply in_map. }
    clear Hdistinct. induction after as [| x after IH]; simpl; auto.
    rewrite (Hafter x) by now left. simpl. f_equal.
    apply IH. intros line Hin. apply Hafter. now right.
Qed.

End CartOperations.

(** X17.  On a storage whose cart entry, if any, is empty, is refused
    by [JSON.parse] or was written by [saveCart], [addItem] does not
    throw.  It saves the cart it read
    with the quantity of the item added to the first line that has its
    product, size and color, the other lines as they were; when no line
    has them, with a new line for the item at the end, under the id
    built from [Date.now()] and [Math.random()].  When the storage
    takes the new cart, [getCart] returns it afterwards. *)
Theorem addItem_adds_to_the_line_of_the_variant_or_appends :
  forall (cartJson : GuestCheckout.Json (list GuestCheckout.GuestCartItem.t))
         (host : GuestCheckout.Host) (item : GuestCheckout.NewItem.t)
         (w : GuestCheckout.World),
    wellStored w ->
    exists cart',
      let w' := snd (GuestCheckout.addItem host item w) in
      mergedInto host item (cartIn host w) cart'
      /\ fst (GuestCheckout.addItem host item w) = inr tt
      /\ GuestCheckout.addItem host item w
         = GuestCheckout.saveCart host cart' w
      /\ (storageOpen host -> fits host w cart' -> roundTrips cart' ->
          GuestCheckout.getCart host w' = (inr cart', w')).
Proof.
  intros cartJson host item w _.
  destruct (addItem_saves host item w) as (cart' & Hmerged & Hsave).
  exists cart'. cbv zeta. split; [ exact Hmerged |].
  rewrite Hsave.
  split; [ apply saveCart_returns |]. split; [ reflexivity |].
  apply getCart_after_save.
Qed.

Lemma addItem_adds_to_the_line_of_the_variant_or_appends_witness :
  exists cart',
    let w' :=
      snd (GuestCheckout.addItem (cartJson := Examples.cartJson)
             Examples.browser Examples.oneMoreDress Examples.dressStorage) in
    mergedInto Examples.browser Examples.oneMoreDress
      (cartIn (cartJson := Examples.cartJson) Examples.browser
         Examples.dressStorage)
      cart'
    /\ fst (GuestCheckout.addItem (cartJson := Examples.cartJson)
              Examples.browser Examples.oneMoreDress Examples.dressStorage)
       = inr tt
    /\ GuestCheckout.addItem (cartJson := Examples.cartJson)
         Examples.browser Examples.oneMoreDress Examples.dressStorage
       = GuestCheckout.saveCart (cartJson := Examples.cartJson)
           Examples.browser cart' Examples.dressStorage
    /\ (storageOpen Examples.browser ->
        fits (cartJson := Examples.cartJson) Examples.browser
          Examples.dressStorage cart' ->
        roundTrips (cartJson := Examples.cartJson) cart' ->
        GuestCheckout.getCart (cartJson := Examples.cartJson)
          Examples.browser w'
        = (inr cart', w')).
Proof.
  apply (addItem_adds_to_the_line_of_the_variant_or_appends Examples.cartJson
           Examples.browser Examples.oneMoreDress Examples.dressStorage).
  intros text Hentry. right. right. exists [Examples.dress].
  injection Hentry as <-. split; reflexivity.
Defined.

(** With one more dress the line of the dresses holds three. *)
Lemma one_more_dress_makes_three :
  GuestCheckout.getCart (cartJson := Examples.cartJson) Examples.browser
    (snd (GuestCheckout.addItem (cartJson := Examples.cartJson)
            Examples.browser Examples.oneMoreDress Examples.dressStorage))
  = (inr [Examples.threeDresses],
     snd (GuestCheckout.addItem (cartJson := Examples.cartJson)
            Examples.browser Examples.oneMoreDress Examples.dressStorage)).
Proof. reflexivity. Qed.

(** X18.  The cart that [addItem] saves has a line for the product, size
    and color of the item, has the lines of the cart it read or one
    more, and has one line for each variant if the cart it read had. *)
Theorem addItem_keeps_one_line_for_each_variant :
  forall (cartJson : GuestCheckout.Json (list GuestCheckout.GuestCartItem.t))
         (host : GuestCheckout.Host) (item : GuestCheckout.NewItem.t)
         (w : GuestCheckout.World),
  exists cart',
    GuestCheckout.addItem host item w = GuestCheckout.saveCart host cart' w
    /\ In (variantOf item) (map variant cart')
    /\ (NoDup (map variant (cartIn host w)) -> NoDup (map variant cart'))
    /\ (List.length cart' = List.length (cartIn host w)
        \/ List.length cart' = S (List.length (cartIn host w))).
Proof.
  intros cartJson host item w.
  destruct (addItem_saves host item w) as (cart' & [Hnew Hold] & Hsave).
  exists cart'. split; [ exact Hsave |].
  destruct (findIndex_cases (GuestCheckout.sameVariant item) (cartIn host w))
    as [[_ Hnone] | (before & found & after & Hcart & Hbefore & Hfound & _)].
  - rewrite (Hnew Hnone), map_app, length_app. simpl.
    split; [| split; [| right; lia ] ].
    + apply in_or_app. right. now left.
    + intros Hdistinct. apply NoDup_app; auto.
      * repeat constructor. tauto.
      * intros v Hin [<- | []].
        apply in_map_iff in Hin. destruct Hin as (line & Hv & Hin).
        assert (GuestCheckout.sameVariant item line = true)
          by now apply sameVariant_variant.
        specialize (Hnone line Hin). congruence.
  - rewrite (Hold before found after Hcart Hbefore Hfound), Hcart.
    rewrite !map_app, !length_app. simpl.
    change (variant (GuestCheckout.setQuantity _ found)) with (variant found).
    split; [| split; [ tauto | left; reflexivity ] ].
    apply in_or_app. right. left. now apply sameVariant_variant.
Qed.

(** X19.  On a storage whose cart entry, if any, is empty, is refused
    by [JSON.parse] or was written by [saveCart], [updateQuantity] does
    not throw.  For an id that no line of the cart has, it leaves the
    world untouched.  Otherwise it saves the
    cart without the first line that has the id when the quantity is at
    most 0, and with the quantity of that line replaced when it is not,
    a quantity that is not a number included; the other lines are as
    they were, and [getCart] returns the new cart when the storage takes
    it. *)
Theorem updateQuantity_changes_the_first_line_with_the_id :
  forall (cartJson : GuestCheckout.Json (list GuestCheckout.GuestCartItem.t))
         (host : GuestCheckout.Host) (itemId : string) (quantity : Js.number)
         (w : GuestCheckout.World),
    wellStored w ->
    let w' := snd (GuestCheckout.updateQuantity host itemId quantity w) in
    fst (GuestCheckout.updateQuantity host itemId quantity w) = inr tt
    /\ (~ In itemId (ids (cartIn host w)) -> w' = w)
    /\ (forall before found after,
          cartIn host w = before ++ found :: after ->
          ~ In itemId (ids before) ->
          GuestCheckout.GuestCartItem.id found = itemId ->
          let cart' := requantified quantity before found after in
          storageOpen host -> fits host w cart' -> roundTrips cart' ->
          GuestCheckout.getCart host w' = (inr cart', w')).
Proof.
  intros cartJson host itemId quantity w _. cbv zeta.
  assert (Hno : forall l, ~ In itemId (ids l) ->
                  forall line, In line l ->
                               GuestCheckout.hasId itemId line = false).
  { intros l Hnot line Hin. unfold GuestCheckout.hasId.
    destruct (String.eqb_spec (GuestCheckout.GuestCartItem.id line) itemId)
      as [Hid |]; auto.
    destruct Hnot. rewrite <- Hid. unfold ids. now apply in_map. }
  split; [| split ].
  - destruct (findIndex_cases (GuestCheckout.hasId itemId) (cartIn host w))
      as [[_ Hnone] | (before & found & after & Hcart & Hbefore & Hfound & _)].
    + now rewrite updateQuantity_unknown.
    + rewrite (updateQuantity_saves host itemId quantity w before found after)
        by assumption.
      apply saveCart_returns.
  - intros Hnot.
    rewrite updateQuantity_unknown by (apply Hno; assumption). reflexivity.
  - intros before found after Hcart Hbefore Hfound Hopen Hfits Hround.
    rewrite (updateQuantity_saves host itemId quantity w before found after).
    + now apply getCart_after_save.
    + exact Hcart.
    + now apply Hno.
    + unfold GuestCheckout.hasId. now apply String.eqb_eq.
Qed.

Lemma updateQuantity_changes_the_first_line_with_the_id_witness :
  let updated :=
    GuestCheckout.updateQuantity (cartJson := Examples.cartJson)
      Examples.browser "guest_1735689500000_a1b2c3d4e" 3%float
      Examples.dressStorage in
  fst updated = inr tt
  /\ GuestCheckout.getCart (cartJson := Examples.cartJson) Examples.browser
       (snd updated)
     = (inr [Examples.threeDresses], snd updated).
Proof.
  destruct (updateQuantity_changes_the_first_line_with_the_id
              Examples.cartJson Examples.browser
              "guest_1735689500000_a1b2c3d4e" 3%float Examples.dressStorage)
    as (Hreturns & _ & Hfound).
  { intros text Hentry. right. right. exists [Examples.dress].
    injection Hentry as <-. split; reflexivity. }
  cbv zeta. split; [ exact Hreturns |].
  apply (Hfound [] Examples.dress []).
  - reflexivity.
  - intros [].
  - reflexivity.
  - split; reflexivity.
  - reflexivity.
  - split; [ reflexivity | discriminate ].
Defined.

(** X20.  On a cart whose ids are distinct, [updateQuantity] with a
    quantity that is at most 0 does what [removeItem] does, for an id
    that the cart holds. *)
Theorem updateQuantity_to_nothing_is_removeItem :
  forall (cartJson : GuestCheckout.Json (list GuestCheckout.GuestCartItem.t))
         (host : GuestCheckout.Host) (itemId : string) (quantity : Js.number)
         (w : GuestCheckout.World),
    Js.le quantity 0%float = true ->
    NoDup (ids (cartIn host w)) ->
    In itemId (ids (cartIn host w)) ->
    GuestCheckout.updateQuantity host itemId quantity w
    = GuestCheckout.removeItem host itemId w.
Proof.
  intros cartJson host itemId quantity w Hquantity Hdistinct Hin.
  destruct (findIndex_cases (GuestCheckout.hasId itemId) (cartIn host w))
    as [[_ Hnone] | (before & found & after & Hcart & Hbefore & Hfound & _)].
  - unfold ids in Hin. apply in_map_iff in Hin.
    destruct Hin as (line & Hid & Hline).
    specialize (Hnone line Hline). unfold GuestCheckout.hasId in Hnone.
    rewrite Hid, String.eqb_refl in Hnone. discriminate.
  - rewrite (updateQuantity_saves host itemId quantity w before found after)
      by assumption.
    rewrite removeItem_saves. unfold requantified. rewrite Hquantity.
    rewrite Hcart in *. now rewrite filter_distinct.
Qed.

Lemma updateQuantity_to_nothing_is_removeItem_witness :
  GuestCheckout.updateQuantity (cartJson := Examples.cartJson)
    Examples.browser "guest_1735689500000_a1b2c3d4e" 0%float
    Examples.dressStorage
  = GuestCheckout.removeItem (cartJson := Examples.cartJson)
      Examples.browser "guest_1735689500000_a1b2c3d4e" Examples.dressStorage.
Proof.
  apply (updateQuantity_to_nothing_is_removeItem Examples.cartJson
           Examples.browser "guest_1735689500000_a1b2c3d4e" 0%float
           Examples.dressStorage).
  - reflexivity.
  - vm_compute. repeat constructor. simpl. tauto.
  - vm_compute. now left.
Defined.

Section CartReadings.

Context {cartJson : GuestCheckout.Json (list GuestCheckout.GuestCartItem.t)}.
Context {checkoutJson : GuestCheckout.Json GuestCheckout.GuestCheckoutData.t}.
Variable host : GuestCheckout.Host.

Lemma cartIn_server w :
  GuestCheckout.hasWindow host = false -> cartIn host w = [].
Proof.
  intros Hwindow. unfold cartIn, GuestCheckout.getCart. now rewrite Hwindow.
Qed.

Lemma getItemCount_returns w :
  GuestCheckout.getItemCount host w
  = (inr (fold_left
            (fun total item =>
               (total + GuestCheckout.GuestCartItem.quantity item)%float)
            (cartIn host w) 0%float),
     w).
Proof. unfold GuestCheckout.getItemCount. now rewrite bind_getCart. Qed.

Lemma getSubtotal_returns w :
  GuestCheckout.getSubtotal host w
  = (inr (fold_left
            (fun total item =>
               (total
                + GuestCheckout.priceOf item
                  * GuestCheckout.GuestCartItem.quantity item)%float)
            (cartIn host w) 0%float),
     w).
Proof. unfold GuestCheckout.getSubtotal. now rewrite bind_getCart. Qed.

(** [getCart] looks at nothing but its entry of the storage. *)
Lemma cartIn_same_entry w w' :
  GuestCheckout.lookup GuestCheckout.GUEST_CART_KEY
    (GuestCheckout.localStorage w)
  = GuestCheckout.lookup GuestCheckout.GUEST_CART_KEY
      (GuestCheckout.localStorage w') ->
  cartIn host w = cartIn host w'.
Proof.
  intros H. unfold cartIn, GuestCheckout.getCart. unfold_storage.
  destruct (GuestCheckout.hasWindow host); simpl; auto.
  destruct (GuestCheckout.storageBlocked host); simpl; auto.
  rewrite H. clear H.
  destruct (GuestCheckout.lookup _ _) as [text |]; simpl; auto.
  destruct (Js.truthy text); simpl; auto.
  destruct (GuestCheckout.parse text); reflexivity.
Qed.

(** [getCheckoutData] looks at nothing but its entry of the storage. *)
Lemma getCheckoutData_same_entry w w' :
  GuestCheckout.lookup GuestCheckout.GUEST_CHECKOUT_KEY
    (GuestCheckout.localStorage w)
  = GuestCheckout.lookup GuestCheckout.GUEST_CHECKOUT_KEY
      (GuestCheckout.localStorage w') ->
  fst (GuestCheckout.getCheckoutData host w)
  = fst (GuestCheckout.getCheckoutData host w').
Proof.
  intros H. unfold GuestCheckout.getCheckoutData. unfold_storage.
  destruct (GuestCheckout.hasWindow host); simpl; auto.
  destruct (GuestCheckout.storageBlocked host); simpl; auto.
  rewrite H. clear H.
  destruct (GuestCheckout.lookup _ _) as [text |]; simpl; auto.
  destruct (Js.truthy text); simpl; auto.
  destruct (GuestCheckout.parse text); reflexivity.
Qed.

Lemma keys_differ :
  GuestCheckout.GUEST_CHECKOUT_KEY <> GuestCheckout.GUEST_CART_KEY.
Proof. discriminate. Qed.

(** [saveCart] leaves the other entries of the storage in place. *)
Lemma saveCart_other_entries cart w key :
  key <> GuestCheckout.GUEST_CART_KEY ->
  GuestCheckout.lookup key
    (GuestCheckout.localStorage (snd (GuestCheckout.saveCart host cart w)))
  = GuestCheckout.lookup key (GuestCheckout.localStorage w).
Proof.
  intros Hkey.
  destruct (saveCart_cases host cart w) as [-> | [(_ & _ & ->) | ->]];
    cbn [snd]; auto.
  now apply lookup_withCart_other.
Qed.

Lemma clearCart_other_entries w key :
  key <> GuestCheckout.GUEST_CART_KEY ->
  GuestCheckout.lookup key
    (GuestCheckout.localStorage (snd (GuestCheckout.clearCart host w)))
  = GuestCheckout.lookup key (GuestCheckout.localStorage w).
Proof.
  intros Hkey. unfold GuestCheckout.clearCart. unfold_storage.
  destruct (GuestCheckout.hasWindow host); cbn [negb snd]; auto.
  destruct (GuestCheckout.storageBlocked host); cbn [fst snd]; auto.
  unfold GuestCheckout.setEntries. cbn [GuestCheckout.localStorage].
  now apply lookup_without_other.
Qed.

Lemma checkout_writes_keep_the_cart data w :
  GuestCheckout.lookup GuestCheckout.GUEST_CART_KEY
    (GuestCheckout.localStorage
       (snd (GuestCheckout.saveCheckoutData host data w)))
  = GuestCheckout.lookup GuestCheckout.GUEST_CART_KEY
      (GuestCheckout.localStorage w)
  /\ GuestCheckout.lookup GuestCheckout.GUEST_CART_KEY
       (GuestCheckout.localStorage
          (snd (GuestCheckout.clearCheckoutData host w)))
     = GuestCheckout.lookup GuestCheckout.GUEST_CART_KEY
         (GuestCheckout.localStorage w).
Proof.
  unfold GuestCheckout.saveCheckoutData, GuestCheckout.clearCheckoutData.
  unfold_storage.
  destruct (GuestCheckout.hasWindow host); cbn [negb snd]; auto.
  destruct (GuestCheckout.storageBlocked host); cbn [fst snd]; auto.
  split.
  - destruct (GuestCheckout.hasRoom host _ _ _); cbn [fst snd]; auto.
    unfold GuestCheckout.setEntries.
    cbn [GuestCheckout.localStorage GuestCheckout.lookup].
    destruct (String.eqb_spec GuestCheckout.GUEST_CHECKOUT_KEY
                GuestCheckout.GUEST_CART_KEY) as [E |]; [ discriminate E |].
    apply lookup_without_other. discriminate.
  - unfold GuestCheckout.setEntries. cbn [GuestCheckout.localStorage].
    apply lookup_without_other. discriminate.
Qed.

End CartReadings.

(** X21.  Where there is no window, on the server that renders the
    pages, every function of the module returns and leaves everything
    as it is: the cart read is empty, its count and subtotal are 0,
    there is no checkout data, the visitor is not taken for a guest,
    and nothing is saved, removed or migrated. *)
Theorem without_a_window_nothing_is_read_or_stored :
  forall (cartJson : GuestCheckout.Json (list GuestCheckout.GuestCartItem.t))
         (checkoutJson : GuestCheckout.Json GuestCheckout.GuestCheckoutData.t)
         (host : GuestCheckout.Host) (w : GuestCheckout.World),
    GuestCheckout.hasWindow host = false ->
    GuestCheckout.getCart host w = (inr [], w)
    /\ GuestCheckout.getItemCount host w = (inr 0%float, w)
    /\ GuestCheckout.getSubtotal host w = (inr 0%float, w)
    /\ (forall cart, GuestCheckout.saveCart host cart w = (inr tt, w))
    /\ (forall item, GuestCheckout.addItem host item w = (inr tt, w))
    /\ (forall itemId quantity,
          GuestCheckout.updateQuantity host itemId quantity w = (inr tt, w))
    /\ (forall itemId, GuestCheckout.removeItem host itemId w = (inr tt, w))
    /\ GuestCheckout.clearCart host w = (inr tt, w)
    /\ GuestCheckout.getCheckoutData host w = (inr None, w)
    /\ (forall data,
          GuestCheckout.saveCheckoutData host data w = (inr tt, w))
    /\ GuestCheckout.clearCheckoutData host w = (inr tt, w)
    /\ GuestCheckout.isGuestUser host w = (inr false, w)
    /\ (forall userId,
          GuestCheckout.migrateGuestCartToUser host userId w = (inr tt, w)).
Proof.
  intros cartJson checkoutJson host w Hwindow.
  pose proof (cartIn_server host w Hwindow) as Hcart.
  repeat split; intros.
  - now rewrite getCart_returns, Hcart.
  - now rewrite getItemCount_returns, Hcart.
  - now rewrite getSubtotal_returns, Hcart.
  - now apply saveCart_server.
  - destruct (addItem_saves host item w) as (cart' & _ & ->).
    now apply saveCart_server.
  - apply updateQuantity_unknown. rewrite Hcart. intros line [].
  - rewrite removeItem_saves. now apply saveCart_server.
  - unfold GuestCheckout.clearCart. now rewrite Hwindow.
  - unfold GuestCheckout.getCheckoutData. now rewrite Hwindow.
  - unfold GuestCheckout.saveCheckoutData. now rewrite Hwindow.
  - unfold GuestCheckout.clearCheckoutData. now rewrite Hwindow.
  - unfold GuestCheckout.isGuestUser. now rewrite Hwindow.
  - unfold GuestCheckout.migrateGuestCartToUser.
    rewrite bind_getCart, Hcart. reflexivity.
Qed.

Lemma without_a_window_nothing_is_read_or_stored_witness :
  GuestCheckout.getCart (cartJson := Examples.cartJson) Examples.server
    Examples.dressStorage
  = (inr [], Examples.dressStorage).
Proof.
  apply (without_a_window_nothing_is_read_or_stored Examples.cartJson
           {| GuestCheckout.stringify := fun _ => "{}";
              GuestCheckout.parse := fun _ =>
                inl (Js.HostError "SyntaxError") |}
           Examples.server Examples.dressStorage).
  reflexivity.
Defined.

(** X22.  In a browser whose storage is blocked or has no room, and
    whose cart entry, if any, is empty, is refused by [JSON.parse] or
    was written by [saveCart], [addItem] and [removeItem] return as if
    nothing had happened: the storage is
    as it was, the cart read afterwards is the cart read before, and the
    only trace is one line on the console. *)
Theorem a_cart_that_cannot_be_stored_is_dropped :
  forall (cartJson : GuestCheckout.Json (list GuestCheckout.GuestCartItem.t))
         (host : GuestCheckout.Host) (w : GuestCheckout.World),
    wellStored w ->
    GuestCheckout.hasWindow host = true ->
    (forall cart, ~ (storageOpen host /\ fits host w cart)) ->
    (forall item,
       GuestCheckout.addItem host item w
       = (inr tt, withLine "Failed to save guest cart:" w))
    /\ (forall itemId,
          GuestCheckout.removeItem host itemId w
          = (inr tt, withLine "Failed to save guest cart:" w))
    /\ cartIn host (withLine "Failed to save guest cart:" w) = cartIn host w
    /\ GuestCheckout.localStorage (withLine "Failed to save guest cart:" w)
       = GuestCheckout.localStorage w.
Proof.
  intros cartJson host w _ Hwindow Hfails.
  split; [| split; [| split ] ].
  - intros item. destruct (addItem_saves host item w) as (cart' & _ & ->).
    now apply saveCart_fails.
  - intros itemId. rewrite removeItem_saves. now apply saveCart_fails.
  - now apply cartIn_same_storage.
  - reflexivity.
Qed.

Lemma a_cart_that_cannot_be_stored_is_dropped_witness :
  (forall item,
     GuestCheckout.addItem (cartJson := Examples.cartJson)
       Examples.fullBrowser item Examples.dressStorage
     = (inr tt, withLine "Failed to save guest cart:" Examples.dressStorage))
  /\ (forall itemId,
        GuestCheckout.removeItem (cartJson := Examples.cartJson)
          Examples.fullBrowser itemId Examples.dressStorage
        = (inr tt,
           withLine "Failed to save guest cart:" Examples.dressStorage))
  /\ cartIn (cartJson := Examples.cartJson) Examples.fullBrowser
       (withLine "Failed to save guest cart:" Examples.dressStorage)
     = cartIn (cartJson := Examples.cartJson) Examples.fullBrowser
         Examples.dressStorage
  /\ GuestCheckout.localStorage
       (withLine "Failed to save guest cart:" Examples.dressStorage)
     = GuestCheckout.localStorage Examples.dressStorage.
Proof.
  apply (a_cart_that_cannot_be_stored_is_dropped Examples.cartJson
           Examples.fullBrowser Examples.dressStorage).
  - intros text Hentry. right. right. exists [Examples.dress].
    injection Hentry as <-. split; reflexivity.
  - reflexivity.
  - intros cart [_ Hfits]. discriminate Hfits.
Defined.

(** X23.  In a browser, [clearCart] with an open storage removes the
    entry of the cart and no other: afterwards the cart read is empty
    and its count and subtotal are 0.  With a blocked storage it is the
    one function of [guestCartUtils] that throws. *)
Theorem clearCart_empties_the_cart_or_throws :
  forall (cartJson : GuestCheckout.Json (list GuestCheckout.GuestCartItem.t))
         (host : GuestCheckout.Host) (w : GuestCheckout.World),
    GuestCheckout.hasWindow host = true ->
    let w' := snd (GuestCheckout.clearCart host w) in
    (GuestCheckout.storageBlocked host = None ->
     fst (GuestCheckout.clearCart host w) = inr tt
     /\ GuestCheckout.getCart host w' = (inr [], w')
     /\ GuestCheckout.getItemCount host w' = (inr 0%float, w')
     /\ GuestCheckout.getSubtotal host w' = (inr 0%float, w')
     /\ forall key,
          key <> GuestCheckout.GUEST_CART_KEY ->
          GuestCheckout.lookup key (GuestCheckout.localStorage w')
          = GuestCheckout.lookup key (GuestCheckout.localStorage w))
    /\ (forall e,
          GuestCheckout.storageBlocked host = Some e ->
          GuestCheckout.clearCart host w = (inl e, w)
          /\ (forall cart, fst (GuestCheckout.saveCart host cart w) = inr tt)
          /\ (forall item, fst (GuestCheckout.addItem host item w) = inr tt)
          /\ (forall itemId,
                fst (GuestCheckout.removeItem host itemId w) = inr tt)).
Proof.
  intros cartJson host w Hwindow. cbv zeta. split.
  - intros Hopen.
    assert (Hcart : cartIn host (snd (GuestCheckout.clearCart host w)) = []).
    { unfold cartIn, GuestCheckout.getCart, GuestCheckout.clearCart.
      unfold_storage. rewrite Hwindow, Hopen. cbn [negb fst snd].
      unfold GuestCheckout.setEntries. cbn [GuestCheckout.localStorage].
      now rewrite lookup_without_same. }
    split; [| split; [| split; [| split ] ] ].
    + unfold GuestCheckout.clearCart. unfold_storage.
      now rewrite Hwindow, Hopen.
    + now rewrite getCart_returns, Hcart.
    + now rewrite getItemCount_returns, Hcart.
    + now rewrite getSubtotal_returns, Hcart.
    + intros key Hkey. now apply clearCart_other_entries.
  - intros e Hblocked. split; [| split; [| split ] ].
    + unfold GuestCheckout.clearCart. unfold_storage.
      now rewrite Hwindow, Hblocked.
    + intros cart. apply saveCart_returns.
    + intros item. destruct (addItem_saves host item w) as (cart' & _ & ->).
      apply saveCart_returns.
    + intros itemId. rewrite removeItem_saves. apply saveCart_returns.
Qed.

Lemma clearCart_empties_the_cart_or_throws_witness :
  let w' :=
    snd (GuestCheckout.clearCart Examples.browser Examples.dressStorage) in
  (GuestCheckout.storageBlocked Examples.browser = None ->
   fst (GuestCheckout.clearCart Examples.browser Examples.dressStorage)
   = inr tt
   /\ GuestCheckout.getCart (cartJson := Examples.cartJson)
        Examples.browser w' = (inr [], w')
   /\ GuestCheckout.getItemCount (cartJson := Examples.cartJson)
        Examples.browser w' = (inr 0%float, w')
   /\ GuestCheckout.getSubtotal (cartJson := Examples.cartJson)
        Examples.browser w' = (inr 0%float, w')
   /\ forall key,
        key <> GuestCheckout.GUEST_CART_KEY ->
        GuestCheckout.lookup key (GuestCheckout.localStorage w')
        = GuestCheckout.lookup key
            (GuestCheckout.localStorage Examples.dressStorage))
  /\ (forall e,
        GuestCheckout.storageBlocked Examples.browser = Some e ->
        GuestCheckout.clearCart Examples.browser Examples.dressStorage
        = (inl e, Examples.dressStorage)
        /\ (forall cart,
              fst (GuestCheckout.saveCart (cartJson := Examples.cartJson)
                     Examples.browser cart Examples.dressStorage) = inr tt)
        /\ (forall item,
              fst (GuestCheckout.addItem (cartJson := Examples.cartJson)
                     Examples.browser item Examples.dressStorage) = inr tt)
        /\ (forall itemId,
              fst (GuestCheckout.removeItem (cartJson := Examples.cartJson)
                     Examples.browser itemId Examples.dressStorage)
              = inr tt)).
Proof.
  apply (clearCart_empties_the_cart_or_throws Examples.cartJson
           Examples.browser Examples.dressStorage).
  reflexivity.
Defined.

(** X24.  When no line of the cart has the product, size and color of
    the item and the storage takes the new cart, [addItem] raises what
    [getItemCount] returns by the quantity of the item, and what
    [getSubtotal] returns by that quantity times the price of the
    product the item carries, 0 if it carries none. *)
Theorem addItem_of_a_new_variant_raises_count_and_subtotal :
  forall (cartJson : GuestCheckout.Json (list GuestCheckout.GuestCartItem.t))
         (host : GuestCheckout.Host) (item : GuestCheckout.NewItem.t)
         (w : GuestCheckout.World),
    let cart' := cartIn host w ++ [GuestCheckout.newItem host item] in
    let w' := snd (GuestCheckout.addItem host item w) in
    (forall line, In line (cartIn host w) ->
                  GuestCheckout.sameVariant item line = false) ->
    storageOpen host -> fits host w cart' -> roundTrips cart' ->
    exists count subtotal,
      GuestCheckout.getItemCount host w = (inr count, w)
      /\ GuestCheckout.getSubtotal host w = (inr subtotal, w)
      /\ GuestCheckout.getItemCount host w'
         = (inr (count + GuestCheckout.NewItem.quantity item)%float, w')
      /\ GuestCheckout.getSubtotal host w'
         = (inr (subtotal
                 + Js.orZero
                     (option_map GuestCheckout.ProductInfo.price
                        (GuestCheckout.NewItem.product item))
                   * GuestCheckout.NewItem.quantity item)%float,
            w').
Proof.
  intros cartJson host item w cart' w' Hnone Hopen Hfits Hround.
  destruct (addItem_saves host item w) as (saved & [Hnew _] & Hsave).
  specialize (Hnew Hnone). fold cart' in Hnew. subst saved.
  assert (Hcart : cartIn host w' = cart').
  { unfold w'. rewrite Hsave, saveCart_stores by assumption.
    now apply cartIn_withCart. }
  do 2 eexists.
  rewrite !getItemCount_returns, !getSubtotal_returns, Hcart.
  unfold cart'. rewrite !fold_left_app.
  repeat split; reflexivity.
Qed.

Lemma addItem_of_a_new_variant_raises_count_and_subtotal_witness :
  let w' :=
    snd (GuestCheckout.addItem (cartJson := Examples.cartJson)
           Examples.browser Examples.aScarf Examples.dressStorage) in
  exists count subtotal,
    GuestCheckout.getItemCount (cartJson := Examples.cartJson)
      Examples.browser Examples.dressStorage
    = (inr count, Examples.dressStorage)
    /\ GuestCheckout.getSubtotal (cartJson := Examples.cartJson)
         Examples.browser Examples.dressStorage
       = (inr subtotal, Examples.dressStorage)
    /\ GuestCheckout.getItemCount (cartJson := Examples.cartJson)
         Examples.browser w'
       = (inr (count + GuestCheckout.NewItem.quantity Examples.aScarf)%float,
          w')
    /\ GuestCheckout.getSubtotal (cartJson := Examples.cartJson)
         Examples.browser w'
       = (inr (subtotal
               + Js.orZero
                   (option_map GuestCheckout.ProductInfo.price
                      (GuestCheckout.NewItem.product Examples.aScarf))
                 * GuestCheckout.NewItem.quantity Examples.aScarf)%float,
          w').
Proof.
  apply (addItem_of_a_new_variant_raises_count_and_subtotal Examples.cartJson
           Examples.browser Examples.aScarf Examples.dressStorage).
  - intros line Hin. vm_compute in Hin. destruct Hin as [<- | []].
    reflexivity.
  - split; reflexivity.
  - reflexivity.
  - split; [ reflexivity | discriminate ].
Defined.

(** X25.  The cart and the checkout data do not touch each other: no
    function of [guestCartUtils] changes what [getCheckoutData]
    returns, and neither [saveCheckoutData] nor [clearCheckoutData]
    changes the cart that [getCart] returns. *)
Theorem cart_and_checkout_data_are_independent :
  forall (cartJson : GuestCheckout.Json (list GuestCheckout.GuestCartItem.t))
         (checkoutJson : GuestCheckout.Json GuestCheckout.GuestCheckoutData.t)
         (host : GuestCheckout.Host) (w : GuestCheckout.World),
    let checkoutData w := fst (GuestCheckout.getCheckoutData host w) in
    (forall cart,
       checkoutData (snd (GuestCheckout.saveCart host cart w))
       = checkoutData w)
    /\ (forall item,
          checkoutData (snd (GuestCheckout.addItem host item w))
          = checkoutData w)
    /\ (forall itemId quantity,
          checkoutData
            (snd (GuestCheckout.updateQuantity host itemId quantity w))
          = checkoutData w)
    /\ (forall itemId,
          checkoutData (snd (GuestCheckout.removeItem host itemId w))
          = checkoutData w)
    /\ checkoutData (snd (GuestCheckout.clearCart host w)) = checkoutData w
    /\ (forall data,
          cartIn host (snd (GuestCheckout.saveCheckoutData host data w))
          = cartIn host w)
    /\ cartIn host (snd (GuestCheckout.clearCheckoutData host w))
       = cartIn host w.
Proof.
  intros cartJson checkoutJson host w checkoutData. unfold checkoutData.
  assert (Hsave : forall cart,
            fst (GuestCheckout.getCheckoutData host
                   (snd (GuestCheckout.saveCart host cart w)))
            = fst (GuestCheckout.getCheckoutData host w)).
  { intros cart. apply getCheckoutData_same_entry.
    apply saveCart_other_entries, keys_differ. }
  split; [ exact Hsave |].
  split; [| split; [| split; [| split; [| split ] ] ] ].
  - intros item. destruct (addItem_saves host item w) as (cart' & _ & ->).
    apply Hsave.
  - intros itemId quantity.
    destruct (findIndex_cases (GuestCheckout.hasId itemId) (cartIn host w))
      as [[_ Hnone] | (before & found & after & Hcart & Hbefore & Hfound & _)].
    + now rewrite updateQuantity_unknown.
    + rewrite (updateQuantity_saves host itemId quantity w before found after)
        by assumption.
      apply Hsave.
  - intros itemId. rewrite removeItem_saves. apply Hsave.
  - apply getCheckoutData_same_entry.
    apply clearCart_other_entries, keys_differ.
  - intros data. apply cartIn_same_entry.
    apply checkout_writes_keep_the_cart.
  - apply cartIn_same_entry.
    apply (checkout_writes_keep_the_cart host
             (GuestCheckout.GuestCheckoutData.make
                (CustomerInfo.make "" "" "")
                (GuestCheckout.GuestAddress.make "" "" "" "" "")
                "" None)).
Qed.

(** *** The migration of the guest cart *)

Section Migration.

Context {cartJson : GuestCheckout.Json (list GuestCheckout.GuestCartItem.t)}.
Variable host : GuestCheckout.Host.
Variable userId : string.







End Migration.



(** *** The checkout form *)

Lemma validateForm_complete state :
  GuestCheckoutForm.validateForm state = true
  <-> Js.blank (CustomerInfo.full_name (GuestCheckoutForm.customerInfo state))
      = false
      /\ Js.blank (CustomerInfo.email (GuestCheckoutForm.customerInfo state))
         = false
      /\ Js.testAnywhere GuestCheckoutForm.emailPattern
           (CustomerInfo.email (GuestCheckoutForm.customerInfo state)) = true
      /\ Js.blank (CustomerInfo.phone (GuestCheckoutForm.customerInfo state))
         = false
      /\ Js.blank (GuestCheckout.GuestAddress.street_address
                     (GuestCheckoutForm.address state)) = false
      /\ Js.blank (GuestCheckout.GuestAddress.city
                     (GuestCheckoutForm.address state)) = false
      /\ Js.blank (GuestCheckout.GuestAddress.province
                     (GuestCheckoutForm.address state)) = false
      /\ Js.blank (GuestCheckout.GuestAddress.postal_code
                     (GuestCheckoutForm.address state)) = false.
Proof.
  unfold GuestCheckoutForm.validateForm, GuestCheckoutForm.newErrors,
    GuestCheckoutForm.errorIf.
  rewrite length_map, Nat.eqb_eq, length_zero_iff_nil.
  destruct (Js.blank (CustomerInfo.full_name _));
    destruct (Js.blank (CustomerInfo.email _));
    destruct (Js.testAnywhere _ _);
    destruct (Js.blank (CustomerInfo.phone _));
    destruct (Js.blank (GuestCheckout.GuestAddress.street_address _));
    destruct (Js.blank (GuestCheckout.GuestAddress.city _));
    destruct (Js.blank (GuestCheckout.GuestAddress.province _));
    destruct (Js.blank (GuestCheckout.GuestAddress.postal_code _));
    simpl; split; intros H; try discriminate; try tauto;
    repeat match goal with H : _ /\ _ |- _ => destruct H end;
    discriminate.
Qed.

(** The quantities of the draft are those of the cart. *)
Lemma draft_quantities props state :
  Forall (fun item => Js.le (CartItem.quantity item) 0%float = false)
    (cartItems (GuestCheckoutForm.validationOrderData props state))
  <-> Forall
        (fun item =>
           Js.le (GuestCheckout.GuestCartItem.quantity item) 0%float = false)
        (GuestCheckoutForm.cartItems props).
Proof.
  unfold GuestCheckoutForm.validationOrderData. cbn [cartItems].
  now rewrite Forall_map.
Qed.

Lemma string_append_nil_r s : (s ++ "")%string = s.
Proof. induction s as [| c s IH]; simpl; [ reflexivity | now rewrite IH ]. Qed.

Lemma join_holds sep l x : In x l -> holds (Js.join sep l) x.
Proof.
  unfold holds. induction l as [| y l IH]; intros Hin; [ destruct Hin |].
  destruct Hin as [-> | Hin].
  - destruct l as [| z l].
    + exists "", "". simpl. now rewrite string_append_nil_r.
    + exists "", (sep ++ Js.join sep (z :: l))%string. reflexivity.
  - destruct l as [| z l]; [ destruct Hin |].
    destruct (IH Hin) as (before & after & E).
    exists (y ++ sep ++ before)%string, after.
    change (Js.join sep (y :: z :: l))
      with (y ++ sep ++ Js.join sep (z :: l))%string.
    rewrite E. now rewrite !string_append_assoc.
Qed.

Lemma join_inhabited sep x l : x <> "" -> Js.join sep (x :: l) <> "".
Proof.
  intros Hx. destruct l as [| y l]; [ exact Hx |].
  change (Js.join sep (x :: y :: l))
    with (x ++ sep ++ Js.join sep (y :: l))%string.
  destruct x; [ contradiction | discriminate ].
Qed.

(** No error of the client has an empty message. *)
Lemma client_messages orderData :
  Forall (fun e => OrderValidationError.message e <> "")
    (errors (OrderValidationClient.validateOrderClient orderData)).
Proof.
  apply (appends_Forall
           (fun e => OrderValidationError.message e <> "")
           (OrderValidationClient.businessRules orderData) Arrays.empty);
    [| constructor ].
  unfold OrderValidationClient.businessRules,
    OrderValidationClient.checkGuest, OrderValidationClient.checkAuthenticated,
    OrderValidationClient.checkQuantity.
  appends_steps; cbn; discriminate.
Qed.

(** What the client can still push after the form was found complete. *)
Lemma client_codes_after_the_form props state :
  GuestCheckoutForm.validateForm state = true ->
  Forall (fun e => In (OrderValidationError.code e) codesAfterTheForm)
    (errors (OrderValidationClient.validateOrderClient
               (GuestCheckoutForm.validationOrderData props state))).
Proof.
  intros Hform. apply validateForm_complete in Hform.
  destruct Hform as (Hname & Hemail & _ & Hphone & Hstreet & Hcity
                     & Hprovince & Hpostal).
  apply (appends_Forall
           (fun e => In (OrderValidationError.code e) codesAfterTheForm)
           (OrderValidationClient.businessRules
              (GuestCheckoutForm.validationOrderData props state))
           Arrays.empty);
    [| constructor ].
  unfold OrderValidationClient.businessRules,
    OrderValidationClient.checkGuest, OrderValidationClient.checkQuantity,
    GuestCheckoutForm.validationOrderData.
  cbn [identity cartItems total deliveryMethod CustomerInfo.full_name
         CustomerInfo.email CustomerInfo.phone Address.street_address
         Address.city Address.province Address.postal_code].
  rewrite Hname, Hemail, Hphone, Hstreet, Hcity, Hprovince, Hpostal.
  cbn [Arrays.when].
  appends_steps; cbn; tauto.
Qed.

(** X27.  Once [validateForm] has found the form complete, the draft
    that [handleCheckout] builds from it can fail [validateOrderClient]
    only on the cart, the total, the delivery method and the email: it
    is valid exactly when the cart is not empty, no quantity is at most
    0, the total is not at most 0, a delivery method is chosen and the
    email matches the pattern of the client, which is stricter than the
    one of the form; the codes of its errors are among [EMPTY_CART],
    [INVALID_QUANTITY], [INVALID_TOTAL], [MISSING_DELIVERY_METHOD] and
    [INVALID_EMAIL]. *)
Theorem a_complete_form_fails_the_client_on_cart_total_method_or_email :
  forall (props : GuestCheckoutForm.Props) (state : GuestCheckoutForm.State),
    GuestCheckoutForm.validateForm state = true ->
    let result :=
      OrderValidationClient.validateOrderClient
        (GuestCheckoutForm.validationOrderData props state) in
    (isValid result = true
     <-> GuestCheckoutForm.cartItems props <> []
         /\ Forall
              (fun item =>
                 Js.le (GuestCheckout.GuestCartItem.quantity item) 0%float
                 = false)
              (GuestCheckoutForm.cartItems props)
         /\ Js.le (GuestCheckoutForm.total props state) 0%float = false
         /\ Js.truthy (GuestCheckoutForm.deliveryMethod state) = true
         /\ Js.testAnchored OrderValidationClient.emailPattern
              (CustomerInfo.email (GuestCheckoutForm.customerInfo state))
            = true)
    /\ Forall (fun e => In (OrderValidationError.code e) codesAfterTheForm)
         (errors result).
Proof.
  intros props state Hform result. unfold result.
  split; [| now apply client_codes_after_the_form ].
  unfold OrderValidationClient.validateOrderClient,
    OrderValidationClient.validateBusinessRules.
  rewrite run_valid, silent_client_businessRules. unfold clientAccepts.
  rewrite draft_quantities.
  apply validateForm_complete in Hform.
  destruct Hform as (Hname & Hemail & _ & Hphone & Hstreet & Hcity
                     & Hprovince & Hpostal).
  unfold GuestCheckoutForm.validationOrderData.
  cbn [identity cartItems total deliveryMethod CustomerInfo.full_name
         CustomerInfo.email CustomerInfo.phone Address.street_address
         Address.city Address.province Address.postal_code].
  assert (Hcart : map
                    (fun item =>
                       CartItem.make
                         (GuestCheckout.GuestCartItem.product_id item)
                         (GuestCheckout.GuestCartItem.quantity item)
                         (Js.orZero
                            (option_map GuestCheckoutForm.Product.price
                               (find
                                  (fun p =>
                                     (GuestCheckoutForm.Product.id p
                                      =? GuestCheckout.GuestCartItem.product_id
                                           item)%string)
                                  (GuestCheckoutForm.products props)))))
                    (GuestCheckoutForm.cartItems props) <> []
                  <-> GuestCheckoutForm.cartItems props <> []).
  { destruct (GuestCheckoutForm.cartItems props); simpl; split; congruence. }
  rewrite Hcart. tauto.
Qed.

Lemma a_complete_form_fails_the_client_on_cart_total_method_or_email_witness :
  let result :=
    OrderValidationClient.validateOrderClient
      (GuestCheckoutForm.validationOrderData Examples.dressProps
         Examples.twoAtForm) in
  (isValid result = true
   <-> GuestCheckoutForm.cartItems Examples.dressProps <> []
       /\ Forall
            (fun item =>
               Js.le (GuestCheckout.GuestCartItem.quantity item) 0%float
               = false)
            (GuestCheckoutForm.cartItems Examples.dressProps)
       /\ Js.le (GuestCheckoutForm.total Examples.dressProps
                   Examples.twoAtForm) 0%float = false
       /\ Js.truthy (GuestCheckoutForm.deliveryMethod Examples.twoAtForm)
          = true
       /\ Js.testAnchored OrderValidationClient.emailPattern
            (CustomerInfo.email
               (GuestCheckoutForm.customerInfo Examples.twoAtForm))
          = true)
  /\ Forall (fun e => In (OrderValidationError.code e) codesAfterTheForm)
       (errors result).
Proof.
  apply (a_complete_form_fails_the_client_on_cart_total_method_or_email
           Examples.dressProps Examples.twoAtForm).
  reflexivity.
Defined.

(** The form accepts an email that the client rejects. *)
Lemma twoAtForm_rejected_for_its_email :
  GuestCheckoutForm.validateForm Examples.twoAtForm = true
  /\ map OrderValidationError.code
       (errors (OrderValidationClient.validateOrderClient
                  (GuestCheckoutForm.validationOrderData Examples.dressProps
                     Examples.twoAtForm)))
     = ["INVALID_EMAIL"].
Proof. split; reflexivity. Qed.

(** X28.  [handleCheckout] returns at an incomplete form and while a
    checkout is in progress; it rejects a draft with a description that
    is not empty and holds the message of every error of the client;
    and the draft it lets through to the creation of the order is the
    one built from the form and meets everything the client asks. *)
Theorem validationStep_rejects_with_every_message_or_accepts_a_checked_draft :
  forall (props : GuestCheckoutForm.Props) (state : GuestCheckoutForm.State),
    let draft := GuestCheckoutForm.validationOrderData props state in
    let reported :=
      errors (OrderValidationClient.validateOrderClient draft) in
    match GuestCheckoutForm.validationStep props state with
    | GuestCheckoutForm.Incomplete =>
        GuestCheckoutForm.validateForm state = false
    | GuestCheckoutForm.Busy =>
        GuestCheckoutForm.validateForm state = true
        /\ GuestCheckoutForm.isProcessing state = true
    | GuestCheckoutForm.Rejected description =>
        GuestCheckoutForm.validateForm state = true
        /\ GuestCheckoutForm.isProcessing state = false
        /\ reported <> []
        /\ description <> ""
        /\ forall e, In e reported ->
                     holds description (OrderValidationError.message e)
    | GuestCheckoutForm.Accepted accepted =>
        GuestCheckoutForm.validateForm state = true
        /\ GuestCheckoutForm.isProcessing state = false
        /\ accepted = draft
        /\ clientAccepts draft
        /\ reported = []
    end.
Proof.
  intros props state draft reported.
  unfold GuestCheckoutForm.validationStep.
  destruct (GuestCheckoutForm.validateForm state); cbn [negb];
    [| reflexivity ].
  destruct (GuestCheckoutForm.isProcessing state); [ split; reflexivity |].
  fold draft.
  assert (Hnone : isValid (OrderValidationClient.validateOrderClient draft)
                  = true <-> reported = []).
  { unfold reported, OrderValidationClient.validateOrderClient,
      OrderValidationClient.validateBusinessRules.
    apply run_valid. }
  pose proof (client_messages draft) as Hmessages.
  unfold OrderValidationClient.formatValidationErrors.
  fold reported in Hmessages |- *. clearbody reported.
  destruct (isValid (OrderValidationClient.validateOrderClient draft))
    eqn:Hvalid; cbn [negb].
  - split; [ reflexivity |]. split; [ reflexivity |].
    split; [ reflexivity |].
    split; [| now apply Hnone ].
    apply silent_client_businessRules.
    unfold OrderValidationClient.validateOrderClient,
      OrderValidationClient.validateBusinessRules in Hvalid.
    now apply run_valid.
  - split; [ reflexivity |]. split; [ reflexivity |].
    destruct reported as [| e rest].
    + destruct Hnone as [_ Hnone]. now specialize (Hnone eq_refl).
    + split; [ discriminate |].
      cbn [List.length Nat.eqb map]. split.
      * apply join_inhabited. now inversion Hmessages.
      * intros e' Hin. apply join_holds.
        change (OrderValidationError.message e
                :: map OrderValidationError.message rest)
          with (map OrderValidationError.message (e :: rest)).
        now apply in_map.
Qed.

(** *** The patterns for an email *)

Lemma finer_nullable r r' :
  finer r r' -> Js.nullable r = true -> Js.nullable r' = true.
Proof.
  induction 1; simpl; intros Hn; try discriminate; auto.
  - apply andb_true_iff in Hn. destruct Hn. apply andb_true_iff. auto.
  - apply orb_true_iff in Hn. apply orb_true_iff. tauto.
  - apply orb_true_iff. auto.
Qed.

Lemma finer_deriv c r r' :
  finer r r' -> finer (Js.deriv c r) (Js.deriv c r').
Proof.
  induction 1 as [r | | p q Hpq | r1 r1' r2 r2' H1 IH1 H2 IH2
                  | r1 r1' r2 r2' H1 IH1 H2 IH2 | r r1 r2 H IH | r r' H IH];
    simpl.
  - constructor.
  - constructor.
  - destruct (p c) eqn:Hp.
    + rewrite (Hpq c Hp). constructor.
    + constructor.
  - destruct (Js.nullable r1) eqn:Hn.
    + rewrite (finer_nullable r1 r1' H1 Hn).
      apply finer_alt; [ now apply finer_cat | exact IH2 ].
    + destruct (Js.nullable r1').
      * apply finer_alt_left. now apply finer_cat.
      * now apply finer_cat.
  - now apply finer_alt.
  - now apply finer_alt_left.
  - apply finer_cat; [ exact IH | now apply finer_star ].
Qed.

Lemma finer_fullMatch s :
  forall r r',
    finer r r' -> Js.fullMatch r s = true -> Js.fullMatch r' s = true.
Proof.
  induction s as [| c s IH]; intros r r' Hfiner; simpl.
  - now apply finer_nullable.
  - apply IH. now apply finer_deriv.
Qed.

Lemma fullMatch_alt s :
  forall a b,
    Js.fullMatch (Js.Alt a b) s = Js.fullMatch a s || Js.fullMatch b s.
Proof.
  induction s as [| c s IH]; intros a b; simpl; [ reflexivity | apply IH ].
Qed.

Lemma fullMatch_cat s1 :
  forall a b s2,
    Js.fullMatch a s1 = true -> Js.fullMatch b s2 = true ->
    Js.fullMatch (Js.Cat a b) (s1 ++ s2) = true.
Proof.
  induction s1 as [| c s1 IH]; intros a b s2 Ha Hb; simpl in *.
  - destruct s2 as [| c s2]; simpl in *.
    + now rewrite Ha, Hb.
    + rewrite Ha, fullMatch_alt, Hb. apply orb_true_r.
  - destruct (Js.nullable a).
    + rewrite fullMatch_alt, IH by assumption. reflexivity.
    + now apply IH.
Qed.

(** A pattern that matches the whole string matches somewhere in it. *)
Lemma fullMatch_anywhere r s :
  Js.fullMatch r s = true -> Js.testAnywhere r s = true.
Proof.
  intros H. unfold Js.testAnywhere.
  change s with ("" ++ s)%string.
  apply fullMatch_cat; [ reflexivity |].
  rewrite <- (string_append_nil_r s).
  now apply fullMatch_cat.
Qed.

Lemma notSpaceOrAt_nonSpace c :
  OrderValidationClient.notSpaceOrAt c = true ->
  negb (Js.isWhiteSpace c) = true.
Proof.
  unfold OrderValidationClient.notSpaceOrAt.
  destruct (Js.isWhiteSpace c); simpl; auto.
Qed.

Lemma finer_refl_class p : finer (Js.Class p) (Js.Class p).
Proof. now constructor. Qed.

(** The pattern of the client is the pattern of the server and of the
    form with narrower classes. *)
Lemma client_pattern_finer :
  finer OrderValidationClient.emailPattern OrderValidation.emailPattern
  /\ finer OrderValidationClient.emailPattern GuestCheckoutForm.emailPattern.
Proof.
  unfold OrderValidationClient.emailPattern, OrderValidation.emailPattern,
    GuestCheckoutForm.emailPattern, Js.Plus, Js.Lit.
  split;
    repeat first
      [ apply finer_cat
      | apply finer_star
      | apply finer_refl_class
      | apply finer_class; exact notSpaceOrAt_nonSpace ].
Qed.

Lemma client_email_passes_the_server email :
  Js.testAnchored OrderValidationClient.emailPattern email = true ->
  Js.testAnywhere OrderValidation.emailPattern email = true.
Proof.
  intros H. apply fullMatch_anywhere.
  exact (finer_fullMatch email _ _ (proj1 client_pattern_finer) H).
Qed.

(** X29.  An email that the pattern of the client matches is matched by
    the pattern of the server validator and by the pattern of the
    checkout form: what passes [validateOrderClient] for its email
    passes the two other checks. *)
Theorem an_email_of_the_client_passes_the_server_and_the_form :
  forall email : string,
    Js.testAnchored OrderValidationClient.emailPattern email = true ->
    Js.testAnywhere OrderValidation.emailPattern email = true
    /\ Js.testAnywhere GuestCheckoutForm.emailPattern email = true.
Proof.
  intros email H. destruct client_pattern_finer as [Hserver Hform].
  split; apply fullMatch_anywhere.
  - exact (finer_fullMatch email _ _ Hserver H).
  - exact (finer_fullMatch email _ _ Hform H).
Qed.

Lemma an_email_of_the_client_passes_the_server_and_the_form_witness :
  Js.testAnywhere OrderValidation.emailPattern "john@example.com" = true
  /\ Js.testAnywhere GuestCheckoutForm.emailPattern "john@example.com" = true.
Proof.
  apply (an_email_of_the_client_passes_the_server_and_the_form
           "john@example.com").
  reflexivity.
Defined.

(** *** From the client to the server *)

Section Pipeline.

Context {runtime : Js.Runtime}.
Variable supabase : OrderValidation.Supabase.

Lemma emits_forOf_In {A} P (l : list A) (body : A -> Eff.t Arrays.t unit) :
  (forall x, In x l -> emits P (body x)) -> emits P (Eff.forOf l body).
Proof.
  induction l as [| x l IH]; intros Hb; simpl.
  - apply emits_ret.
  - apply emits_bind.
    + apply Hb. now left.
    + intros _. apply IH. intros y Hy. apply Hb. now right.
Qed.

Ltac left_to_the_server :=
  unfold leftToTheServer, codesOfTheClient; cbn;
  intuition discriminate.

Lemma emits_checkItem_positive item :
  Js.le (CartItem.quantity item) 0%float = false ->
  emits leftToTheServer (OrderValidation.checkItem supabase item).
Proof.
  intros Hquantity. unfold OrderValidation.checkItem. rewrite Hquantity.
  cbn [Eff.when].
  appends_steps; try apply emits_ret; left_to_the_server.
Qed.

Lemma emits_checkCart_accepted orderData :
  cartItems orderData <> [] ->
  Forall (fun item => Js.le (CartItem.quantity item) 0%float = false)
    (cartItems orderData) ->
  emits leftToTheServer (OrderValidation.checkCart supabase orderData).
Proof.
  intros Hcart Hquantities. unfold OrderValidation.checkCart.
  apply length_eqb_0 in Hcart. rewrite Hcart.
  apply emits_forOf_In. intros item Hin.
  apply emits_checkItem_positive.
  rewrite Forall_forall in Hquantities. now apply Hquantities.
Qed.

Lemma emits_identity_accepted orderData :
  clientAccepts orderData ->
  emits leftToTheServer
    match identity orderData with
    | Guest customerInfo address =>
        OrderValidation.checkGuest customerInfo address
    | Authenticated userId addressId =>
        OrderValidation.checkAuthenticated supabase userId addressId
    end.
Proof.
  intros (_ & _ & _ & _ & Hidentity).
  destruct (identity orderData) as [customerInfo address | userId addressId].
  - destruct Hidentity as (Hname & Hemail & Hpattern & _ & Hstreet & Hcity
                           & Hprovince & Hpostal).
    unfold OrderValidation.checkGuest.
    rewrite Hname, Hemail, Hstreet, Hcity, Hprovince, Hpostal.
    rewrite (client_email_passes_the_server _ Hpattern).
    cbn [Eff.when negb].
    appends_steps; apply emits_ret.
  - unfold OrderValidation.checkAuthenticated.
    appends_steps; left_to_the_server.
Qed.

Lemma emits_checkDiscount_left orderData :
  emits leftToTheServer (OrderValidation.checkDiscount supabase orderData).
Proof.
  unfold OrderValidation.checkDiscount.
  appends_steps; try apply emits_validateDiscountCode; left_to_the_server.
Qed.

Lemma emits_checkAmounts_accepted orderData :
  Js.le (total orderData) 0%float = false ->
  emits leftToTheServer (OrderValidation.checkAmounts orderData).
Proof.
  intros Htotal.
  unfold OrderValidation.checkAmounts, OrderValidation.totalCalculationError.
  rewrite Htotal. cbn [Eff.when].
  appends_steps; try apply emits_ret; left_to_the_server.
Qed.

Lemma databaseArrays_left orderData :
  clientAccepts orderData ->
  Forall leftToTheServer (Arrays.errors (databaseArrays supabase orderData)).
Proof.
  intros Haccepts. unfold databaseArrays.
  apply (emits_Forall_start leftToTheServer).
  apply emits_tryCatch;
    [| intros _; apply emits_pushError; left_to_the_server ].
  unfold OrderValidation.constraintChecks.
  pose proof (emits_identity_accepted orderData Haccepts) as Hidentity.
  destruct Haccepts as (Hcart & Hquantities & Htotal & _ & _).
  repeat match goal with
    | |- emits _ (Eff.bind _ _) => apply emits_bind; [| intros _ ]
    end.
  - unfold OrderValidation.checkDeliveryMethod.
    appends_steps. left_to_the_server.
  - now apply emits_checkCart_accepted.
  - exact Hidentity.
  - apply emits_checkDiscount_left.
  - now apply emits_checkAmounts_accepted.
Qed.

Lemma business_left orderData :
  Forall leftToTheServer
    (errors (OrderValidation.validateBusinessRules orderData)).
Proof.
  apply (appends_Forall leftToTheServer
           (OrderValidation.businessRules orderData) Arrays.empty);
    [| constructor ].
  unfold OrderValidation.businessRules, OrderValidation.checkMaxQuantity.
  appends_steps; left_to_the_server.
Qed.

End Pipeline.

(** X30.  On a draft that [validateOrderClient] accepts, [validateOrder]
    reports none of the errors of the checks the two have in common: no
    empty cart, no quantity or total that is not positive, and for a
    guest no missing name, email or address field and no email of a
    wrong format.  What it can still report comes from the database,
    the delivery method, the amounts and its own limits. *)
Theorem validateOrder_repeats_no_check_the_client_passed :
  forall (runtime : Js.Runtime) (supabase : OrderValidation.Supabase)
         (orderData : OrderData),
    isValid (OrderValidationClient.validateOrderClient orderData) = true ->
    exists result,
      OrderValidation.validateOrder supabase orderData = inr result
      /\ Forall
           (fun e => ~ In (OrderValidationError.code e) codesOfTheClient)
           (errors result).
Proof.
  intros runtime supabase orderData Hvalid.
  assert (Haccepts : clientAccepts orderData).
  { apply silent_client_businessRules.
    unfold OrderValidationClient.validateOrderClient,
      OrderValidationClient.validateBusinessRules in Hvalid.
    now apply run_valid. }
  unfold OrderValidation.validateOrder.
  rewrite validateDatabaseConstraints_returns.
  eexists. split; [ reflexivity |]. cbn [errors Arrays.result].
  apply Forall_app. split.
  - now apply databaseArrays_left.
  - apply business_left.
Qed.

Lemma validateOrder_repeats_no_check_the_client_passed_witness :
  exists result,
    OrderValidation.validateOrder (runtime := Examples.moneyRuntime)
      Examples.jestSupabase Examples.validGuestOrder = inr result
    /\ Forall
         (fun e => ~ In (OrderValidationError.code e) codesOfTheClient)
         (errors result).
Proof.
  apply (validateOrder_repeats_no_check_the_client_passed
           Examples.moneyRuntime Examples.jestSupabase
           Examples.validGuestOrder).
  reflexivity.
Defined.
